(** * Paper-Summaries: scripts/process_arxiv.py

    A shallow embedding of the arXiv summariser script and the properties
    of its processing pipeline.

    - Python [str] values are sequences of Unicode code points, [list N].
    - [re.search] is embedded for the fragment of regular expressions the
      script uses: literal characters, the class [\d], greedy bounded or
      unbounded repetition of one of these, and one capturing group at the
      end of the pattern.
    - Effects (HTTP requests, the arXiv and generation services, files)
      are threaded through a state-and-exception monad over a [World];
      the answers of the outside world are given by an [Env].
    - The script is embedded twice. In the first model every file
      operation goes through and the ledger file, when it exists, holds a
      list; it serves the properties about what the file operations do.
      In the second, [Disk], the operating system may refuse any file
      operation and the ledger file may be unreadable; it serves the
      properties about what can raise and where. The first is the second
      with nothing refused ([main_agrees]).
    - [print] calls write to the console only and are left out.
    - Every Telegram message carries its chat, so [message['chat']['id']]
      is always there; ['message'] and ['text'] may be missing. *)

From Stdlib Require Import String Ascii ZArith NArith List Lia DecimalString.
From stdpp Require Import gmap list.

Local Open Scope list_scope.

(** ** Python strings *)

(** A Python [str]: its code points, in order. *)
Definition pystr := list N.

(** An ASCII literal of the source as a [pystr]. *)
Definition py (s : string) : pystr := map N_of_ascii (list_ascii_of_string s).

(** The decimal digits [0] .. [9] of ASCII. *)
Definition ascii_digit (c : N) : bool := (48 <=? c)%N && (c <=? 57)%N.

(** ** Regular expressions: the fragment used by [extract_arxiv_id] *)

Module Re.

(** One character position of a pattern. *)
Inductive atom :=
| Chr (c : N)   (* a literal character; [\.] is [Chr 46] *)
| Digit.        (* [\d] *)

(** A quantified atom [a{lo,hi}]; [hi = None] is "no upper bound".
    A bare atom is [a{1,1}], [a+] is [a{1,}], [a{4}] is [a{4,4}].
    Repetition is greedy, as in Python. *)
Inductive item := Rep (a : atom) (lo : nat) (hi : option nat).

(** A pattern of the shape [prefix(group)]: the items before the capturing
    group and the items inside it. *)
Record pattern := Pattern { prefix : list item; group : list item }.

Definition one (a : atom) : item := Rep a 1 (Some 1).
Definition plus (a : atom) : item := Rep a 1 None.
Definition exactly (n : nat) (a : atom) : item := Rep a n (Some n).
Definition between (lo hi : nat) (a : atom) : item := Rep a lo (Some hi).

(** The literal text [s], one [Chr] per character. *)
Definition lit (s : string) : list item := map (fun c => one (Chr c)) (py s).

Section Engine.

(** The characters [\d] matches in a [str] pattern: Unicode category Nd.
    The table belongs to the Python runtime. *)
Variable is_digit : N -> bool.

Definition atom_ok (a : atom) (c : N) : bool :=
  match a with
  | Chr d => (c =? d)%N
  | Digit => is_digit c
  end.

(** The longest run the repetition may take at the head of [s]. *)
Fixpoint span (a : atom) (hi : option nat) (s : pystr) : nat :=
  match s with
  | [] => 0
  | c :: s' =>
      if atom_ok a c then
        match hi with
        | Some 0 => 0
        | Some (S h) => S (span a (Some h) s')
        | None => S (span a None s')
        end
      else 0
  end.

(** Try the counts [lo + extra], [lo + extra - 1], ..., [lo] in that
    order and keep the first that lets the rest of the pattern match. *)
Fixpoint backtrack {A} (rest : nat -> option A) (lo extra : nat) : option A :=
  match rest (lo + extra) with
  | Some r => Some r
  | None =>
      match extra with
      | 0 => None
      | S e => backtrack rest lo e
      end
  end.

(** Match the items at the head of [s]. The result lists, item by item,
    how many characters each one took. *)
Fixpoint match_items (its : list item) (s : pystr) : option (list nat) :=
  match its with
  | [] => Some []
  | Rep a lo hi :: rest =>
      let n := span a hi s in
      if n <? lo then None
      else backtrack
             (fun k => option_map (cons k) (match_items rest (drop k s)))
             lo (n - lo)
  end.

(** Scan for the leftmost position where the items match. [pos] counts
    the characters already skipped. *)
Fixpoint search_from (its : list item) (s : pystr) (pos : nat)
  : option (nat * list nat) :=
  match match_items its s with
  | Some ks => Some (pos, ks)
  | None =>
      match s with
      | [] => None
      | _ :: s' => search_from its s' (S pos)
      end
  end.

Definition total (ks : list nat) : nat := fold_right Nat.add 0 ks.

(** [re.search(p, text)] followed by [.group(1)]: [None] when there is
    no match. *)
Definition search_group1 (p : pattern) (text : pystr) : option pystr :=
  match search_from (prefix p ++ group p) text 0 with
  | None => None
  | Some (pos, ks) =>
      let start := pos + total (take (length (prefix p)) ks) in
      let len := total (drop (length (prefix p)) ks) in
      Some (take len (drop start text))
  end.

End Engine.

End Re.

(** ** extract_arxiv_id *)

Section Extract.

Variable is_digit : N -> bool.

Import Re.

(** [patterns] of [extract_arxiv_id], in source order. *)
Definition abs_pattern : pattern :=
  Pattern (lit "arxiv.org/abs/") [plus Digit; one (Chr 46); plus Digit].
Definition pdf_pattern : pattern :=
  Pattern (lit "arxiv.org/pdf/") [plus Digit; one (Chr 46); plus Digit].
Definition bare_pattern : pattern :=
  Pattern [] [exactly 4 Digit; one (Chr 46); between 4 5 Digit].

Definition patterns : list pattern := [abs_pattern; pdf_pattern; bare_pattern].

(** The [for pattern in patterns] loop. *)
Fixpoint first_match (ps : list pattern) (text : pystr) : option pystr :=
  match ps with
  | [] => None
  | p :: ps' =>
      match search_group1 is_digit p text with
      | Some g => Some g
      | None => first_match ps' text
      end
  end.

Definition extract_arxiv_id (text : pystr) : option pystr :=
  first_match patterns text.

End Extract.

(** ** More of Python's strings *)

(** [sep.join(parts)] *)
Fixpoint str_join (sep : pystr) (parts : list pystr) : pystr :=
  match parts with
  | [] => []
  | [x] => x
  | x :: rest => x ++ sep ++ str_join sep rest
  end.

(** [str(n)] for an [int]. *)
Definition str_int (n : Z) : pystr := py (NilZero.string_of_int (Z.to_int n)).

(** A value inside an f-string when it may be [None]. *)
Definition fmt_opt (v : option pystr) : pystr :=
  match v with
  | Some s => s
  | None => py "None"
  end.

Definition nl : pystr := [10%N].

(** [needle in hay] for strings. *)
Definition contains (needle hay : pystr) : Prop :=
  exists l r, hay = l ++ needle ++ r.

Fixpoint starts_with (needle hay : pystr) : bool :=
  match needle, hay with
  | [], _ => true
  | c :: needle', d :: hay' => (c =? d)%N && starts_with needle' hay'
  | _ :: _, [] => false
  end.


Fixpoint drop_while {A} (f : A -> bool) (l : list A) : list A :=
  match l with
  | [] => []
  | x :: l' => if f x then drop_while f l' else l
  end.

Definition is_slash (c : N) : bool := (c =? 47)%N.

(** [os.path.dirname]: the head up to the last slash, without its trailing
    slashes unless it consists of slashes only. *)
Definition dirname (p : pystr) : pystr :=
  let head := rev (drop_while (fun c => negb (is_slash c)) (rev p)) in
  if forallb is_slash head then head
  else rev (drop_while is_slash (rev head)).

(** ** Data *)

(** An exception, as far as the script looks at it: [str(e)]. *)
Record exn := Exception { str_exn : pystr }.

(** A [datetime]; only [strftime] looks inside. *)
Definition datetime := Z.

Record author := { name : pystr }.

(** An [arxiv.Result], with the attributes the script reads. [short_id] is
    what [get_short_id()] returns. *)
Record Paper := {
  title : pystr;
  authors : list author;
  published : datetime;
  summary : pystr;
  short_id : pystr
}.

(** A Telegram message: [message['chat']['id']] and, when present,
    [message['text']]. *)
Record message := { chat_id : Z; text : option pystr }.

(** A Telegram update; [msg] is [None] when the update has no ['message']
    key. *)
Record update := { msg : option message }.

(** The answer to [requests.get]: [json] is what [response.json()] gives,
    the value under ['result'] if there is one, or the exception it
    raises. *)
Record response := {
  status_code : Z;
  json : exn + option (list update)
}.

(** The environment variables read at import time; [None] is what
    [os.getenv] returns for a variable that is not set. *)
Record Config := {
  TELEGRAM_BOT_TOKEN : option pystr;
  TELEGRAM_CHAT_ID : option pystr;
  GEMINI_API_KEY : option pystr
}.

(** Every call that leaves the process, in the order made. *)
Inductive call :=
| Configure (api_key : option pystr)               (* genai.configure: keeps the key, checks nothing *)
| Get (url : pystr)                                (* requests.get *)
| Post (url : pystr) (chat : Z) (body parse_mode : pystr)  (* requests.post *)
| ArxivSearch (id_list : list pystr)               (* arxiv.Search, first result *)
| GenerateContent (model prompt : pystr)           (* generate_content *)
| Mkdir (path : pystr)                             (* mkdir, makedirs *)
| WriteText (path content : pystr)                 (* open(path, 'w'), write *)
| DumpLedger (ids : list pystr).                   (* json.dump to PROCESSED_FILE *)

(** The state outside the process. [ledger] is the content of
    [PROCESSED_FILE] as [json.load] reads it, [None] when the file does not
    exist; the file is kept apart from [files] because no summary path
    equals its path. File operations are modelled by their effect: the
    operating system refusing one, and a ledger file that [json.load]
    cannot read, are part of the model [Disk] below, not of this one. *)
Record World := {
  dirs : gset pystr;
  files : gmap pystr pystr;
  ledger : option (list pystr);
  log : list call
}.

(** How the services answer. Each answer may depend on the calls made so
    far, so the same request can be answered differently over time. *)
Record Env := {
  http_get : list call -> pystr -> exn + response;
  http_post : list call -> pystr -> Z -> pystr -> option exn;
  arxiv_first : list call -> pystr -> exn + Paper;
  gemini : list call -> pystr -> pystr -> exn + pystr;
  clock : list call -> datetime
}.

(** ** Computations with state and exceptions *)

(** A computation runs in a world and ends with a value or a raised
    exception; effects made before a raise stay made. *)
Definition M (A : Type) : Type := World -> (exn + A) * World.

Definition ret {A} (a : A) : M A := fun w => (inr a, w).

Definition raise {A} (e : exn) : M A := fun w => (inl e, w).

Definition bind {A B} (c : M A) (k : A -> M B) : M B :=
  fun w =>
    match c w with
    | (inr a, w') => k a w'
    | (inl e, w') => (inl e, w')
    end.

(** [try: body  except Exception as e: handler e] *)
Definition try_except {A} (body : M A) (handler : exn -> M A) : M A :=
  fun w =>
    match body w with
    | (inr a, w') => (inr a, w')
    | (inl e, w') => handler e w'
    end.

Declare Scope M_scope.
Delimit Scope M_scope with M.
Notation "x <- c ;; k" := (bind c (fun x => k))
  (at level 100, c at next level, right associativity) : M_scope.
Notation "c ;; k" := (bind c (fun _ => k))
  (at level 100, right associativity) : M_scope.

Definition logged (c : call) (w : World) : World :=
  {| dirs := dirs w; files := files w; ledger := ledger w;
     log := log w ++ [c] |}.

(** ** The script *)

Definition PROCESSED_FILE : pystr := py "scripts/.processed_papers.json".

Section Script.

Variable is_digit : N -> bool.

(** [datetime.strftime], of the Python runtime. *)
Variable strftime : datetime -> pystr -> pystr.

Variable cfg : Config.
Variable env : Env.

Local Open Scope M_scope.

(** *** Primitive effects *)

Definition genai_configure (api_key : option pystr) : M unit :=
  fun w => (inr tt, logged (Configure api_key) w).

Definition requests_get (url : pystr) : M response :=
  fun w => (http_get env (log w) url, logged (Get url) w).

Definition requests_post (url : pystr) (chat : Z) (body parse_mode : pystr)
  : M unit :=
  fun w =>
    (match http_post env (log w) url chat body with
     | Some e => inl e
     | None => inr tt
     end,
     logged (Post url chat body parse_mode) w).

(** [next(arxiv.Search(id_list=[paper_id]).results())] *)
Definition arxiv_search_first (paper_id : pystr) : M Paper :=
  fun w => (arxiv_first env (log w) paper_id, logged (ArxivSearch [paper_id]) w).

(** [genai.GenerativeModel(model).generate_content(prompt).text] *)
Definition generate_content (model prompt : pystr) : M pystr :=
  fun w => (gemini env (log w) model prompt,
            logged (GenerateContent model prompt) w).

Definition datetime_now : M datetime :=
  fun w => (inr (clock env (log w)), w).

(** [os.path.exists(PROCESSED_FILE)] *)
Definition ledger_exists : M bool :=
  fun w => (inr (bool_decide (is_Some (ledger w))), w).

(** [json.load] on the opened [PROCESSED_FILE]. *)
Definition json_load_ledger : M (list pystr) :=
  fun w =>
    match ledger w with
    | Some ids => (inr ids, w)
    | None => (inl (Exception (py "No such file or directory")), w)
    end.

(** [json.dump(ids, f)] on [PROCESSED_FILE] opened for writing. *)
Definition json_dump_ledger (ids : list pystr) : M unit :=
  fun w =>
    (inr tt,
     logged (DumpLedger ids)
       {| dirs := dirs w; files := files w; ledger := Some ids;
          log := log w |}).

(** [mkdir(exist_ok=True)] and [os.makedirs(path, exist_ok=True)]. *)
Definition mkdir_exist_ok (path : pystr) : M unit :=
  fun w =>
    (inr tt,
     logged (Mkdir path)
       {| dirs := {[path]} ∪ dirs w; files := files w; ledger := ledger w;
          log := log w |}).

(** [open(path, 'w')] and [f.write(content)]: the file is created or
    replaced. *)
Definition write_text (path content : pystr) : M unit :=
  fun w =>
    (inr tt,
     logged (WriteText path content)
       {| dirs := dirs w; files := <[path := content]> (files w);
          ledger := ledger w; log := log w |}).

(** *** The functions of the script *)

Definition load_processed_papers : M (list pystr) :=
  ex <- ledger_exists ;;
  if ex then json_load_ledger else ret [].

Definition save_processed_paper (paper_id : pystr) : M unit :=
  processed <- load_processed_papers ;;
  if bool_decide (paper_id ∉ processed) then
    let processed := processed ++ [paper_id] in
    mkdir_exist_ok (dirname PROCESSED_FILE) ;;
    json_dump_ledger processed
  else ret tt.

Definition bot_url (method : string) : pystr :=
  py "https://api.telegram.org/bot" ++ fmt_opt (TELEGRAM_BOT_TOKEN cfg)
  ++ py "/" ++ py method.

Definition get_telegram_updates : M (list update) :=
  let url := bot_url "getUpdates" in
  response <- requests_get url ;;
  if (status_code response =? 200)%Z then
    match json response with
    | inl e => raise e
    | inr result => ret (default [] result)
    end
  else ret [].

Definition send_telegram_message (chat : Z) (message : pystr) : M unit :=
  let url := bot_url "sendMessage" in
  requests_post url chat message (py "Markdown").

Definition author_names (paper : Paper) : pystr :=
  str_join (py ", ") (map name (authors paper)).

Definition prompt_of (paper : Paper) : pystr :=
  str_join nl [
    py "Generate a comprehensive academic paper summary with the following structure:";
    [];
    py "Title: " ++ title paper;
    py "Authors: " ++ author_names paper;
    py "Published: " ++ strftime (published paper) (py "%B %d, %Y");
    py "arXiv ID: " ++ short_id paper;
    [];
    py "Abstract:";
    summary paper;
    [];
    py "Create a detailed summary covering:";
    py "1. Core Contribution - Main innovation and key ideas";
    py "2. Technical Approach - Methodology, architecture, algorithms";
    py "3. Key Results & Ablations - Experimental results and ablation studies";
    py "4. Important Citations - Related work and key references";
    py "5. Conclusion & Impact - Significance and future directions";
    [];
    py "Make it comprehensive enough that someone doesn't need to read the full paper to understand its main ideas."
  ].

Definition generate_summary (paper : Paper) : M pystr :=
  generate_content (py "gemini-2.0-flash-exp") (prompt_of paper).

Definition markdown_of (paper : Paper) (summary_text : pystr)
           (today : datetime) : pystr :=
  let paper_id := short_id paper in
  str_join nl [
    py "# " ++ title paper;
    [];
    py "**Authors:** " ++ author_names paper;
    [];
    py "**arXiv ID:** " ++ paper_id;
    [];
    py "**Published:** " ++ strftime (published paper) (py "%B %d, %Y");
    [];
    py "**Link:** https://arxiv.org/abs/" ++ paper_id;
    [];
    py "---";
    [];
    summary_text;
    [];
    py "---";
    [];
    py "*Summary generated on: " ++ strftime today (py "%Y-%m-%d") ++ py "*";
    []
  ].

Definition create_markdown_summary (paper : Paper) (summary_text : pystr)
  : M pystr :=
  today <- datetime_now ;;
  ret (markdown_of paper summary_text today).

(** An identifier is a single relative path component, which [Path]
    keeps as it is. *)
Definition save_summary_to_file (paper_id content : pystr) : M pystr :=
  let dir_path := paper_id in
  mkdir_exist_ok dir_path ;;
  let file_path := dir_path ++ py "/" ++ paper_id ++ py ".md" in
  write_text file_path content ;;
  ret file_path.

(** The three notifications. The leading characters are U+1F4E5, U+2705,
    U+1F4C4, U+1F517 and U+274C. *)
Definition status_text (paper_id : pystr) : pystr :=
  [0x1F4E5%N] ++ py " Processing paper..." ++ nl
  ++ py "arXiv ID: " ++ paper_id ++ nl ++ nl
  ++ py "Fetching paper details...".

Definition github_url (paper_id : pystr) : pystr :=
  py "https://github.com/meet-minimalist/Paper-Summaries/blob/main/"
  ++ paper_id ++ py "/" ++ paper_id ++ py ".md".

Definition success_text (paper_id : pystr) (paper : Paper) : pystr :=
  [0x2705%N] ++ py " Summary generated successfully!" ++ nl ++ nl
  ++ [0x1F4C4%N] ++ py " Paper: " ++ title paper ++ nl
  ++ [0x1F517%N] ++ py " Summary saved at: " ++ github_url paper_id.

Definition failure_text (paper_id : pystr) (e : exn) : pystr :=
  [0x274C%N] ++ py " Error processing paper " ++ paper_id ++ nl
  ++ py "Reason: " ++ str_exn e.

(** The body of the [try] statement. *)
Definition process_paper (chat : Z) (paper_id : pystr) : M unit :=
  send_telegram_message chat (status_text paper_id) ;;
  paper <- arxiv_search_first paper_id ;;
  summary <- generate_summary paper ;;
  markdown_content <- create_markdown_summary paper summary ;;
  _ <- save_summary_to_file paper_id markdown_content ;;
  save_processed_paper paper_id ;;
  send_telegram_message chat (success_text paper_id paper).

(** The [try] statement with its [except Exception as e] handler. *)
Definition try_process_paper (chat : Z) (paper_id : pystr) : M unit :=
  try_except (process_paper chat paper_id)
    (fun e => send_telegram_message chat (failure_text paper_id e)).

(** The [for update in updates] loop; every early exit of an iteration
    is a [continue]. The result is [new_papers_found]. *)
Fixpoint for_updates (processed_papers : list pystr) (updates : list update)
         (new_papers_found : bool) : M bool :=
  match updates with
  | [] => ret new_papers_found
  | update :: rest =>
      match msg update with
      | None => for_updates processed_papers rest new_papers_found
      | Some message =>
          let chat := chat_id message in
          if bool_decide (Some (str_int chat) ≠ TELEGRAM_CHAT_ID cfg) then
            for_updates processed_papers rest new_papers_found
          else
            let text := default [] (text message) in
            match extract_arxiv_id is_digit text with
            | None | Some [] =>
                for_updates processed_papers rest new_papers_found
            | Some paper_id =>
                if bool_decide (paper_id ∈ processed_papers) then
                  for_updates processed_papers rest new_papers_found
                else
                  try_process_paper chat paper_id ;;
                  for_updates processed_papers rest true
            end
      end
  end.

Definition process_new_papers : M unit :=
  updates <- get_telegram_updates ;;
  processed_papers <- load_processed_papers ;;
  _ <- for_updates processed_papers updates false ;;
  ret tt.

(** Running the script: the module-level statements, then
    [process_new_papers()]. *)
Definition main : M unit :=
  genai_configure (GEMINI_API_KEY cfg) ;;
  process_new_papers.

End Script.

(** ** What it means for a pattern to match *)

Module ReSpec.
Import Re.

Section Spec.

Variable is_digit : N -> bool.

Definition within (hi : option nat) (k : nat) : Prop :=
  match hi with
  | Some h => k <= h
  | None => True
  end.

(** The word [w] is a run of [lo] to [hi] characters of the atom. *)
Definition item_takes (it : item) (w : pystr) : Prop :=
  match it with
  | Rep a lo hi =>
      Forall (fun c => atom_ok is_digit a c = true) w
      /\ lo <= length w /\ within hi (length w)
  end.

(** [m] is in the language of the item sequence. *)
Definition Matches (its : list item) (m : pystr) : Prop :=
  exists ws, Forall2 item_takes its ws /\ concat ws = m.

(** [text] splits as [l ++ pre ++ g ++ r] where [pre] matches the prefix
    of the pattern and [g] its group. *)
Definition match_at (p : pattern) (text l pre g r : pystr) : Prop :=
  text = l ++ pre ++ g ++ r
  /\ Matches (prefix p) pre /\ Matches (group p) g.

(** The pattern matches somewhere in the text. *)
Definition occurs (p : pattern) (text : pystr) : Prop :=
  exists l pre g r, match_at p text l pre g r.

(** The count vector [ks] is a way for the items to match at the head
    of [s]. *)
Fixpoint fits (its : list item) (s : pystr) (ks : list nat) : Prop :=
  match its, ks with
  | [], [] => True
  | Rep a lo hi :: its', k :: ks' =>
      lo <= k /\ k <= span is_digit a hi s /\ fits its' (drop k s) ks'
  | _, _ => False
  end.

(** Greedy priority: a count vector is preferred over another when it is
    larger at the first item where they differ. *)
Fixpoint prefers (ks ks' : list nat) : Prop :=
  match ks, ks' with
  | [], [] => True
  | k :: t, k' :: t' => k' < k \/ (k' = k /\ prefers t t')
  | _, _ => False
  end.

End Spec.

End ReSpec.

(** The digit table agrees with ASCII on the ASCII range. *)
Definition ascii_table (is_digit : N -> bool) : Prop :=
  forall c, (c < 128)%N -> is_digit c = ascii_digit c.

(** A non-empty run of digits. *)
Definition digits (is_digit : N -> bool) (s : pystr) : Prop :=
  s <> [] /\ Forall (fun c => is_digit c = true) s.

(** The identifier format of the glossary, [YYMM.NNNNN]: four digits, a dot,
    five digits. *)
Definition id_format (is_digit : N -> bool) (g : pystr) : Prop :=
  exists a b, g = a ++ 46%N :: b /\ length a = 4 /\ length b = 5
              /\ digits is_digit a /\ digits is_digit b.

(** ** The three forms an identifier is taken from, spelled out *)

(** A non-empty run of digits, a dot and a non-empty run of digits. *)
Definition dotted (is_digit : N -> bool) (g : pystr) : Prop :=
  exists a b, g = a ++ 46%N :: b /\ digits is_digit a /\ digits is_digit b.

(** Four digits, a dot and four or five digits. *)
Definition bare_id (is_digit : N -> bool) (g : pystr) : Prop :=
  exists a b, g = a ++ 46%N :: b /\ length a = 4
              /\ (length b = 4 \/ length b = 5)
              /\ digits is_digit a /\ digits is_digit b.

(** The text reads [l], then the marker, then [g], then [r], and [g] is
    digits, a dot and digits: a link to [g] after [length l] characters. *)
Definition link_at (is_digit : N -> bool) (marker : string)
           (text l g r : pystr) : Prop :=
  text = l ++ py marker ++ g ++ r /\ dotted is_digit g.

(** The text reads [l], then [g], then [r], and [g] is four digits, a dot
    and four or five digits. *)
Definition bare_at (is_digit : N -> bool) (text l g r : pystr) : Prop :=
  text = l ++ g ++ r /\ bare_id is_digit g.

(** The form is found somewhere. *)
Definition found (form : pystr -> pystr -> pystr -> Prop) : Prop :=
  exists l g r, form l g r.

(** [g] is the form's leftmost occurrence, and the longest one that
    starts there. *)
Definition first_longest (form : pystr -> pystr -> pystr -> Prop)
           (g : pystr) : Prop :=
  exists l r,
    form l g r
    /\ forall l' g' r',
         form l' g' r' ->
         length l < length l'
         \/ (length l' = length l /\ length g' <= length g).

(** A pattern made of a literal marker and the group [(\d+\.\d+)]. *)
Definition marker_pattern (marker : string) (p : Re.pattern) : Prop :=
  Re.prefix p = Re.lit marker
  /\ Re.group p = [Re.plus Re.Digit; Re.one (Re.Chr 46); Re.plus Re.Digit].

(** ** The script on a disk that can fail *)

(** The definitions above take every file operation to go through and the
    ledger file to be readable. [Disk] is the same script, statement by
    statement, where the operating system may refuse any file operation
    and where the ledger file may be unreadable. The first model is this
    one when nothing is refused. *)

Module Disk.

(** What is at [PROCESSED_FILE]. The program itself only ever writes a JSON
    array of strings there; a write that fails may leave less. A file that
    holds some other JSON value, which [json.load] would read without
    complaint, is not written by this program and is left out. *)
Inductive ledger_file :=
| Missing                     (* no such file *)
| Json (ids : list pystr)     (* a JSON array of strings *)
| Garbled.                    (* empty, truncated or otherwise not what json.load reads *)

Record State := {
  dirs : gset pystr;
  files : gmap pystr pystr;
  ledger : ledger_file;
  log : list call
}.

(** What the operating system does to the file operations. Each answer
    may depend on the calls made so far. A refused write also tells what
    it leaves behind: [None] when the file is as it was (it could not be
    opened), [Some] when the file was created or truncated and holds that
    much. *)
Record Faults := {
  mkdir_fault : list call -> pystr -> option exn;
  write_fault : list call -> pystr -> pystr -> option (exn * option pystr);
  read_fault : list call -> option exn;
  decode_error : list call -> exn;
  dump_fault : list call -> list pystr -> option (exn * option ledger_file)
}.

(** The identifiers a ledger file holds. *)
Definition held (l : ledger_file) : list pystr :=
  match l with
  | Json ids => ids
  | Missing | Garbled => []
  end.

Definition M (A : Type) : Type := State -> (exn + A) * State.

Definition ret {A} (a : A) : M A := fun s => (inr a, s).

Definition raise {A} (e : exn) : M A := fun s => (inl e, s).

Definition bind {A B} (c : M A) (k : A -> M B) : M B :=
  fun s =>
    match c s with
    | (inr a, s') => k a s'
    | (inl e, s') => (inl e, s')
    end.

Definition try_except {A} (body : M A) (handler : exn -> M A) : M A :=
  fun s =>
    match body s with
    | (inr a, s') => (inr a, s')
    | (inl e, s') => handler e s'
    end.

Declare Scope disk_scope.
Delimit Scope disk_scope with disk.
Notation "x <- c ;; k" := (bind c (fun x => k))
  (at level 100, c at next level, right associativity) : disk_scope.
Notation "c ;; k" := (bind c (fun _ => k))
  (at level 100, right associativity) : disk_scope.

Definition logged (c : call) (s : State) : State :=
  {| dirs := dirs s; files := files s; ledger := ledger s;
     log := log s ++ [c] |}.

Section Script.

Variable is_digit : N -> bool.
Variable strftime : datetime -> pystr -> pystr.
Variable cfg : Config.
Variable env : Env.
Variable faults : Faults.

Local Open Scope disk_scope.

(** *** Primitive effects *)

Definition genai_configure (api_key : option pystr) : M unit :=
  fun s => (inr tt, logged (Configure api_key) s).

Definition requests_get (url : pystr) : M response :=
  fun s => (http_get env (log s) url, logged (Get url) s).

Definition requests_post (url : pystr) (chat : Z) (body parse_mode : pystr)
  : M unit :=
  fun s =>
    (match http_post env (log s) url chat body with
     | Some e => inl e
     | None => inr tt
     end,
     logged (Post url chat body parse_mode) s).

Definition arxiv_search_first (paper_id : pystr) : M Paper :=
  fun s => (arxiv_first env (log s) paper_id, logged (ArxivSearch [paper_id]) s).

Definition generate_content (model prompt : pystr) : M pystr :=
  fun s => (gemini env (log s) model prompt,
            logged (GenerateContent model prompt) s).

Definition datetime_now : M datetime :=
  fun s => (inr (clock env (log s)), s).

(** [os.path.exists(PROCESSED_FILE)]: never raises. *)
Definition ledger_exists : M bool :=
  fun s =>
    (inr match ledger s with
         | Missing => false
         | Json _ | Garbled => true
         end,
     s).

(** [open(PROCESSED_FILE, 'r')] and [json.load(f)]. *)
Definition json_load_ledger : M (list pystr) :=
  fun s =>
    match read_fault faults (log s) with
    | Some e => (inl e, s)
    | None =>
        match ledger s with
        | Json ids => (inr ids, s)
        | Garbled => (inl (decode_error faults (log s)), s)
        | Missing => (inl (Exception (py "No such file or directory")), s)
        end
    end.

(** [open(PROCESSED_FILE, 'w')] and [json.dump(ids, f)]. *)
Definition json_dump_ledger (ids : list pystr) : M unit :=
  fun s =>
    match dump_fault faults (log s) ids with
    | Some (e, residue) =>
        (inl e,
         logged (DumpLedger ids)
           {| dirs := dirs s; files := files s;
              ledger := default (ledger s) residue; log := log s |})
    | None =>
        (inr tt,
         logged (DumpLedger ids)
           {| dirs := dirs s; files := files s; ledger := Json ids;
              log := log s |})
    end.

(** [mkdir(exist_ok=True)] and [os.makedirs(path, exist_ok=True)]. *)
Definition mkdir_exist_ok (path : pystr) : M unit :=
  fun s =>
    match mkdir_fault faults (log s) path with
    | Some e => (inl e, logged (Mkdir path) s)
    | None =>
        (inr tt,
         logged (Mkdir path)
           {| dirs := {[path]} ∪ dirs s; files := files s;
              ledger := ledger s; log := log s |})
    end.

(** [open(path, 'w')] and [f.write(content)]. *)
Definition write_text (path content : pystr) : M unit :=
  fun s =>
    match write_fault faults (log s) path content with
    | Some (e, residue) =>
        (inl e,
         logged (WriteText path content)
           {| dirs := dirs s;
              files := match residue with
                       | Some part => <[path := part]> (files s)
                       | None => files s
                       end;
              ledger := ledger s; log := log s |})
    | None =>
        (inr tt,
         logged (WriteText path content)
           {| dirs := dirs s; files := <[path := content]> (files s);
              ledger := ledger s; log := log s |})
    end.

(** *** The functions of the script *)

Definition load_processed_papers : M (list pystr) :=
  ex <- ledger_exists ;;
  if ex then json_load_ledger else ret [].

Definition save_processed_paper (paper_id : pystr) : M unit :=
  processed <- load_processed_papers ;;
  if bool_decide (paper_id ∉ processed) then
    let processed := processed ++ [paper_id] in
    mkdir_exist_ok (dirname PROCESSED_FILE) ;;
    json_dump_ledger processed
  else ret tt.

Definition get_telegram_updates : M (list update) :=
  let url := bot_url cfg "getUpdates" in
  response <- requests_get url ;;
  if (status_code response =? 200)%Z then
    match json response with
    | inl e => raise e
    | inr result => ret (default [] result)
    end
  else ret [].

Definition send_telegram_message (chat : Z) (message : pystr) : M unit :=
  let url := bot_url cfg "sendMessage" in
  requests_post url chat message (py "Markdown").

Definition generate_summary (paper : Paper) : M pystr :=
  generate_content (py "gemini-2.0-flash-exp") (prompt_of strftime paper).

Definition create_markdown_summary (paper : Paper) (summary_text : pystr)
  : M pystr :=
  today <- datetime_now ;;
  ret (markdown_of strftime paper summary_text today).

Definition save_summary_to_file (paper_id content : pystr) : M pystr :=
  let dir_path := paper_id in
  mkdir_exist_ok dir_path ;;
  let file_path := dir_path ++ py "/" ++ paper_id ++ py ".md" in
  write_text file_path content ;;
  ret file_path.

(** The body of the [try] statement. *)
Definition process_paper (chat : Z) (paper_id : pystr) : M unit :=
  send_telegram_message chat (status_text paper_id) ;;
  paper <- arxiv_search_first paper_id ;;
  summary <- generate_summary paper ;;
  markdown_content <- create_markdown_summary paper summary ;;
  _ <- save_summary_to_file paper_id markdown_content ;;
  save_processed_paper paper_id ;;
  send_telegram_message chat (success_text paper_id paper).

(** The [try] statement with its [except Exception as e] handler. *)
Definition try_process_paper (chat : Z) (paper_id : pystr) : M unit :=
  try_except (process_paper chat paper_id)
    (fun e => send_telegram_message chat (failure_text paper_id e)).

(** The [for update in updates] loop. *)
Fixpoint for_updates (processed_papers : list pystr) (updates : list update)
         (new_papers_found : bool) : M bool :=
  match updates with
  | [] => ret new_papers_found
  | update :: rest =>
      match msg update with
      | None => for_updates processed_papers rest new_papers_found
      | Some message =>
          let chat := chat_id message in
          if bool_decide (Some (str_int chat) ≠ TELEGRAM_CHAT_ID cfg) then
            for_updates processed_papers rest new_papers_found
          else
            let text := default [] (text message) in
            match extract_arxiv_id is_digit text with
            | None | Some [] =>
                for_updates processed_papers rest new_papers_found
            | Some paper_id =>
                if bool_decide (paper_id ∈ processed_papers) then
                  for_updates processed_papers rest new_papers_found
                else
                  try_process_paper chat paper_id ;;
                  for_updates processed_papers rest true
            end
      end
  end.

Definition process_new_papers : M unit :=
  updates <- get_telegram_updates ;;
  processed_papers <- load_processed_papers ;;
  _ <- for_updates processed_papers updates false ;;
  ret tt.

Definition main : M unit :=
  genai_configure (GEMINI_API_KEY cfg) ;;
  process_new_papers.

End Script.

(** The disk on which nothing is refused. *)
Definition no_faults : Faults :=
  {| mkdir_fault := fun _ _ => None;
     write_fault := fun _ _ _ => None;
     read_fault := fun _ => None;
     decode_error := fun _ => Exception (py "Expecting value");
     dump_fault := fun _ _ => None |}.

End Disk.

(** A world of the first model as a disk state. *)
Definition disk_of (w : World) : Disk.State :=
  {| Disk.dirs := dirs w;
     Disk.files := files w;
     Disk.ledger := match ledger w with
                    | Some ids => Disk.Json ids
                    | None => Disk.Missing
                    end;
     Disk.log := log w |}.

(** A result of the first model as a result on disk. *)
Definition on_disk {A} (r : (exn + A) * World) : (exn + A) * Disk.State :=
  (fst r, disk_of (snd r)).

(** ** Statements about runs *)

(** Every call the computation adds to the log satisfies [P]. *)
Definition adds {A} (P : call -> Prop) (c : M A) : Prop :=
  forall w, exists new, log (snd (c w)) = log w ++ new /\ Forall P new.

(** The ledger after recording [paper_id] in it. *)
Definition record_id (paper_id : pystr) (l : option (list pystr))
  : option (list pystr) :=
  if bool_decide (paper_id ∈ default [] l) then l
  else Some (default [] l ++ [paper_id]).



Section Statements.

Variable is_digit : N -> bool.
Variable strftime : datetime -> pystr -> pystr.
Variable cfg : Config.
Variable env : Env.


Definition status_post (chat : Z) (paper_id : pystr) : call :=
  Post (bot_url cfg "sendMessage") chat (status_text paper_id) (py "Markdown").

Definition success_post (chat : Z) (paper_id : pystr) (paper : Paper) : call :=
  Post (bot_url cfg "sendMessage") chat (success_text paper_id paper)
       (py "Markdown").

Definition failure_post (chat : Z) (paper_id : pystr) (e : exn) : call :=
  Post (bot_url cfg "sendMessage") chat (failure_text paper_id e)
       (py "Markdown").

(** "Whenever processing fails after the dedup check, a failure
    notification with the reason is sent and the ledger is as before." *)
Definition failure_keeps_ledger : Prop :=
  forall chat paper_id w e w1,
    process_paper strftime cfg env chat paper_id w = (inl e, w1) ->
    exists r w2,
      try_process_paper strftime cfg env chat paper_id w = (r, w2)
      /\ last (log w2) = Some (failure_post chat paper_id e)
      /\ ledger w2 = ledger w.


(** A required configuration value is absent. *)
Definition config_absent : Prop :=
  TELEGRAM_BOT_TOKEN cfg = None \/ TELEGRAM_CHAT_ID cfg = None
  \/ GEMINI_API_KEY cfg = None.

(** "With a configuration value absent the program fails at startup,
    before any message is polled." *)
Definition fails_fast : Prop :=
  forall w,
    config_absent ->
    exists e w',
      main is_digit strftime cfg env w = (inl e, w')
      /\ forall url, Get url ∉ log w'.

(** "Nothing but an absent configuration value halts the run." *)
Definition only_config_halts : Prop :=
  forall w e w',
    main is_digit strftime cfg env w = (inl e, w') -> config_absent.

End Statements.

(** ** Statements about runs on the failing disk *)

(** A computation of the first model and one on the disk that do the same
    on every world. *)
Definition agrees {A} (d : Disk.M A) (c : M A) : Prop :=
  forall w, d (disk_of w) = on_disk (c w).

(** The computation only adds calls to the log. *)
Definition grows {A} (c : Disk.M A) : Prop :=
  forall s, exists new, Disk.log (snd (c s)) = Disk.log s ++ new.

(** The ledger file after [paper_id] was recorded in it. *)
Definition recorded (paper_id : pystr) (l : Disk.ledger_file)
  : Disk.ledger_file :=
  match l with
  | Disk.Missing => Disk.Json [paper_id]
  | Disk.Json ids =>
      if bool_decide (paper_id ∈ ids) then Disk.Json ids
      else Disk.Json (ids ++ [paper_id])
  | Disk.Garbled => Disk.Garbled
  end.

(** The operating system refuses nothing. *)
Definition quiet (faults : Disk.Faults) : Prop :=
  (forall h path, Disk.mkdir_fault faults h path = None)
  /\ (forall h path content, Disk.write_fault faults h path content = None)
  /\ (forall h, Disk.read_fault faults h = None)
  /\ (forall h ids, Disk.dump_fault faults h ids = None).

(** The calls the [try] body makes before it rewrites the ledger file:
    status notification, fetch, generation request, [mkdir] and the
    summary write. *)
Definition before_ledger_write (cfg : Config) (chat : Z) (paper_id : pystr)
           (c : call) : Prop :=
  c = status_post cfg chat paper_id
  \/ c = ArxivSearch [paper_id]
  \/ (exists model prompt, c = GenerateContent model prompt)
  \/ (exists path, c = Mkdir path)
  \/ (exists path content, c = WriteText path content).


(** ** What a run does to the world *)

(** The path of the summary file of an identifier. *)
Definition summary_path (paper_id : pystr) : pystr :=
  paper_id ++ py "/" ++ paper_id ++ py ".md".

(** The file operations [save_processed_paper] makes for an identifier,
    given the ledger it finds. *)
Definition ledger_calls (paper_id : pystr) (l : option (list pystr))
  : list call :=
  if bool_decide (paper_id ∈ default [] l) then []
  else [Mkdir (py "scripts"); DumpLedger (default [] l ++ [paper_id])].

(** [R] relates the world before the computation to the world after it. *)
Definition steps {A} (R : World -> World -> Prop) (c : M A) : Prop :=
  forall w, R w (snd (c w)).

Section Effects.

Variable cfg : Config.

(** A call made while one paper is processed for a chat. *)
Definition paper_call (chat : Z) (paper_id : pystr) (c : call) : Prop :=
  match c with
  | Configure _ | Get _ => False
  | Post url to _ parse_mode =>
      url = bot_url cfg "sendMessage" /\ to = chat
      /\ parse_mode = py "Markdown"
  | ArxivSearch id_list => id_list = [paper_id]
  | GenerateContent model _ => model = py "gemini-2.0-flash-exp"
  | Mkdir path => path = paper_id \/ path = py "scripts"
  | WriteText path _ => path = summary_path paper_id
  | DumpLedger ids => last ids = Some paper_id
  end.

(** A call the loop may make: one of a paper of the configured chat whose
    identifier is not among [processed]. *)
Definition loop_call (processed : list pystr) (c : call) : Prop :=
  exists chat paper_id,
    Some (str_int chat) = TELEGRAM_CHAT_ID cfg
    /\ (paper_id ∉ processed)
    /\ paper_call chat paper_id c.

(** How the world after some steps of the loop relates to the world
    before: the calls added, the ledger, the files and the directories. *)
Definition loop_effect (processed : list pystr) (w w' : World) : Prop :=
  exists new,
    log w' = log w ++ new
    /\ Forall (loop_call processed) new
    /\ (default [] (ledger w) `prefix_of` default [] (ledger w'))
    /\ (NoDup (default [] (ledger w)) -> NoDup (default [] (ledger w')))
    /\ (forall p, is_Some (files w !! p) -> is_Some (files w' !! p))
    /\ (forall paper_id,
          paper_id ∈ default [] (ledger w') ->
          paper_id ∈ default [] (ledger w)
          \/ (is_Some (files w' !! summary_path paper_id)
              /\ ArxivSearch [paper_id] ∈ new))
    /\ (forall p,
          files w' !! p <> files w !! p ->
          exists paper_id,
            ArxivSearch [paper_id] ∈ new /\ p = summary_path paper_id)
    /\ (dirs w ⊆ dirs w').

End Effects.

(** ** Sample data for examples *)

Definition empty_world : World :=
  {| dirs := ∅; files := ∅; ledger := None; log := [] |}.

Definition sample_config : Config :=
  {| TELEGRAM_BOT_TOKEN := Some (py "token");
     TELEGRAM_CHAT_ID := Some (py "42");
     GEMINI_API_KEY := Some (py "key") |}.

Definition sample_paper : Paper :=
  {| title := py "A Paper";
     authors := [ {| name := py "A. Author" |}; {| name := py "B. Author" |} ];
     published := 0%Z;
     summary := py "An abstract.";
     short_id := py "2301.01234v1" |}.

(** A formatter that prints every date the same way. *)
Definition sample_strftime : datetime -> pystr -> pystr :=
  fun _ _ => py "January 01, 2023".

(** An update carrying a text message from the given chat. *)
Definition text_update (chat : Z) (t : string) : update :=
  {| msg := Some {| chat_id := chat; text := Some (py t) |} |}.

(** The inbox holds one link, and every service answers. *)
Definition env_ok : Env :=
  {| http_get := fun _ _ =>
       inr {| status_code := 200;
              json := inr (Some [text_update 42
                                   "https://arxiv.org/abs/2301.01234"]) |};
     http_post := fun _ _ _ _ => None;
     arxiv_first := fun _ _ => inr sample_paper;
     gemini := fun _ _ _ => inr (py "ok");
     clock := fun _ => 0%Z |}.

(** As [env_ok], but arXiv has no such paper. *)
Definition env_fetch_fails : Env :=
  {| http_get := http_get env_ok;
     http_post := http_post env_ok;
     arxiv_first := fun _ _ => inl (Exception (py "not found"));
     gemini := gemini env_ok;
     clock := clock env_ok |}.

(** As [env_ok], but Telegram drops the connection when the success
    notification (it starts with U+2705) is posted. *)
Definition env_notice_fails : Env :=
  {| http_get := http_get env_ok;
     http_post := fun _ _ _ body =>
       if starts_with [0x2705%N] body
       then Some (Exception (py "connection reset"))
       else None;
     arxiv_first := arxiv_first env_ok;
     gemini := gemini env_ok;
     clock := clock env_ok |}.

(** As [env_ok], but polling the inbox fails. *)
Definition env_poll_fails : Env :=
  {| http_get := fun _ _ => inl (Exception (py "connection refused"));
     http_post := http_post env_ok;
     arxiv_first := arxiv_first env_ok;
     gemini := gemini env_ok;
     clock := clock env_ok |}.

(** The channel id is not set. *)
Definition config_without_chat : Config :=
  {| TELEGRAM_BOT_TOKEN := Some (py "token");
     TELEGRAM_CHAT_ID := None;
     GEMINI_API_KEY := Some (py "key") |}.

(** The text after a run of digits does not go on with a digit: it is
    empty or starts with another character. *)
Definition ends_digits (is_digit : N -> bool) (tail : pystr) : Prop :=
  tail = [] \/ exists c t, tail = c :: t /\ is_digit c = false.


(** A world whose ledger already holds an identifier. *)
Definition world_with_ledger (ids : list pystr) : World :=
  {| dirs := ∅; files := ∅; ledger := Some ids; log := [] |}.


(** A disk that refuses to write summary files and leaves nothing behind. *)
Definition faults_no_write : Disk.Faults :=
  {| Disk.mkdir_fault := fun _ _ => None;
     Disk.write_fault := fun _ _ _ =>
       Some (Exception (py "Permission denied"), None);
     Disk.read_fault := fun _ => None;
     Disk.decode_error := fun _ => Exception (py "Expecting value");
     Disk.dump_fault := fun _ _ => None |}.

Definition empty_disk : Disk.State := disk_of empty_world.

(** * Properties *)

(** ** The matching engine against the declarative reading *)

Module ReFacts.
Import Re ReSpec.

Section Facts.

Variable is_digit : N -> bool.

Local Abbreviation atom_ok := (atom_ok is_digit).
Local Abbreviation span := (span is_digit).
Local Abbreviation match_items := (match_items is_digit).
Local Abbreviation search_from := (search_from is_digit).
Local Abbreviation fits := (fits is_digit).
Local Abbreviation item_takes := (item_takes is_digit).
Local Abbreviation Matches := (Matches is_digit).

Lemma span_spec a hi s k :
  k <= span a hi s <->
  k <= length s /\ Forall (fun c => atom_ok a c = true) (take k s) /\ within hi k.
Proof.
  revert hi k. induction s as [|c s IH]; intros hi k; simpl.
  - split.
    + intros Hk. assert (k = 0) by lia. subst. simpl.
      repeat split; auto. destruct hi; simpl; lia.
    + lia.
  - destruct k as [|k].
    { split; [|lia]. intros _. simpl. repeat split; auto; try lia.
      destruct hi; simpl; lia. }
    simpl. destruct (atom_ok a c) eqn:Hc.
    + destruct hi as [[|h]|]; simpl.
      * split; [lia|]. intros (_ & _ & ?). lia.
      * rewrite <- Nat.succ_le_mono, (IH (Some h) k). simpl.
        rewrite Forall_cons. intuition lia.
      * rewrite <- Nat.succ_le_mono, (IH None k). simpl.
        rewrite Forall_cons. intuition lia.
    + split; [lia|]. intros (_ & HF & _).
      apply Forall_cons in HF as [HF _]. congruence.
Qed.

Lemma backtrack_Some {A} (rest : nat -> option A) lo extra r :
  backtrack rest lo extra = Some r ->
  exists k, lo <= k <= lo + extra /\ rest k = Some r
            /\ forall k', k < k' <= lo + extra -> rest k' = None.
Proof.
  induction extra as [|e IH]; simpl.
  - destruct (rest (lo + 0)) eqn:E; [|discriminate].
    intros [= <-]. exists (lo + 0). repeat split; auto; try lia.
  - destruct (rest (lo + S e)) eqn:E.
    + intros [= <-]. exists (lo + S e). repeat split; auto; try lia.
    + intros H. destruct (IH H) as (k & Hk & Hr & Hno).
      exists k. repeat split; auto; try lia.
      intros k' Hk'. destruct (decide (k' = lo + S e)) as [->|]; auto.
      apply Hno. lia.
Qed.

Lemma backtrack_None {A} (rest : nat -> option A) lo extra :
  backtrack rest lo extra = None <->
  forall k, lo <= k <= lo + extra -> rest k = None.
Proof.
  induction extra as [|e IH]; simpl.
  - destruct (rest (lo + 0)) eqn:E.
    + split; [discriminate|]. intros H. rewrite H in E by lia. discriminate.
    + split; auto. intros _ k Hk. replace k with (lo + 0) by lia. auto.
  - destruct (rest (lo + S e)) eqn:E.
    + split; [discriminate|]. intros H. rewrite H in E by lia. discriminate.
    + rewrite IH. split; intros H k Hk.
      * destruct (decide (k = lo + S e)) as [->|]; auto. apply H. lia.
      * apply H. lia.
Qed.

(** A successful match is a fitting count vector. *)
Lemma match_items_sound its : forall s ks,
  match_items its s = Some ks -> fits its s ks.
Proof.
  induction its as [|[a lo hi] its IH]; intros s ks; simpl.
  - intros [= <-]. exact I.
  - destruct (span a hi s <? lo) eqn:E; [discriminate|].
    apply Nat.ltb_ge in E. intros H.
    apply backtrack_Some in H as (k & Hk & Hr & _).
    destruct (Re.match_items is_digit its (drop k s)) as [ks'|] eqn:E';
      [|discriminate].
    simpl in Hr. injection Hr as <-. simpl.
    repeat split; try lia. auto.
Qed.

(** The engine finds a match whenever some count vector fits, and the
    one it returns is the preferred one. *)
Lemma match_items_greedy its : forall s ks',
  fits its s ks' ->
  exists ks, match_items its s = Some ks /\ prefers ks ks'.
Proof.
  induction its as [|[a lo hi] its IH]; intros s ks'; simpl.
  - destruct ks'; [|contradiction]. intros _. exists []. simpl. auto.
  - destruct ks' as [|k' ks']; [contradiction|].
    intros (Hlo & Hhi & Hfit).
    destruct (span a hi s <? lo) eqn:E.
    { apply Nat.ltb_lt in E. lia. }
    apply Nat.ltb_ge in E.
    destruct (backtrack
                (fun k => option_map (cons k)
                            (Re.match_items is_digit its (drop k s)))
                lo (span a hi s - lo)) as [r|] eqn:B.
    + apply backtrack_Some in B as (k & Hk & Hr & Hno).
      exists r. split; auto.
      destruct (Re.match_items is_digit its (drop k s)) as [ks|] eqn:E';
        [|discriminate].
      simpl in Hr. injection Hr as <-. simpl.
      destruct (lt_eq_lt_dec k' k) as [[Hlt| ->]|Hgt].
      * left. exact Hlt.
      * right. split; auto.
        destruct (IH _ _ Hfit) as (ks0 & E0 & Hp).
        rewrite E' in E0. injection E0 as ->. exact Hp.
      * exfalso. destruct (IH _ _ Hfit) as (ks0 & E0 & _).
        specialize (Hno k'). rewrite E0 in Hno. simpl in Hno.
        assert (Some (k' :: ks0) = None) by (apply Hno; lia). discriminate.
    + exfalso. rewrite backtrack_None in B.
      destruct (IH _ _ Hfit) as (ks0 & E0 & _).
      specialize (B k'). rewrite E0 in B. simpl in B.
      assert (Some (k' :: ks0) = None) by (apply B; lia). discriminate.
Qed.

Lemma match_items_None its s :
  match_items its s = None <-> forall ks, ~ fits its s ks.
Proof.
  split.
  - intros H ks Hf. destruct (match_items_greedy _ _ _ Hf) as (? & E & _).
    congruence.
  - intros H. destruct (match_items its s) as [ks|] eqn:E; auto.
    exfalso. eapply H, match_items_sound, E.
Qed.

(** Count vectors and words: [ks] fits at the head of [s] exactly when
    [s] starts with words of these lengths, one per item. *)
Lemma fits_words its : forall s ks,
  fits its s ks <->
  exists ws r, s = concat ws ++ r /\ Forall2 item_takes its ws
               /\ ks = map length ws.
Proof.
  induction its as [|[a lo hi] its IH]; intros s ks; simpl.
  - destruct ks; split.
    + intros _. exists [], s. repeat split; auto.
    + auto.
    + contradiction.
    + intros (ws & r & _ & HF & Hk). inversion HF; subst. discriminate.
  - destruct ks as [|k ks]; split.
    + contradiction.
    + intros (ws & r & _ & HF & Hk). inversion HF; subst. discriminate.
    + intros (Hlo & Hhi & Hfit).
      apply span_spec in Hhi as (Hlen & Hall & Hin).
      apply IH in Hfit as (ws & r & Hs & HF & ->).
      exists (take k s :: ws), r. simpl.
      assert (Hk : length (take k s) = k) by (rewrite length_take; lia).
      repeat split.
      * rewrite <- app_assoc, <- Hs. symmetry. apply take_drop.
      * constructor; auto. simpl. rewrite Hk. auto.
      * rewrite Hk. reflexivity.
    + intros (ws & r & Hs & HF & Hk).
      inversion HF as [|it w its' ws' Hit HF']; subst.
      simpl in Hit. destruct Hit as (Hall & Hlo & Hin).
      simpl in Hk. injection Hk as -> ->. simpl.
      rewrite <- app_assoc.
      split; [exact Hlo|]. split.
      * apply span_spec. split; [rewrite length_app; lia|].
        split; [rewrite take_app_length; exact Hall|exact Hin].
      * rewrite drop_app_length. apply IH. eauto.
Qed.

Lemma total_lengths (ws : list pystr) :
  total (map length ws) = length (concat ws).
Proof.
  induction ws as [|w ws IH]; simpl; auto.
  rewrite length_app. unfold total in *. simpl. rewrite IH. reflexivity.
Qed.

(** The scan returns the leftmost position with a match. *)
Lemma search_from_Some its : forall s pos p ks,
  search_from its s pos = Some (p, ks) ->
  exists i, p = pos + i /\ i <= length s
            /\ match_items its (drop i s) = Some ks
            /\ forall j, j < i -> match_items its (drop j s) = None.
Proof.
  induction s as [|c s IH]; intros pos p ks; simpl.
  - destruct (match_items its []) eqn:E; [|discriminate].
    intros [= <- <-]. exists 0. simpl. repeat split; auto; lia.
  - destruct (match_items its (c :: s)) eqn:E.
    + intros [= <- <-]. exists 0. simpl. repeat split; auto; lia.
    + intros H. apply IH in H as (i & -> & Hi & Hm & Hno).
      exists (S i). simpl. repeat split; auto; try lia.
      intros [|j] Hj; simpl; auto. apply Hno. lia.
Qed.

Lemma search_from_None its : forall s pos,
  search_from its s pos = None <->
  forall i, i <= length s -> match_items its (drop i s) = None.
Proof.
  induction s as [|c s IH]; intros pos; simpl.
  - destruct (match_items its []) eqn:E.
    + split; [discriminate|]. intros H. exfalso.
      specialize (H 0 (Nat.le_refl 0)). simpl in H. congruence.
    + split; auto. intros _ i _. rewrite drop_nil. auto.
  - destruct (match_items its (c :: s)) eqn:E.
    + split; [discriminate|]. intros H. exfalso.
      specialize (H 0 (Nat.le_0_l _)). simpl in H. congruence.
    + rewrite IH. split; intros H i Hi.
      * destruct i as [|i]; simpl; auto. apply H. lia.
      * apply (H (S i)). lia.
Qed.

Local Abbreviation search_group1 := (search_group1 is_digit).
Local Abbreviation match_at := (match_at is_digit).
Local Abbreviation occurs := (occurs is_digit).

(** A match in the declarative reading gives a fitting count vector at
    its start position. *)
Lemma match_at_fits p text l pre g r :
  match_at p text l pre g r ->
  exists ks, fits (prefix p ++ group p) (drop (length l) text) ks.
Proof.
  intros (-> & (ws1 & HF1 & <-) & (ws2 & HF2 & <-)).
  exists (map length (ws1 ++ ws2)). apply fits_words.
  exists (ws1 ++ ws2), r. rewrite drop_app_length, concat_app, <- app_assoc.
  repeat split; auto. apply Forall2_app; auto.
Qed.

(** A fitting count vector at position [i] gives a match there, and
    the group of [search_group1] is the group of that match. *)
Lemma fits_match_at p text i ks :
  i <= length text ->
  fits (prefix p ++ group p) (drop i text) ks ->
  exists pre r,
    match_at p text (take i text) pre
      (take (total (drop (length (prefix p)) ks))
            (drop (i + total (take (length (prefix p)) ks)) text)) r.
Proof.
  intros Hi Hfit. apply fits_words in Hfit as (ws & r & Hs & HF & ->).
  apply Forall2_app_inv_l in HF as (ws1 & ws2 & HF1 & HF2 & ->).
  pose proof (Forall2_length _ _ _ HF1) as Hlen.
  rewrite map_app.
  rewrite take_app_length' by (rewrite length_map; auto).
  rewrite drop_app_length' by (rewrite length_map; auto).
  rewrite !total_lengths.
  rewrite concat_app, <- app_assoc in Hs.
  exists (concat ws1), r.
  assert (Hg : take (length (concat ws2))
                 (drop (i + length (concat ws1)) text) = concat ws2).
  { rewrite <- drop_drop, Hs, drop_app_length.
    apply take_app_length. }
  rewrite Hg. split; [|split].
  - rewrite <- Hs. symmetry. apply take_drop.
  - exists ws1. auto.
  - exists ws2. auto.
Qed.

(** [search_group1] returns the group of a match, and no match of the
    pattern starts further left. *)
Lemma search_group1_Some p text g :
  search_group1 p text = Some g ->
  exists l pre r,
    match_at p text l pre g r
    /\ forall l' pre' g' r',
         match_at p text l' pre' g' r' -> length l <= length l'.
Proof.
  unfold Re.search_group1.
  destruct (search_from (prefix p ++ group p) text 0) as [[pos ks]|] eqn:E;
    [|discriminate].
  intros [= <-].
  apply search_from_Some in E as (i & -> & Hi & Hm & Hno). simpl.
  apply match_items_sound in Hm.
  destruct (fits_match_at p text i ks Hi Hm) as (pre & r & Hat).
  exists (take i text), pre, r. split; auto.
  intros l' pre' g' r' Hat'. rewrite length_take.
  destruct (le_lt_dec i (length l')) as [|Hlt]; [lia|].
  exfalso. destruct (match_at_fits _ _ _ _ _ _ Hat') as (ks' & Hf').
  specialize (Hno _ Hlt). rewrite match_items_None in Hno.
  exact (Hno _ Hf').
Qed.

(** [search_group1] fails exactly when the pattern matches nowhere. *)
Lemma search_group1_None p text :
  search_group1 p text = None <-> ~ occurs p text.
Proof.
  unfold Re.search_group1.
  destruct (search_from (prefix p ++ group p) text 0) as [[pos ks]|] eqn:E.
  - split; [discriminate|]. intros Hno. exfalso. apply Hno.
    apply search_from_Some in E as (i & -> & Hi & Hm & _).
    apply match_items_sound in Hm.
    destruct (fits_match_at p text i ks Hi Hm) as (pre & r & Hat).
    do 4 eexists. exact Hat.
  - split; auto. intros _ (l & pre & g & r & Hat).
    rewrite search_from_None in E.
    destruct (match_at_fits _ _ _ _ _ _ Hat) as (ks & Hf).
    assert (Hl : length l <= length text).
    { destruct Hat as (-> & _). rewrite length_app. lia. }
    specialize (E _ Hl). rewrite match_items_None in E.
    exact (E _ Hf).
Qed.

End Facts.

End ReFacts.

(** ** extract_arxiv_id *)

Module ExtractFacts.
Import Re ReSpec ReFacts.

Section Ext.

(** The engine looks at the digit table only at the characters of the
    text. *)
Variables f g : N -> bool.

Lemma span_ext a hi : forall s,
  Forall (fun c => f c = g c) s -> span f a hi s = span g a hi s.
Proof.
  intros s. revert hi. induction s as [|c s IH]; intros hi Hs; simpl; auto.
  apply Forall_cons in Hs as [Hc Hs].
  assert (E : atom_ok f a c = atom_ok g a c) by (destruct a; simpl; auto).
  rewrite E. destruct (atom_ok g a c); auto.
  destruct hi as [[|h]|]; auto; rewrite IH; auto.
Qed.

Lemma backtrack_ext {A} (r1 r2 : nat -> option A) lo extra :
  (forall k, r1 k = r2 k) -> backtrack r1 lo extra = backtrack r2 lo extra.
Proof.
  intros H. induction extra as [|e IH]; simpl; rewrite H; auto.
  rewrite IH. reflexivity.
Qed.

Lemma match_items_ext its : forall s,
  Forall (fun c => f c = g c) s -> match_items f its s = match_items g its s.
Proof.
  induction its as [|[a lo hi] its IH]; intros s Hs; simpl; auto.
  rewrite (span_ext a hi s Hs). destruct (span g a hi s <? lo); auto.
  apply backtrack_ext. intros k. rewrite IH; auto.
  apply Forall_drop. exact Hs.
Qed.

Lemma search_from_ext its : forall s pos,
  Forall (fun c => f c = g c) s ->
  search_from f its s pos = search_from g its s pos.
Proof.
  induction s as [|c s IH]; intros pos Hs; simpl.
  - rewrite (match_items_ext its _ Hs). reflexivity.
  - rewrite (match_items_ext its _ Hs).
    destruct (match_items g its (c :: s)); auto.
    apply IH. apply Forall_cons in Hs as [_ Hs]. exact Hs.
Qed.

Lemma extract_ext text :
  Forall (fun c => f c = g c) text ->
  extract_arxiv_id f text = extract_arxiv_id g text.
Proof.
  intros Hs. unfold extract_arxiv_id, patterns, first_match, search_group1.
  rewrite !(search_from_ext _ _ _ Hs). reflexivity.
Qed.

End Ext.

(** On an ASCII text any digit table that agrees with ASCII gives the
    result computed with [ascii_digit]. *)
Lemma extract_ascii is_digit text :
  ascii_table is_digit ->
  forallb (fun c => c <? 128)%N text = true ->
  extract_arxiv_id is_digit text = extract_arxiv_id ascii_digit text.
Proof.
  intros Ht Hs. apply extract_ext. rewrite forallb_forall in Hs.
  apply Forall_forall. intros c Hc. apply Ht.
  apply N.ltb_lt, Hs. apply list_elem_of_In. exact Hc.
Qed.

Section FirstMatch.

Variable is_digit : N -> bool.

(** The loop returns [None] exactly when no pattern of the list matches
    anywhere in the text. *)
Lemma first_match_None ps text :
  first_match is_digit ps text = None <->
  forall p, p ∈ ps -> ~ occurs is_digit p text.
Proof.
  induction ps as [|p ps IH]; simpl.
  - split; auto. intros _ p Hp. inversion Hp.
  - destruct (search_group1 is_digit p text) as [g|] eqn:E.
    + split; [discriminate|]. intros H. exfalso.
      apply (H p); [left|].
      apply search_group1_Some in E as (l & pre & r & Hat & _).
      do 4 eexists. exact Hat.
    + rewrite IH. apply search_group1_None in E. split.
      * intros H q Hq. apply elem_of_cons in Hq as [->|Hq]; auto.
      * intros H q Hq. apply H. right. exact Hq.
Qed.

(** The loop returns the group of the first pattern of the list that
    matches somewhere. *)
Lemma first_match_first ps p ps' text :
  (forall q, q ∈ ps -> ~ occurs is_digit q text) ->
  occurs is_digit p text ->
  exists g, first_match is_digit (ps ++ p :: ps') text = Some g
            /\ search_group1 is_digit p text = Some g.
Proof.
  induction ps as [|q ps IH]; simpl; intros Hno Hp.
  - destruct (search_group1 is_digit p text) as [g|] eqn:E; eauto.
    apply search_group1_None in E. contradiction.
  - assert (E : search_group1 is_digit q text = None).
    { apply search_group1_None, Hno. left. }
    rewrite E. apply IH; auto. intros q' Hq'. apply Hno. right. exact Hq'.
Qed.

End FirstMatch.

End ExtractFacts.

(** ** What the patterns capture *)

Module CaptureFacts.
Import Re ReSpec ReFacts ExtractFacts.

Section Shapes.

Variable is_digit : N -> bool.

Lemma match_items_cons a lo hi its s :
  match_items is_digit (Rep a lo hi :: its) s
  = if span is_digit a hi s <? lo then None
    else backtrack
           (fun k => option_map (cons k) (match_items is_digit its (drop k s)))
           lo (span is_digit a hi s - lo).
Proof. reflexivity. Qed.

Lemma span_zero a s : span is_digit a (Some 0) s = 0.
Proof. destruct s; simpl; auto. destruct (atom_ok is_digit a n); auto. Qed.

(** A literal character of the pattern consumes the same character of the
    text. *)
Lemma match_items_one c its s :
  match_items is_digit (one (Chr c) :: its) (c :: s)
  = option_map (cons 1) (match_items is_digit its s).
Proof.
  simpl. rewrite N.eqb_refl, span_zero. simpl. rewrite drop_0.
  destruct (match_items is_digit its s); reflexivity.
Qed.

Lemma span_run a s c t :
  Forall (fun x => atom_ok is_digit a x = true) s ->
  atom_ok is_digit a c = false ->
  span is_digit a None (s ++ c :: t) = length s.
Proof.
  induction 1 as [|x s Hx Hs IH]; intros Hc; simpl.
  - rewrite Hc. reflexivity.
  - rewrite Hx, IH; auto.
Qed.

Lemma span_all a s :
  Forall (fun x => atom_ok is_digit a x = true) s ->
  span is_digit a None s = length s.
Proof.
  induction 1 as [|x s Hx Hs IH]; simpl; auto. rewrite Hx, IH. reflexivity.
Qed.

Lemma backtrack_top {A} (rest : nat -> option A) lo extra r :
  rest (lo + extra) = Some r -> backtrack rest lo extra = Some r.
Proof. intros H. destruct extra; simpl; rewrite H; reflexivity. Qed.

(** [\d+\.\d+] on a run of digits, a dot and a run of digits that ends the
    text takes all of it. *)
Lemma match_digits_dot_digits a b :
  is_digit 46%N = false -> digits is_digit a -> digits is_digit b ->
  match_items is_digit [plus Digit; one (Chr 46); plus Digit] (a ++ 46%N :: b)
  = Some [length a; 1; length b].
Proof.
  intros Hdot [Ha Hda] [Hb Hdb].
  assert (La : 1 <= length a) by (destruct a; simpl; [congruence|lia]).
  assert (Lb : 1 <= length b) by (destruct b; simpl; [congruence|lia]).
  unfold plus. rewrite match_items_cons.
  rewrite (span_run Digit a 46%N b Hda Hdot).
  destruct (length a <? 1) eqn:E; [apply Nat.ltb_lt in E; lia|].
  apply backtrack_top.
  replace (1 + (length a - 1)) with (length a) by lia.
  rewrite drop_app_length, match_items_one.
  rewrite match_items_cons. rewrite (span_all Digit b Hdb).
  destruct (length b <? 1) eqn:E'; [apply Nat.ltb_lt in E'; lia|].
  rewrite (backtrack_top _ 1 (length b - 1) [length b]); [reflexivity|].
  replace (1 + (length b - 1)) with (length b) by lia. reflexivity.
Qed.

(** What a match of [(\d+\.\d+)] looks like. *)
Lemma digits_dot_digits_shape g :
  Matches is_digit [plus Digit; one (Chr 46); plus Digit] g ->
  exists a b, g = a ++ 46%N :: b /\ digits is_digit a /\ digits is_digit b.
Proof.
  intros (ws & HF & <-).
  inversion HF as [|? a ? ? Ta HF1]; subst.
  inversion HF1 as [|? d ? ? Td HF2]; subst.
  inversion HF2 as [|? b ? ? Tb HF3]; subst.
  inversion HF3; subst.
  destruct Ta as (Ha & La & Ua), Td as (Hd & Ld & Ud), Tb as (Hb & Lb & Ub).
  simpl in *.
  destruct d as [|c [|? ?]]; simpl in *; try lia.
  apply Forall_cons in Hd as [Hc _]. apply N.eqb_eq in Hc. subst c.
  exists a, b. rewrite app_nil_r. repeat split; auto.
  - destruct a; simpl in *; [lia|congruence].
  - destruct b; simpl in *; [lia|congruence].
Qed.

(** What a match of [(\d{4}\.\d{4,5})] looks like. *)
Lemma bare_shape g :
  Matches is_digit [exactly 4 Digit; one (Chr 46); between 4 5 Digit] g ->
  exists a b, g = a ++ 46%N :: b /\ length a = 4
              /\ (length b = 4 \/ length b = 5)
              /\ digits is_digit a /\ digits is_digit b.
Proof.
  intros (ws & HF & <-).
  inversion HF as [|? a ? ? Ta HF1]; subst.
  inversion HF1 as [|? d ? ? Td HF2]; subst.
  inversion HF2 as [|? b ? ? Tb HF3]; subst.
  inversion HF3; subst.
  destruct Ta as (Ha & La & Ua), Td as (Hd & Ld & Ud), Tb as (Hb & Lb & Ub).
  simpl in *.
  destruct d as [|c [|? ?]]; simpl in *; try lia.
  apply Forall_cons in Hd as [Hc _]. apply N.eqb_eq in Hc. subst c.
  exists a, b. rewrite app_nil_r. repeat split; auto; try lia.
  - destruct a; simpl in *; [lia|congruence].
  - destruct b; simpl in *; [lia|congruence].
Qed.

End Shapes.

End CaptureFacts.

Section CaptureClaims.
Import Re ReSpec ReFacts ExtractFacts CaptureFacts.

Variable is_digit : N -> bool.
Hypothesis digits_ascii : ascii_table is_digit.

Lemma search_url_digits (p : pattern) (u : string) a b :
  prefix p = lit u ->
  group p = [plus Digit; one (Chr 46); plus Digit] ->
  length (lit u) = 14 ->
  (forall s, match_items is_digit (lit u ++ group p) (py u ++ s)
             = option_map (app (repeat 1 14)) (match_items is_digit (group p) s)) ->
  digits is_digit a -> digits is_digit b ->
  search_group1 is_digit p (py u ++ a ++ 46%N :: b) = Some (a ++ 46%N :: b).
Proof.
  intros Hp Hg Hlen Hlit Ha Hb.
  assert (Hdot : is_digit 46%N = false) by (rewrite digits_ascii; reflexivity).
  assert (Lu : length (py u) = 14).
  { unfold lit in Hlen. rewrite length_map in Hlen. exact Hlen. }
  unfold search_group1. rewrite Hp.
  assert (E : search_from is_digit (lit u ++ group p) (py u ++ a ++ 46%N :: b) 0
              = Some (0, repeat 1 14 ++ [length a; 1; length b])).
  { destruct (py u ++ a ++ 46%N :: b) eqn:Etext;
      simpl; rewrite <- Etext, Hlit, Hg, match_digits_dot_digits by auto;
      reflexivity. }
  rewrite E, Hlen. simpl.
  rewrite <- Lu, drop_app_length.
  apply f_equal, take_ge. rewrite length_app. simpl. lia.
Qed.

(** C10. The two URL patterns capture any run of digits, a dot and a run of
    digits, whatever the lengths: the text "arxiv.org/abs/" or
    "arxiv.org/pdf/" followed by such a sequence yields that sequence, so
    [extract_arxiv_id] returns strings outside the identifier format
    [YYMM.NNNNN], such as "1.2" from "arxiv.org/abs/1.2". Only the bare
    pattern fixes the lengths: what it captures is four digits, a dot and
    four or five digits. *)
Theorem url_patterns_capture_any_digits :
  (forall text g,
      search_group1 is_digit abs_pattern text = Some g
      \/ search_group1 is_digit pdf_pattern text = Some g ->
      exists a b, g = a ++ 46%N :: b
                  /\ digits is_digit a /\ digits is_digit b)
  /\ (forall a b,
        digits is_digit a -> digits is_digit b ->
        search_group1 is_digit abs_pattern (py "arxiv.org/abs/" ++ a ++ 46%N :: b)
        = Some (a ++ 46%N :: b)
        /\ search_group1 is_digit pdf_pattern (py "arxiv.org/pdf/" ++ a ++ 46%N :: b)
           = Some (a ++ 46%N :: b))
  /\ extract_arxiv_id is_digit (py "arxiv.org/abs/1.2") = Some (py "1.2")
  /\ extract_arxiv_id is_digit (py "arxiv.org/pdf/1.2") = Some (py "1.2")
  /\ ~ id_format is_digit (py "1.2")
  /\ (forall text g,
        search_group1 is_digit bare_pattern text = Some g ->
        exists a b, g = a ++ 46%N :: b /\ length a = 4
                    /\ (length b = 4 \/ length b = 5)
                    /\ digits is_digit a /\ digits is_digit b).
Proof.
  split; [|split; [|split; [|split; [|split]]]].
  - intros text g [H|H];
      apply search_group1_Some in H as (l & pre & r & (_ & _ & Hg) & _);
      apply digits_dot_digits_shape in Hg; exact Hg.
  - intros a b Ha Hb. split.
    + apply (search_url_digits abs_pattern "arxiv.org/abs/"); auto.
      intros s. change (py "arxiv.org/abs/" ++ s)
        with (97 :: 114 :: 120 :: 105 :: 118 :: 46 :: 111 :: 114 :: 103 :: 47
                :: 97 :: 98 :: 115 :: 47 :: s)%N.
      change (lit "arxiv.org/abs/" ++ group abs_pattern)
        with (map (fun c => one (Chr c)) (py "arxiv.org/abs/")
                ++ group abs_pattern).
      cbn [py map list_ascii_of_string N_of_ascii N_of_digits app].
      rewrite !match_items_one.
      destruct (match_items is_digit (group abs_pattern) s); reflexivity.
    + apply (search_url_digits pdf_pattern "arxiv.org/pdf/"); auto.
      intros s. change (py "arxiv.org/pdf/" ++ s)
        with (97 :: 114 :: 120 :: 105 :: 118 :: 46 :: 111 :: 114 :: 103 :: 47
                :: 112 :: 100 :: 102 :: 47 :: s)%N.
      change (lit "arxiv.org/pdf/" ++ group pdf_pattern)
        with (map (fun c => one (Chr c)) (py "arxiv.org/pdf/")
                ++ group pdf_pattern).
      cbn [py map list_ascii_of_string N_of_ascii N_of_digits app].
      rewrite !match_items_one.
      destruct (match_items is_digit (group pdf_pattern) s); reflexivity.
  - rewrite extract_ascii by (auto || reflexivity). reflexivity.
  - rewrite extract_ascii by (auto || reflexivity). reflexivity.
  - intros (a & b & E & La & Lb & _). apply (f_equal length) in E.
    rewrite length_app in E. simpl in E. lia.
  - intros text g H.
    apply search_group1_Some in H as (l & pre & r & (_ & _ & Hg) & _).
    apply bare_shape in Hg. exact Hg.
Qed.

End CaptureClaims.

Lemma url_patterns_capture_any_digits_witness :
  ascii_table ascii_digit
  /\ extract_arxiv_id ascii_digit (py "arxiv.org/abs/1.2") = Some (py "1.2").
Proof.
  assert (H : ascii_table ascii_digit) by (intros c _; reflexivity).
  split; [exact H|].
  exact (proj1 (proj2 (proj2 (url_patterns_capture_any_digits ascii_digit H)))).
Defined.

(** ** The three forms, in order *)

Module FormFacts.
Import Re ReSpec ReFacts ExtractFacts CaptureFacts.

Section Forms.

Variable is_digit : N -> bool.

(** [search_group1] returns the group of the leftmost match, with the
    counts the greedy repetitions prefer among the matches that start
    there. *)
Lemma search_group1_greedy p text g :
  search_group1 is_digit p text = Some g ->
  exists l ws1 ws2 r,
    text = l ++ concat ws1 ++ concat ws2 ++ r
    /\ Forall2 (item_takes is_digit) (prefix p) ws1
    /\ Forall2 (item_takes is_digit) (group p) ws2
    /\ g = concat ws2
    /\ forall l' ws1' ws2' r',
         text = l' ++ concat ws1' ++ concat ws2' ++ r' ->
         Forall2 (item_takes is_digit) (prefix p) ws1' ->
         Forall2 (item_takes is_digit) (group p) ws2' ->
         length l < length l'
         \/ (length l' = length l
             /\ prefers (map length (ws1 ++ ws2)) (map length (ws1' ++ ws2'))).
Proof.
  unfold search_group1.
  destruct (search_from is_digit (prefix p ++ group p) text 0)
    as [[pos ks]|] eqn:E; [|discriminate].
  intros [= <-].
  apply search_from_Some in E as (i & -> & Hi & Hm & Hno). simpl.
  pose proof (match_items_sound is_digit _ _ _ Hm) as Hfit.
  apply fits_words in Hfit as (ws & r & Hs & HF & ->).
  apply Forall2_app_inv_l in HF as (ws1 & ws2 & HF1 & HF2 & ->).
  pose proof (Forall2_length _ _ _ HF1) as Hlen.
  rewrite map_app.
  rewrite take_app_length' by (rewrite length_map; auto).
  rewrite drop_app_length' by (rewrite length_map; auto).
  rewrite !total_lengths.
  rewrite concat_app, <- app_assoc in Hs.
  exists (take i text), ws1, ws2, r.
  split; [rewrite <- Hs; symmetry; apply take_drop|].
  split; [exact HF1|]. split; [exact HF2|]. split.
  { rewrite <- drop_drop, Hs, drop_app_length. apply take_app_length. }
  intros l' ws1' ws2' r' Ht HF1' HF2'. rewrite length_take.
  assert (Hf' : fits is_digit (prefix p ++ group p) (drop (length l') text)
                  (map length (ws1' ++ ws2'))).
  { apply fits_words. exists (ws1' ++ ws2'), r'.
    rewrite Ht at 1. rewrite drop_app_length, concat_app, <- app_assoc.
    repeat split; auto. apply Forall2_app; auto. }
  destruct (lt_eq_lt_dec (length l') i) as [[Hlt|Heq]|Hgt].
  - exfalso. specialize (Hno _ Hlt). rewrite match_items_None in Hno.
    exact (Hno _ Hf').
  - right. split; [lia|]. rewrite Heq in Hf'.
    destruct (match_items_greedy is_digit _ _ _ Hf') as (ks0 & Hm0 & Hp).
    rewrite Hm in Hm0. injection Hm0 as <-.
    rewrite map_app in Hp. rewrite map_app. exact Hp.
  - left. lia.
Qed.

Lemma prefers_app ks t t' :
  prefers (ks ++ t) (ks ++ t') -> prefers t t'.
Proof.
  induction ks as [|k ks IH]; simpl; auto.
  intros [H|[_ H]]; [lia|auto].
Qed.

(** The words a literal text takes.  *)
Lemma literal_words (l : pystr) ws :
  Forall2 (item_takes is_digit) (map (fun c => one (Chr c)) l) ws <->
  ws = map (fun c => [c]) l.
Proof.
  revert ws. induction l as [|c l IH]; intros ws; simpl.
  - split; [intros H; inversion H; reflexivity|intros ->; constructor].
  - split.
    + intros H. inversion H as [|? w ? ws' Hw Hws]; subst.
      apply IH in Hws as ->. destruct Hw as (Hall & Hlo & Hhi).
      simpl in Hhi. destruct w as [|x [|y w]]; simpl in *; try lia.
      apply Forall_cons in Hall as [Hx _]. simpl in Hx.
      apply N.eqb_eq in Hx as ->. reflexivity.
    + intros ->. constructor; [|apply IH; reflexivity].
      simpl. repeat split; auto. constructor; [|constructor].
      simpl. apply N.eqb_refl.
Qed.

Lemma concat_singletons (l : pystr) : concat (map (fun c => [c]) l) = l.
Proof. induction l as [|c l IH]; simpl; [|rewrite IH]; reflexivity. Qed.

(** The words [\d+\.\d+] takes. *)
Lemma dotted_words ws :
  Forall2 (item_takes is_digit) [plus Digit; one (Chr 46); plus Digit] ws <->
  exists a b, ws = [a; [46%N]; b] /\ digits is_digit a /\ digits is_digit b.
Proof.
  split.
  - intros HF.
    inversion HF as [|? a ? ? Ta HF1]; subst.
    inversion HF1 as [|? d ? ? Td HF2]; subst.
    inversion HF2 as [|? b ? ? Tb HF3]; subst.
    inversion HF3; subst.
    destruct Ta as (Ha & La & Ua), Td as (Hd & Ld & Ud), Tb as (Hb & Lb & Ub).
    simpl in *.
    destruct d as [|c [|? ?]]; simpl in *; try lia.
    apply Forall_cons in Hd as [Hc _]. apply N.eqb_eq in Hc. subst c.
    exists a, b. repeat split; auto.
    + destruct a; simpl in *; [lia|congruence].
    + destruct b; simpl in *; [lia|congruence].
  - intros (a & b & -> & [Ha Hda] & [Hb Hdb]).
    assert (La : 1 <= length a) by (destruct a; simpl; [congruence|lia]).
    assert (Lb : 1 <= length b) by (destruct b; simpl; [congruence|lia]).
    assert (Hd : Forall (fun c => atom_ok is_digit (Chr 46) c = true) [46%N])
      by (constructor; [reflexivity|constructor]).
    constructor; [simpl; auto|].
    constructor; [simpl; auto|].
    constructor; [simpl; auto|constructor].
Qed.

(** The words [\d{4}\.\d{4,5}] takes. *)
Lemma bare_words ws :
  Forall2 (item_takes is_digit)
    [exactly 4 Digit; one (Chr 46); between 4 5 Digit] ws <->
  exists a b, ws = [a; [46%N]; b] /\ length a = 4
              /\ (length b = 4 \/ length b = 5)
              /\ digits is_digit a /\ digits is_digit b.
Proof.
  split.
  - intros HF.
    inversion HF as [|? a ? ? Ta HF1]; subst.
    inversion HF1 as [|? d ? ? Td HF2]; subst.
    inversion HF2 as [|? b ? ? Tb HF3]; subst.
    inversion HF3; subst.
    destruct Ta as (Ha & La & Ua), Td as (Hd & Ld & Ud), Tb as (Hb & Lb & Ub).
    simpl in *.
    destruct d as [|c [|? ?]]; simpl in *; try lia.
    apply Forall_cons in Hd as [Hc _]. apply N.eqb_eq in Hc. subst c.
    exists a, b. repeat split; auto; try lia.
    + destruct a; simpl in *; [lia|congruence].
    + destruct b; simpl in *; [lia|congruence].
  - intros (a & b & -> & La & Lb & [Ha Hda] & [Hb Hdb]).
    assert (Hd : Forall (fun c => atom_ok is_digit (Chr 46) c = true) [46%N])
      by (constructor; [reflexivity|constructor]).
    constructor; [simpl; repeat split; auto; lia|].
    constructor; [simpl; auto|].
    constructor; [simpl; repeat split; auto; lia|constructor].
Qed.

Lemma link_match_at marker p text l g r :
  marker_pattern marker p ->
  link_at is_digit marker text l g r <->
  exists pre, match_at is_digit p text l pre g r.
Proof.
  intros [Hp Hg]. unfold link_at, match_at, Matches, dotted.
  rewrite Hp, Hg. split.
  - intros (-> & a & b & -> & Ha & Hb). exists (py marker).
    split; [reflexivity|]. split.
    + exists (map (fun c => [c]) (py marker)).
      split; [apply literal_words; reflexivity|apply concat_singletons].
    + exists [a; [46%N]; b]. split; [apply dotted_words; eauto|].
      simpl. rewrite app_nil_r. reflexivity.
  - intros (pre & -> & (ws1 & H1 & <-) & (ws2 & H2 & <-)).
    apply literal_words in H1 as ->. rewrite concat_singletons.
    split; [reflexivity|].
    apply dotted_words in H2 as (a & b & -> & Ha & Hb).
    exists a, b. simpl. rewrite app_nil_r. auto.
Qed.

Lemma bare_match_at text l g r :
  bare_at is_digit text l g r <->
  exists pre, match_at is_digit bare_pattern text l pre g r.
Proof.
  unfold bare_at, match_at, Matches, bare_id. simpl. split.
  - intros (-> & a & b & -> & La & Lb & Ha & Hb). exists [].
    split; [reflexivity|]. split.
    + exists []. split; [constructor|reflexivity].
    + exists [a; [46%N]; b]. split; [apply bare_words; eauto 10|].
      simpl. rewrite app_nil_r. reflexivity.
  - intros (pre & -> & (ws1 & H1 & <-) & (ws2 & H2 & <-)).
    inversion H1; subst. split; [reflexivity|].
    apply bare_words in H2 as (a & b & -> & La & Lb & Ha & Hb).
    exists a, b. simpl. rewrite app_nil_r. auto.
Qed.

Lemma found_link marker p text :
  marker_pattern marker p ->
  found (link_at is_digit marker text) <-> occurs is_digit p text.
Proof.
  intros Hp. split.
  - intros (l & g & r & H). apply (link_match_at marker p) in H as (pre & H);
      [|exact Hp]. exists l, pre, g, r. exact H.
  - intros (l & pre & g & r & H). exists l, g, r.
    apply (link_match_at marker p); eauto.
Qed.

Lemma found_bare text :
  found (bare_at is_digit text) <-> occurs is_digit bare_pattern text.
Proof.
  split.
  - intros (l & g & r & H). apply bare_match_at in H as (pre & H).
    exists l, pre, g, r. exact H.
  - intros (l & pre & g & r & H). exists l, g, r.
    apply bare_match_at. eauto.
Qed.

(** Two runs of digits, each followed by a dot, at the head of the same
    text have the same length. *)
Lemma digit_runs_agree (a a' s s' : pystr) :
  is_digit 46%N = false ->
  Forall (fun c => is_digit c = true) a ->
  Forall (fun c => is_digit c = true) a' ->
  a ++ 46%N :: s = a' ++ 46%N :: s' ->
  length a' < length a -> False.
Proof.
  intros Hdot Ha Ha' E Hlt.
  assert (H1 : (a ++ 46%N :: s) !! length a' = Some 46%N).
  { rewrite E. apply list_lookup_middle. reflexivity. }
  rewrite lookup_app_l in H1 by exact Hlt.
  rewrite Forall_lookup in Ha. specialize (Ha _ _ H1). simpl in Ha.
  congruence.
Qed.

(** Among the matches of three items whose middle one is one character,
    the preferred one is the longest, unless the first item can stop
    earlier. *)
Lemma prefers_three la lb la' lb' :
  prefers [la; 1; lb] [la'; 1; lb'] ->
  ~ la' < la -> la' + 1 + lb' <= la + 1 + lb.
Proof. simpl. intros H Hn. lia. Qed.

Lemma same_start (l l' s s' : pystr) :
  l ++ s = l' ++ s' -> length l' = length l -> l = l' /\ s = s'.
Proof.
  intros E Hlen. apply app_inj_1 in E; [exact E|lia].
Qed.

(** What [search_group1] returns for a marker pattern is the leftmost
    link, and the longest that starts there. *)
Lemma search_group1_link marker p text g :
  is_digit 46%N = false ->
  marker_pattern marker p ->
  search_group1 is_digit p text = Some g ->
  first_longest (link_at is_digit marker text) g.
Proof.
  intros Hdot Hp Hs. pose proof Hp as [Hpre Hgrp].
  apply search_group1_greedy in Hs
    as (l & ws1 & ws2 & r & Ht & H1 & H2 & -> & Hbest).
  rewrite Hpre in H1. apply literal_words in H1 as ->.
  rewrite Hgrp in H2. apply dotted_words in H2 as (a & b & -> & Ha & Hb).
  rewrite concat_singletons in Ht.
  exists l, r. split.
  { split; [exact Ht|]. exists a, b. simpl. rewrite app_nil_r. auto. }
  intros l' g' r' [Ht' (a' & b' & -> & Ha' & Hb')].
  destruct (Hbest l' (map (fun c => [c]) (py marker)) [a'; [46%N]; b'] r')
    as [Hlt|[Hlen Hpref]].
  - rewrite concat_singletons. simpl. rewrite app_nil_r. exact Ht'.
  - rewrite Hpre. apply literal_words. reflexivity.
  - rewrite Hgrp. apply dotted_words. eauto.
  - left. exact Hlt.
  - right. split; [exact Hlen|].
    rewrite !map_app in Hpref. apply prefers_app in Hpref.
    simpl in Hpref |- *. rewrite app_nil_r.
    rewrite !length_app. simpl.
    assert (Hn : ~ length a' < length a).
    { intros Hlt. rewrite Ht in Ht'.
      apply same_start in Ht' as [_ Ht']; [|exact Hlen].
      apply app_inv_head in Ht'. simpl in Ht'. rewrite app_nil_r in Ht'.
      rewrite <- !app_assoc in Ht'. simpl in Ht'.
      destruct Ha as [_ Ha], Ha' as [_ Ha'].
      exact (digit_runs_agree a a' _ _ Hdot Ha Ha' Ht' Hlt). }
    simpl in Hpref. lia.
Qed.

(** What [search_group1] returns for the bare pattern is the leftmost
    bare identifier, and the longest that starts there. *)
Lemma search_group1_bare text g :
  search_group1 is_digit bare_pattern text = Some g ->
  first_longest (bare_at is_digit text) g.
Proof.
  intros Hs.
  apply search_group1_greedy in Hs
    as (l & ws1 & ws2 & r & Ht & H1 & H2 & -> & Hbest).
  simpl in H1. inversion H1; subst ws1. simpl in Ht.
  apply bare_words in H2 as (a & b & -> & La & Lb & Ha & Hb).
  exists l, r. split.
  { split; [exact Ht|]. exists a, b. simpl. rewrite app_nil_r. auto. }
  intros l' g' r' [Ht' (a' & b' & -> & La' & Lb' & Ha' & Hb')].
  destruct (Hbest l' [] [a'; [46%N]; b'] r') as [Hlt|[Hlen Hpref]].
  - simpl. rewrite app_nil_r. exact Ht'.
  - constructor.
  - apply bare_words. eauto 10.
  - left. exact Hlt.
  - right. split; [exact Hlen|].
    simpl in Hpref |- *. rewrite app_nil_r.
    rewrite !length_app. simpl. lia.
Qed.

Lemma abs_marker : marker_pattern "arxiv.org/abs/" abs_pattern.
Proof. split; reflexivity. Qed.

Lemma pdf_marker : marker_pattern "arxiv.org/pdf/" pdf_pattern.
Proof. split; reflexivity. Qed.

(** The leftmost and longest occurrence of a form is one piece of the
    text: there is only one. *)
Lemma first_longest_link_unique marker text g g' :
  first_longest (link_at is_digit marker text) g ->
  first_longest (link_at is_digit marker text) g' -> g = g'.
Proof.
  intros (l & r & H & Hb) (l' & r' & H' & Hb').
  destruct (Hb _ _ _ H') as [Hlt|[Hlen Hg]],
           (Hb' _ _ _ H) as [Hlt'|[Hlen' Hg']]; try lia.
  destruct H as [Ht _], H' as [Ht' _]. rewrite Ht in Ht'.
  apply same_start in Ht' as [_ Ht']; [|exact Hlen].
  apply app_inv_head in Ht'.
  apply app_inj_1 in Ht'; [apply Ht'|lia].
Qed.

Lemma first_longest_bare_unique text g g' :
  first_longest (bare_at is_digit text) g ->
  first_longest (bare_at is_digit text) g' -> g = g'.
Proof.
  intros (l & r & H & Hb) (l' & r' & H' & Hb').
  destruct (Hb _ _ _ H') as [Hlt|[Hlen Hg]],
           (Hb' _ _ _ H) as [Hlt'|[Hlen' Hg']]; try lia.
  destruct H as [Ht _], H' as [Ht' _]. rewrite Ht in Ht'.
  apply same_start in Ht' as [_ Ht']; [|exact Hlen].
  apply app_inj_1 in Ht'; [apply Ht'|lia].
Qed.

End Forms.

End FormFacts.

Section ExtractClaims.
Import Re ReSpec ReFacts ExtractFacts FormFacts.

Variable is_digit : N -> bool.
Hypothesis digits_ascii : ascii_table is_digit.

(** C3. [extract_arxiv_id] tries three forms in a fixed order: a link
    "arxiv.org/abs/" followed by digits, a dot and digits; then a link
    "arxiv.org/pdf/" followed by digits, a dot and digits; then a bare
    identifier of four digits, a dot and four or five digits. It returns
    [None] exactly when none of the three is found anywhere in the text.
    Otherwise it returns the digits-dot-digits of the first form in that
    order that is found somewhere: of the abs link when there is one, of
    the pdf link when there is no abs link, of the bare identifier when
    there is no link; in each case the leftmost occurrence of the form
    and the longest that starts there, which makes the result unique.
    From "https://arxiv.org/abs/2301.01234" it returns "2301.01234". *)
Theorem extract_arxiv_id_first_match (text : pystr) :
  let abs_link := link_at is_digit "arxiv.org/abs/" text in
  let pdf_link := link_at is_digit "arxiv.org/pdf/" text in
  let bare := bare_at is_digit text in
  (extract_arxiv_id is_digit text = None <->
   ~ found abs_link /\ ~ found pdf_link /\ ~ found bare)
  /\ (found abs_link ->
      exists g, extract_arxiv_id is_digit text = Some g
                /\ first_longest abs_link g
                /\ forall g', first_longest abs_link g' -> g' = g)
  /\ (~ found abs_link -> found pdf_link ->
      exists g, extract_arxiv_id is_digit text = Some g
                /\ first_longest pdf_link g
                /\ forall g', first_longest pdf_link g' -> g' = g)
  /\ (~ found abs_link -> ~ found pdf_link -> found bare ->
      exists g, extract_arxiv_id is_digit text = Some g
                /\ first_longest bare g
                /\ forall g', first_longest bare g' -> g' = g)
  /\ extract_arxiv_id is_digit (py "https://arxiv.org/abs/2301.01234")
     = Some (py "2301.01234").
Proof.
  intros abs_link pdf_link bare.
  assert (Hdot : is_digit 46%N = false) by (rewrite digits_ascii; reflexivity).
  pose proof (found_link is_digit _ _ text abs_marker) as Ha.
  pose proof (found_link is_digit _ _ text pdf_marker) as Hp.
  pose proof (found_bare is_digit text) as Hb.
  fold abs_link in Ha. fold pdf_link in Hp. fold bare in Hb.
  unfold extract_arxiv_id, patterns, first_match.
  split; [|split; [|split; [|split]]].
  - rewrite Ha, Hp, Hb, <- !search_group1_None.
    destruct (search_group1 is_digit abs_pattern text);
      [split; [discriminate|intros [H _]; discriminate]|].
    destruct (search_group1 is_digit pdf_pattern text);
      [split; [discriminate|intros (_ & H & _); discriminate]|].
    destruct (search_group1 is_digit bare_pattern text);
      [split; [discriminate|intros (_ & _ & H); discriminate]|].
    split; auto.
  - intros H. apply Ha in H.
    destruct (search_group1 is_digit abs_pattern text) as [g|] eqn:E;
      [|apply search_group1_None in E; contradiction].
    exists g. split; [reflexivity|].
    pose proof (search_group1_link is_digit _ _ _ _ Hdot abs_marker E) as Hg.
    split; [exact Hg|]. intros g' Hg'.
    exact (first_longest_link_unique is_digit _ _ _ _ Hg' Hg).
  - intros Hno H. rewrite Ha, <- search_group1_None in Hno. rewrite Hno.
    apply Hp in H.
    destruct (search_group1 is_digit pdf_pattern text) as [g|] eqn:E;
      [|apply search_group1_None in E; contradiction].
    exists g. split; [reflexivity|].
    pose proof (search_group1_link is_digit _ _ _ _ Hdot pdf_marker E) as Hg.
    split; [exact Hg|]. intros g' Hg'.
    exact (first_longest_link_unique is_digit _ _ _ _ Hg' Hg).
  - intros Hno Hno' H. rewrite Ha, <- search_group1_None in Hno.
    rewrite Hp, <- search_group1_None in Hno'. rewrite Hno, Hno'.
    apply Hb in H.
    destruct (search_group1 is_digit bare_pattern text) as [g|] eqn:E;
      [|apply search_group1_None in E; contradiction].
    exists g. split; [reflexivity|].
    pose proof (search_group1_bare is_digit _ _ E) as Hg.
    split; [exact Hg|]. intros g' Hg'.
    exact (first_longest_bare_unique is_digit _ _ _ Hg' Hg).
  - change (extract_arxiv_id is_digit (py "https://arxiv.org/abs/2301.01234")
            = Some (py "2301.01234")).
    rewrite extract_ascii by (auto || reflexivity). reflexivity.
Qed.

End ExtractClaims.

Lemma extract_arxiv_id_first_match_witness :
  ascii_table ascii_digit
  /\ extract_arxiv_id ascii_digit (py "https://arxiv.org/abs/2301.01234")
     = Some (py "2301.01234").
Proof.
  assert (H : ascii_table ascii_digit) by (intros c _; reflexivity).
  split; [exact H|].
  exact (proj2 (proj2 (proj2 (proj2
           (extract_arxiv_id_first_match ascii_digit H
              (py "https://arxiv.org/abs/2301.01234")))))).
Defined.

(** ** The ledger and the summary file *)

Section LedgerClaims.

Local Open Scope M_scope.

(** C7. When the ledger file does not exist, [load_processed_papers]
    returns the empty list and raises nothing; the world is as before. *)
Theorem load_processed_papers_missing (w : World) :
  ledger w = None -> load_processed_papers w = (inr [], w).
Proof.
  intros H. unfold load_processed_papers, bind, ledger_exists. rewrite H.
  reflexivity.
Qed.

(** No summary file is the ledger file: one path ends in "d", the other
    in "n". This is why [World] can keep the ledger apart from [files]. *)
Lemma summary_path_not_ledger (paper_id : pystr) :
  paper_id ++ py "/" ++ paper_id ++ py ".md" <> PROCESSED_FILE.
Proof.
  intros H. apply (f_equal last) in H.
  change (py ".md") with ([46; 109]%N ++ [100%N]) in H.
  rewrite !app_assoc, last_snoc in H. discriminate.
Qed.

Lemma load_processed_papers_spec (w : World) :
  load_processed_papers w = (inr (default [] (ledger w)), w).
Proof.
  unfold load_processed_papers, bind, ledger_exists, json_load_ledger.
  destruct (ledger w) as [ids|] eqn:E; simpl; [rewrite E|]; reflexivity.
Qed.

Lemma dirname_PROCESSED_FILE : dirname PROCESSED_FILE = py "scripts".
Proof. reflexivity. Qed.

Lemma save_processed_paper_present (paper_id : pystr) (w : World) :
  paper_id ∈ default [] (ledger w) ->
  save_processed_paper paper_id w = (inr tt, w).
Proof.
  intros H. unfold save_processed_paper, bind.
  rewrite load_processed_papers_spec.
  rewrite bool_decide_eq_false_2; [reflexivity|]. intros Hn. exact (Hn H).
Qed.

Lemma save_processed_paper_absent (paper_id : pystr) (w : World) :
  paper_id ∉ default [] (ledger w) ->
  save_processed_paper paper_id w
  = (inr tt,
     {| dirs := {[py "scripts"]} ∪ dirs w;
        files := files w;
        ledger := Some (default [] (ledger w) ++ [paper_id]);
        log := log w ++ [Mkdir (py "scripts");
                         DumpLedger (default [] (ledger w) ++ [paper_id])] |}).
Proof.
  intros H. unfold save_processed_paper, bind.
  rewrite load_processed_papers_spec.
  rewrite bool_decide_eq_true_2 by exact H.
  unfold mkdir_exist_ok, json_dump_ledger, logged. simpl.
  rewrite <- app_assoc. reflexivity.
Qed.

(** C2. Recording an identifier is idempotent. When it is already in the
    ledger, [save_processed_paper] changes nothing. When it is not, exactly
    one entry, the identifier, is appended at the end. In both cases a
    second save of the same identifier changes nothing, and the identifier
    is then in the ledger. *)
Theorem save_processed_paper_idempotent (paper_id : pystr) (w : World) :
  (paper_id ∈ default [] (ledger w) ->
   save_processed_paper paper_id w = (inr tt, w))
  /\ (paper_id ∉ default [] (ledger w) ->
      exists w',
        save_processed_paper paper_id w = (inr tt, w')
        /\ ledger w' = Some (default [] (ledger w) ++ [paper_id])
        /\ files w' = files w)
  /\ (exists w',
        save_processed_paper paper_id w = (inr tt, w')
        /\ paper_id ∈ default [] (ledger w')
        /\ save_processed_paper paper_id w' = (inr tt, w')).
Proof.
  split; [apply save_processed_paper_present|]. split.
  - intros H. eexists. split; [apply save_processed_paper_absent, H|].
    split; reflexivity.
  - destruct (decide (paper_id ∈ default [] (ledger w))) as [H|H].
    + exists w. rewrite save_processed_paper_present by exact H. auto.
    + eexists. split; [apply save_processed_paper_absent, H|].
      assert (Hin : paper_id ∈ default [] (ledger w) ++ [paper_id])
        by (apply elem_of_app; right; apply list_elem_of_singleton; reflexivity).
      split; [exact Hin|].
      apply save_processed_paper_present. exact Hin.
Qed.

(** C8. [save_summary_to_file] returns the path [<id>/<id>.md]. After the
    call the directory named after the identifier exists (it is created
    when absent, and the set of directories is unchanged when present),
    the file at that path holds the content, whatever it held before, and
    no other file and not the ledger is touched. A later save to the same
    identifier replaces the content: the last write wins. *)
Theorem save_summary_to_file_writes (paper_id content : pystr) (w : World) :
  let path := paper_id ++ py "/" ++ paper_id ++ py ".md" in
  exists w',
    save_summary_to_file paper_id content w = (inr path, w')
    /\ dirs w' = {[paper_id]} ∪ dirs w
    /\ (paper_id ∈ dirs w -> dirs w' = dirs w)
    /\ files w' = <[path := content]> (files w)
    /\ files w' !! path = Some content
    /\ (forall other, other <> path -> files w' !! other = files w !! other)
    /\ ledger w' = ledger w
    /\ log w' = log w ++ [Mkdir paper_id; WriteText path content]
    /\ forall content2, exists w'',
         save_summary_to_file paper_id content2 w' = (inr path, w'')
         /\ files w'' !! path = Some content2
         /\ dirs w'' = dirs w'.
Proof.
  intros path.
  unfold save_summary_to_file, bind, mkdir_exist_ok, write_text, ret, logged.
  cbn. fold path. eexists. split; [reflexivity|]. cbn.
  repeat split.
  - intros H. apply subseteq_union_1_L, singleton_subseteq_l, H.
  - apply lookup_insert_eq.
  - intros other Hne. apply lookup_insert_ne. auto.
  - rewrite <- app_assoc. reflexivity.
  - intros content2. eexists. split; [reflexivity|]. cbn. split.
    + apply lookup_insert_eq.
    + apply subseteq_union_1_L, singleton_subseteq_l.
      apply elem_of_union_l, elem_of_singleton. reflexivity.
Qed.

End LedgerClaims.

Lemma load_processed_papers_missing_witness :
  load_processed_papers empty_world = (inr [], empty_world).
Proof. apply (load_processed_papers_missing empty_world). reflexivity. Defined.

(** ** Runs of the pipeline *)

Module RunFacts.

Local Open Scope M_scope.

Lemma bind_unfold {A B} (c : M A) (k : A -> M B) (w : World) :
  bind c k w
  = match c w with
    | (inr a, w') => k a w'
    | (inl e, w') => (inl e, w')
    end.
Proof. reflexivity. Qed.


Lemma adds_bind {A B} (P : call -> Prop) (c : M A) (k : A -> M B) :
  adds P c -> (forall a, adds P (k a)) -> adds P (bind c k).
Proof.
  intros Hc Hk w. rewrite bind_unfold.
  destruct (Hc w) as (new & Hlog & Hnew).
  destruct (c w) as [[e|a] w']; simpl in *.
  - exists new. auto.
  - destruct (Hk a w') as (new' & Hlog' & Hnew').
    exists (new ++ new'). rewrite Hlog', Hlog, app_assoc. split; auto.
    apply Forall_app. auto.
Qed.


(** A computation that logs the one call [c] and touches the log no
    further. *)
Lemma adds_one {A} (P : call -> Prop) (m : M A) (c : call) :
  (forall w, log (snd (m w)) = log w ++ [c]) -> P c -> adds P m.
Proof. intros H Hc w. exists [c]. split; auto. Qed.

End RunFacts.

Section RunClaims.
Import RunFacts.

Variable is_digit : N -> bool.
Variable strftime : datetime -> pystr -> pystr.
Variable cfg : Config.
Variable env : Env.

Local Open Scope M_scope.

Local Abbreviation for_updates := (for_updates is_digit strftime cfg env).
Local Abbreviation process_paper := (process_paper strftime cfg env).
Local Abbreviation try_process_paper := (try_process_paper strftime cfg env).

Lemma extract_empty : extract_arxiv_id is_digit [] = None.
Proof. reflexivity. Qed.

Lemma for_updates_cons processed u rest found :
  for_updates processed (u :: rest) found
  = match msg u with
    | None => for_updates processed rest found
    | Some message =>
        let chat := chat_id message in
        if bool_decide (Some (str_int chat) ≠ TELEGRAM_CHAT_ID cfg) then
          for_updates processed rest found
        else
          match extract_arxiv_id is_digit (default [] (text message)) with
          | None | Some [] => for_updates processed rest found
          | Some paper_id =>
              if bool_decide (paper_id ∈ processed) then
                for_updates processed rest found
              else
                try_process_paper chat paper_id ;;
                for_updates processed rest true
          end
    end.
Proof. reflexivity. Qed.

(** C9. An update without a ['message'] field, and a message of the
    configured chat without a ['text'] field, is skipped: the loop goes on
    with the next update in the same world, so nothing was raised, no call
    was made and no notification was sent for it. *)
Theorem for_updates_skips_incomplete
    (processed : list pystr) (u : update) (rest : list update)
    (found : bool) (w : World) :
  msg u = None
  \/ (exists m, msg u = Some m
                /\ Some (str_int (chat_id m)) = TELEGRAM_CHAT_ID cfg
                /\ text m = None) ->
  for_updates processed (u :: rest) found w
  = for_updates processed rest found w.
Proof.
  rewrite for_updates_cons.
  intros [H|(m & Hm & Hchat & Htext)]; [rewrite H; reflexivity|].
  rewrite Hm, Htext. cbv zeta. cbn [default]. rewrite extract_empty.
  destruct (bool_decide _); reflexivity.
Qed.




Lemma get_telegram_updates_run (w : World) :
  exists r,
    get_telegram_updates cfg env w
    = (r, logged (Get (bot_url cfg "getUpdates")) w).
Proof.
  unfold get_telegram_updates. rewrite bind_unfold. unfold requests_get.
  destruct (http_get env (log w) _) as [e|resp]; [eauto|].
  destruct (status_code resp =? 200)%Z; [|eexists; reflexivity].
  destruct (json resp) as [e|result]; eexists; reflexivity.
Qed.

Lemma process_new_papers_unfold (w : World) :
  process_new_papers is_digit strftime cfg env w
  = match get_telegram_updates cfg env w with
    | (inr updates, w1) =>
        match for_updates (default [] (ledger w1)) updates false w1 with
        | (inr _, w2) => (inr tt, w2)
        | (inl e, w2) => (inl e, w2)
        end
    | (inl e, w1) => (inl e, w1)
    end.
Proof.
  unfold process_new_papers. rewrite bind_unfold.
  destruct (get_telegram_updates cfg env w) as [[e|updates] w1]; auto.
  rewrite bind_unfold, load_processed_papers_spec, bind_unfold.
  destruct (for_updates _ updates false w1) as [[e|b] w2]; reflexivity.
Qed.

Lemma save_summary_to_file_run (paper_id content : pystr) (w : World) :
  save_summary_to_file paper_id content w
  = (inr (paper_id ++ py "/" ++ paper_id ++ py ".md"),
     {| dirs := {[paper_id]} ∪ dirs w;
        files := <[paper_id ++ py "/" ++ paper_id ++ py ".md" := content]>
                   (files w);
        ledger := ledger w;
        log := log w ++ [Mkdir paper_id;
                         WriteText (paper_id ++ py "/" ++ paper_id ++ py ".md")
                                   content] |}).
Proof.
  unfold save_summary_to_file, bind, mkdir_exist_ok, write_text, ret, logged.
  cbn. rewrite <- app_assoc. reflexivity.
Qed.

Lemma save_processed_paper_run (paper_id : pystr) (w : World) :
  exists w',
    save_processed_paper paper_id w = (inr tt, w')
    /\ ledger w' = record_id paper_id (ledger w)
    /\ files w' = files w.
Proof.
  unfold record_id.
  destruct (decide (paper_id ∈ default [] (ledger w))) as [H|H].
  - exists w. rewrite save_processed_paper_present by exact H.
    rewrite bool_decide_eq_true_2 by exact H. auto.
  - eexists. rewrite save_processed_paper_absent by exact H.
    rewrite bool_decide_eq_false_2 by exact H.
    split; [reflexivity|]. split; reflexivity.
Qed.

Lemma contains_suffix (a b : pystr) : contains b (a ++ b).
Proof. exists a, []. rewrite app_nil_r. reflexivity. Qed.

(** *** Which calls a run makes *)

Lemma adds_pure {A} (P : call -> Prop) (m : M A) :
  (forall w, snd (m w) = w) -> adds P m.
Proof.
  intros H w. exists []. rewrite H, app_nil_r. auto.
Qed.


Lemma save_summary_to_file_adds (P : call -> Prop) paper_id content :
  (forall c, (forall l, c <> ArxivSearch l) -> P c) ->
  adds P (save_summary_to_file paper_id content).
Proof.
  intros HP w. rewrite save_summary_to_file_run. simpl.
  eexists. split; [reflexivity|].
  repeat constructor; apply HP; discriminate.
Qed.

Lemma save_processed_paper_adds (P : call -> Prop) paper_id :
  (forall c, (forall l, c <> ArxivSearch l) -> P c) ->
  adds P (save_processed_paper paper_id).
Proof.
  intros HP w.
  destruct (decide (paper_id ∈ default [] (ledger w))) as [H|H].
  - rewrite save_processed_paper_present by exact H.
    exists []. simpl. rewrite app_nil_r. auto.
  - rewrite save_processed_paper_absent by exact H. simpl.
    eexists. split; [reflexivity|].
    repeat constructor; apply HP; discriminate.
Qed.




End RunClaims.

(** ** The prompt and the rendered document *)

Module TextFacts.






End TextFacts.

Section DocumentClaims.
Import TextFacts.

Variable strftime : datetime -> pystr -> pystr.
Variable env : Env.


End DocumentClaims.

(** ** Examples and counterexamples *)


(** The post of the success notification raises: the failure is notified,
    and the identifier is in the ledger all the same. *)
Lemma failed_success_notice_keeps_record :
  ~ failure_keeps_ledger sample_strftime sample_config env_notice_fails.
Proof.
  intros H.
  destruct (H 42%Z (py "2301.01234") empty_world
              (Exception (py "connection reset"))
              (snd (process_paper sample_strftime sample_config
                      env_notice_fails 42 (py "2301.01234") empty_world))
              eq_refl)
    as (r & w2 & Htry & _ & Hledger).
  apply (f_equal (fun x => ledger (snd x))) in Htry.
  simpl in Htry. rewrite Hledger in Htry. vm_compute in Htry. discriminate.
Qed.

(** With the channel id not set the run starts, polls and ends normally;
    and with every value set a failing poll halts the run. *)
Lemma no_fail_fast_and_poll_halts :
  ~ fails_fast ascii_digit sample_strftime config_without_chat env_ok
  /\ ~ only_config_halts ascii_digit sample_strftime sample_config
         env_poll_fails.
Proof.
  split.
  - intros H.
    destruct (H empty_world) as (e & w' & Hmain & _).
    { right. left. reflexivity. }
    vm_compute in Hmain. discriminate.
  - intros H.
    assert (Habs : config_absent sample_config).
    { eapply (H empty_world). reflexivity. }
    destruct Habs as [Habs|[Habs|Habs]]; discriminate.
Qed.


(** A message of the configured chat without text is skipped. *)
Lemma for_updates_skips_incomplete_witness :
  for_updates ascii_digit sample_strftime sample_config env_ok []
    [ {| msg := Some {| chat_id := 42; text := None |} |} ]
    false empty_world
  = for_updates ascii_digit sample_strftime sample_config env_ok []
      [] false empty_world.
Proof.
  apply for_updates_skips_incomplete. right.
  exists {| chat_id := 42; text := None |}.
  split; [reflexivity|]. split; reflexivity.
Defined.

(** ** More on extraction *)

Module ExtractMore.
Import Re ReSpec ReFacts ExtractFacts CaptureFacts.

Section Scan.

Variable is_digit : N -> bool.

Lemma first_match_Some ps text g :
  first_match is_digit ps text = Some g ->
  exists p, p ∈ ps /\ search_group1 is_digit p text = Some g.
Proof.
  induction ps as [|p ps IH]; simpl; [discriminate|].
  destruct (search_group1 is_digit p text) as [g'|] eqn:E.
  - intros [= ->]. exists p. split; [left|exact E].
  - intros H. destruct (IH H) as (q & Hq & Hs). exists q. split; [right|]; auto.
Qed.

(** Whatever pattern produced it, an extracted identifier is a piece of the
    text made of digits, a dot and digits. *)
Lemma extract_shape text g :
  extract_arxiv_id is_digit text = Some g ->
  contains g text
  /\ exists a b, g = a ++ 46%N :: b /\ digits is_digit a /\ digits is_digit b.
Proof.
  intros H. apply first_match_Some in H as (p & Hp & Hs).
  apply search_group1_Some in Hs as (l & pre & r & (Ht & _ & Hg) & _).
  split.
  { exists (l ++ pre), r. rewrite Ht, <- !app_assoc. reflexivity. }
  unfold patterns in Hp.
  apply elem_of_cons in Hp as [->|Hp];
    [apply digits_dot_digits_shape, Hg|].
  apply elem_of_cons in Hp as [->|Hp];
    [apply digits_dot_digits_shape, Hg|].
  apply list_elem_of_singleton in Hp as ->.
  apply bare_shape in Hg as (a & b & E & _ & _ & Ha & Hb). eauto.
Qed.

(** A run of literal characters of the pattern takes the same characters
    of the text, one each. *)
Lemma match_items_literal (l : pystr) its s :
  match_items is_digit (map (fun c => one (Chr c)) l ++ its) (l ++ s)
  = option_map (app (repeat 1 (length l))) (match_items is_digit its s).
Proof.
  induction l as [|c l IH]; simpl map; simpl app.
  - destruct (match_items is_digit its s); reflexivity.
  - rewrite match_items_one, IH.
    destruct (match_items is_digit its s); reflexivity.
Qed.

Lemma search_from_cons its (c : N) (s : pystr) pos :
  search_from is_digit its (c :: s) pos
  = match match_items is_digit its (c :: s) with
    | Some ks => Some (pos, ks)
    | None => search_from is_digit its s (S pos)
    end.
Proof. reflexivity. Qed.

(** Where the text has a character the first item of the pattern does not
    accept, the pattern does not match, and the scan moves on. *)
Lemma search_from_skip a0 lo hi its (pre s : pystr) : forall pos,
  1 <= lo ->
  Forall (fun c => atom_ok is_digit a0 c = false) pre ->
  search_from is_digit (Rep a0 lo hi :: its) (pre ++ s) pos
  = search_from is_digit (Rep a0 lo hi :: its) s (pos + length pre).
Proof.
  induction pre as [|c pre IH]; intros pos Hlo Hpre; simpl app; simpl length.
  - rewrite Nat.add_0_r. reflexivity.
  - apply Forall_cons in Hpre as [Hc Hpre].
    assert (E : match_items is_digit (Rep a0 lo hi :: its) (c :: pre ++ s)
                = None).
    { rewrite match_items_cons. simpl span. rewrite Hc.
      destruct (0 <? lo) eqn:E0; [reflexivity|].
      apply Nat.ltb_ge in E0. lia. }
    rewrite search_from_cons, E, IH by assumption. f_equal. lia.
Qed.

Lemma search_from_nowhere a0 lo hi its (text : pystr) :
  1 <= lo ->
  Forall (fun c => atom_ok is_digit a0 c = false) text ->
  search_from is_digit (Rep a0 lo hi :: its) text 0 = None.
Proof.
  intros Hlo H. rewrite <- (app_nil_r text), search_from_skip by assumption.
  simpl. destruct (0 <? lo) eqn:E0; [reflexivity|].
  apply Nat.ltb_ge in E0. lia.
Qed.

Lemma span_digits_tail hi (b tail : pystr) :
  Forall (fun c => is_digit c = true) b -> ends_digits is_digit tail ->
  within hi (length b) ->
  span is_digit Digit hi (b ++ tail) = length b.
Proof.
  intros Hb Htail. revert hi.
  induction Hb as [|x b Hx Hb IH]; intros hi Hhi; simpl.
  - destruct Htail as [->|(c & t & -> & Hc)]; simpl; auto.
    rewrite Hc. reflexivity.
  - rewrite Hx. destruct hi as [[|h]|]; simpl in Hhi.
    + lia.
    + rewrite IH; [reflexivity|]. simpl. lia.
    + rewrite IH; [reflexivity|exact I].
Qed.

Lemma span_capped (h : nat) (b tail : pystr) :
  Forall (fun c => is_digit c = true) b -> length b = h ->
  span is_digit Digit (Some h) (b ++ tail) = h.
Proof.
  intros Hb. revert h. induction Hb as [|x b Hx Hb IH]; intros h Hh; simpl.
  - subst h. apply span_zero.
  - rewrite Hx. destruct h as [|h]; [simpl in Hh; lia|].
    rewrite IH; [reflexivity|]. simpl in Hh. lia.
Qed.

Lemma total_ones n : total (repeat 1 n) = n.
Proof.
  induction n as [|n IH]; [reflexivity|].
  unfold total in *. simpl. rewrite IH. reflexivity.
Qed.

(** A pattern whose prefix is the literal [c0 :: l], in a text where [c0]
    does not occur before that literal: the match starts at the literal
    and the group is what the group items take after it. *)
Lemma search_group1_literal p (c0 : N) (l pre s : pystr) ks :
  prefix p = map (fun c => one (Chr c)) (c0 :: l) ->
  Forall (fun c => c <> c0) pre ->
  match_items is_digit (group p) s = Some ks ->
  search_group1 is_digit p (pre ++ (c0 :: l) ++ s) = Some (take (total ks) s).
Proof.
  intros Hp Hpre Hm. unfold search_group1. rewrite Hp.
  change (map (fun c => one (Chr c)) (c0 :: l) ++ group p)
    with (Rep (Chr c0) 1 (Some 1)
            :: (map (fun c => one (Chr c)) l ++ group p)).
  rewrite search_from_skip; [|lia|].
  2:{ eapply Forall_impl; [exact Hpre|]. intros c Hc. simpl.
      apply N.eqb_neq. exact Hc. }
  change ((c0 :: l) ++ s) with (c0 :: (l ++ s)).
  rewrite search_from_cons.
  change (Rep (Chr c0) 1 (Some 1)) with (one (Chr c0)).
  rewrite match_items_one, match_items_literal, Hm.
  cbn [option_map]. cbv iota beta.
  change (1 :: repeat 1 (length l) ++ ks) with (repeat 1 (S (length l)) ++ ks).
  assert (Hlen : length (map (fun c => one (Chr c)) (c0 :: l))
                 = length (repeat 1 (S (length l)))).
  { rewrite length_map, repeat_length. reflexivity. }
  rewrite Hlen, take_app_length, drop_app_length, total_ones.
  f_equal. f_equal.
  rewrite Nat.add_0_l, <- drop_drop, drop_app_length.
  change (c0 :: l ++ s) with ((c0 :: l) ++ s).
  apply (drop_app_length (c0 :: l)).
Qed.

Lemma search_from_hit its (s : pystr) pos ks :
  match_items is_digit its s = Some ks ->
  search_from is_digit its s pos = Some (pos, ks).
Proof. intros H. destruct s; simpl; rewrite H; reflexivity. Qed.

End Scan.

End ExtractMore.

Section ExtractionProperties.
Import Re ReSpec ReFacts ExtractFacts CaptureFacts ExtractMore.

Variable is_digit : N -> bool.
Hypothesis digits_ascii : ascii_table is_digit.

(** X1. Whatever [extract_arxiv_id] returns is a piece of the text: a
    non-empty run of digits, a dot and a non-empty run of digits. It is
    never the empty string and holds no slash, so it names a single path
    component. *)
Theorem extracted_identifier_shape (text g : pystr) :
  extract_arxiv_id is_digit text = Some g ->
  contains g text
  /\ g <> []
  /\ (47%N ∉ g)
  /\ exists a b, g = a ++ 46%N :: b /\ digits is_digit a /\ digits is_digit b.
Proof.
  intros H. apply extract_shape in H as (Hc & a & b & -> & Ha & Hb).
  split; [exact Hc|]. split; [|split; [|eauto]].
  - destruct a; discriminate.
  - assert (Hslash : is_digit 47%N = false)
      by (rewrite digits_ascii; reflexivity).
    destruct Ha as [_ Ha], Hb as [_ Hb].
    rewrite Forall_forall in Ha, Hb.
    intros Hin. apply elem_of_app in Hin as [Hin|Hin].
    + apply Ha in Hin. congruence.
    + apply elem_of_cons in Hin as [Hin|Hin]; [discriminate|].
      apply Hb in Hin. congruence.
Qed.

(** X2. A text without any digit yields no identifier. *)
Theorem no_digit_no_identifier (text : pystr) :
  Forall (fun c => is_digit c = false) text ->
  extract_arxiv_id is_digit text = None.
Proof.
  intros Hno. destruct (extract_arxiv_id is_digit text) as [g|] eqn:E; auto.
  exfalso. apply extract_shape in E as ((l & r & ->) & a & b & -> & Ha & _).
  destruct Ha as [Hne Ha]. destruct a as [|c a]; [congruence|].
  apply Forall_cons in Ha as [Hc _].
  apply Forall_app in Hno as [_ Hno]. apply Forall_app in Hno as [Hno _].
  apply Forall_cons in Hno as [Hno _]. congruence.
Qed.

(** [(\d+\.\d+)] at the head of digits, a dot and digits that do not go
    on with a digit. *)
Lemma match_group_tail (a b tail : pystr) :
  digits is_digit a -> digits is_digit b -> ends_digits is_digit tail ->
  match_items is_digit [plus Digit; one (Chr 46); plus Digit]
    (a ++ 46%N :: b ++ tail)
  = Some [length a; 1; length b].
Proof.
  intros [Ha Hda] [Hb Hdb] Htail.
  assert (Hdot : is_digit 46%N = false) by (rewrite digits_ascii; reflexivity).
  assert (La : 1 <= length a) by (destruct a; simpl; [congruence|lia]).
  assert (Lb : 1 <= length b) by (destruct b; simpl; [congruence|lia]).
  unfold plus. rewrite match_items_cons.
  rewrite (span_run is_digit Digit a 46%N (b ++ tail) Hda Hdot).
  destruct (length a <? 1) eqn:E; [apply Nat.ltb_lt in E; lia|].
  apply backtrack_top.
  replace (1 + (length a - 1)) with (length a) by lia.
  rewrite drop_app_length, match_items_one.
  rewrite match_items_cons.
  rewrite (span_digits_tail is_digit None b tail Hdb Htail I).
  destruct (length b <? 1) eqn:E'; [apply Nat.ltb_lt in E'; lia|].
  rewrite (backtrack_top _ 1 (length b - 1) [length b]); [reflexivity|].
  replace (1 + (length b - 1)) with (length b) by lia. reflexivity.
Qed.

(** X3. In a text that has no letter "a" before an abs link, the link's
    identifier is returned, and it ends where the digits after the dot
    end: a version suffix or anything else that follows is dropped. *)
Theorem abs_link_identifier (pre a b tail : pystr) :
  Forall (fun c => c <> 97%N) pre ->
  digits is_digit a -> digits is_digit b -> ends_digits is_digit tail ->
  extract_arxiv_id is_digit
    (pre ++ py "arxiv.org/abs/" ++ a ++ 46%N :: b ++ tail)
  = Some (a ++ 46%N :: b).
Proof.
  intros Hpre Ha Hb Htail.
  unfold extract_arxiv_id, patterns, first_match.
  change (py "arxiv.org/abs/") with (97%N :: py "rxiv.org/abs/").
  rewrite (search_group1_literal is_digit abs_pattern 97 (py "rxiv.org/abs/")
             pre (a ++ 46%N :: b ++ tail) [length a; 1; length b]);
    [|reflexivity|exact Hpre|apply match_group_tail; assumption].
  f_equal.
  replace (a ++ 46%N :: b ++ tail) with ((a ++ 46%N :: b) ++ tail)
    by (rewrite <- app_assoc; reflexivity).
  replace (total [length a; 1; length b]) with (length (a ++ 46%N :: b))
    by (rewrite length_app; unfold total; simpl; lia).
  apply take_app_length.
Qed.

(** [(\d{4}\.\d{4,5})] at the head of four digits, a dot and digits: five
    digits are taken when there are five, four when only four are there. *)
Lemma match_bare_tail (a b tail : pystr) :
  length a = 4 ->
  Forall (fun c => is_digit c = true) a ->
  Forall (fun c => is_digit c = true) b ->
  length b = 5 \/ (length b = 4 /\ ends_digits is_digit tail) ->
  match_items is_digit [exactly 4 Digit; one (Chr 46); between 4 5 Digit]
    (a ++ 46%N :: b ++ tail)
  = Some [4; 1; length b].
Proof.
  intros La Ha Hb Hlen.
  unfold exactly, between. rewrite match_items_cons.
  rewrite (span_capped is_digit 4 a _ Ha La).
  change (4 <? 4) with false. cbv iota.
  apply (backtrack_top _ 4 0). change (4 + 0) with 4.
  rewrite drop_app_length' by auto. rewrite match_items_one.
  rewrite match_items_cons.
  destruct Hlen as [Lb|[Lb Htail]].
  - assert (E : span is_digit Digit (Some 5) (b ++ tail) = 5)
      by (apply span_capped; assumption).
    rewrite E, Lb. change (5 <? 4) with false. cbv iota.
    rewrite (backtrack_top _ 4 1 [5]); [reflexivity|].
    change (4 + 1) with 5. rewrite drop_app_length' by auto.
    reflexivity.
  - assert (E : span is_digit Digit (Some 5) (b ++ tail) = 4).
    { rewrite <- Lb. apply span_digits_tail; auto. simpl. lia. }
    rewrite E, Lb. change (4 <? 4) with false. cbv iota.
    rewrite (backtrack_top _ 4 0 [4]); [reflexivity|].
    change (4 + 0) with 4. rewrite drop_app_length' by auto.
    reflexivity.
Qed.

(** X4. In a text without the letter "a", an identifier written bare after
    characters that are not digits is returned: four digits, a dot, and
    the next five digits when there are five or more, or the next four
    when the digits end there. A sixth digit and anything after it is
    cut off. *)
Theorem bare_identifier (pre a b tail : pystr) :
  Forall (fun c => c <> 97%N /\ is_digit c = false) pre ->
  Forall (fun c => c <> 97%N) tail ->
  length a = 4 ->
  Forall (fun c => is_digit c = true) a ->
  Forall (fun c => is_digit c = true) b ->
  length b = 5 \/ (length b = 4 /\ ends_digits is_digit tail) ->
  extract_arxiv_id is_digit (pre ++ a ++ 46%N :: b ++ tail)
  = Some (a ++ 46%N :: b).
Proof.
  intros Hpre Htail La Ha Hb Hlen.
  assert (Hnot_a : is_digit 97%N = false) by (rewrite digits_ascii; reflexivity).
  assert (Hdigit_ne : forall l, Forall (fun c => is_digit c = true) l ->
                                Forall (fun c => (c =? 97)%N = false) l).
  { intros l Hl. eapply Forall_impl; [exact Hl|]. intros c Hc. simpl.
    apply N.eqb_neq. intros ->. congruence. }
  assert (Hno_a : Forall (fun c => atom_ok is_digit (Chr 97) c = false)
                         (pre ++ a ++ 46%N :: b ++ tail)).
  { simpl. repeat (apply Forall_app; split).
    - eapply Forall_impl; [exact Hpre|]. intros c [Hc _]. simpl.
      apply N.eqb_neq. exact Hc.
    - apply Hdigit_ne, Ha.
    - apply Forall_cons. split; [reflexivity|].
      apply Forall_app. split; [apply Hdigit_ne, Hb|].
      eapply Forall_impl; [exact Htail|]. intros c Hc. simpl.
      apply N.eqb_neq. exact Hc. }
  unfold extract_arxiv_id, patterns, first_match, search_group1.
  change (prefix abs_pattern ++ group abs_pattern)
    with (Rep (Chr 97) 1 (Some 1)
            :: (map (fun c => one (Chr c)) (py "rxiv.org/abs/")
                  ++ group abs_pattern)).
  rewrite search_from_nowhere by (lia || exact Hno_a).
  change (prefix pdf_pattern ++ group pdf_pattern)
    with (Rep (Chr 97) 1 (Some 1)
            :: (map (fun c => one (Chr c)) (py "rxiv.org/pdf/")
                  ++ group pdf_pattern)).
  rewrite search_from_nowhere by (lia || exact Hno_a).
  change (prefix bare_pattern ++ group bare_pattern)
    with [Rep Digit 4 (Some 4); one (Chr 46); between 4 5 Digit].
  rewrite search_from_skip; [|lia|].
  2:{ eapply Forall_impl; [exact Hpre|]. intros c [_ Hc]. exact Hc. }
  change [Rep Digit 4 (Some 4); one (Chr 46); between 4 5 Digit]
    with [exactly 4 Digit; one (Chr 46); between 4 5 Digit].
  rewrite (search_from_hit is_digit _ _ _ [4; 1; length b])
    by (apply match_bare_tail; assumption).
  change (length (prefix bare_pattern)) with 0.
  rewrite take_0, drop_0. change (total []) with 0.
  rewrite !Nat.add_0_l, Nat.add_0_r, drop_app_length.
  f_equal.
  replace (a ++ 46%N :: b ++ tail) with ((a ++ 46%N :: b) ++ tail)
    by (rewrite <- app_assoc; reflexivity).
  replace (total [4; 1; length b]) with (length (a ++ 46%N :: b))
    by (rewrite length_app; unfold total; simpl; lia).
  apply take_app_length.
Qed.

End ExtractionProperties.

(** ** What a run does to the world *)

Module EffectFacts.
Import RunFacts.

Local Open Scope M_scope.

(** [save_processed_paper] in one equation: its calls, the ledger after
    it, and the directory it makes sure of. *)
Lemma save_processed_paper_effect (paper_id : pystr) (w : World) :
  save_processed_paper paper_id w
  = (inr tt,
     {| dirs := if bool_decide (paper_id ∈ default [] (ledger w))
                then dirs w else {[py "scripts"]} ∪ dirs w;
        files := files w;
        ledger := record_id paper_id (ledger w);
        log := log w ++ ledger_calls paper_id (ledger w) |}).
Proof.
  unfold record_id, ledger_calls.
  destruct (decide (paper_id ∈ default [] (ledger w))) as [H|H].
  - rewrite save_processed_paper_present by exact H.
    rewrite bool_decide_eq_true_2 by exact H.
    rewrite app_nil_r. destruct w; reflexivity.
  - rewrite save_processed_paper_absent by exact H.
    rewrite bool_decide_eq_false_2 by exact H. reflexivity.
Qed.

Lemma record_id_prefix (paper_id : pystr) (l : option (list pystr)) :
  default [] l `prefix_of` default [] (record_id paper_id l).
Proof.
  unfold record_id. destruct (bool_decide _); [reflexivity|].
  simpl. apply prefix_app_r. reflexivity.
Qed.

Lemma record_id_NoDup (paper_id : pystr) (l : option (list pystr)) :
  NoDup (default [] l) -> NoDup (default [] (record_id paper_id l)).
Proof.
  unfold record_id. intros H.
  destruct (bool_decide _) eqn:E; [exact H|].
  apply bool_decide_eq_false in E. simpl.
  apply NoDup_app. split; [exact H|]. split.
  - intros x Hx Hin. apply list_elem_of_singleton in Hin. subst. auto.
  - apply NoDup_singleton.
Qed.

Lemma record_id_elem (paper_id x : pystr) (l : option (list pystr)) :
  x ∈ default [] (record_id paper_id l) -> x ∈ default [] l \/ x = paper_id.
Proof.
  unfold record_id. destruct (bool_decide _); [auto|].
  simpl. intros H. apply elem_of_app in H as [H|H]; [auto|].
  apply list_elem_of_singleton in H. auto.
Qed.

Lemma record_id_records (paper_id : pystr) (l : option (list pystr)) :
  paper_id ∈ default [] (record_id paper_id l).
Proof.
  unfold record_id. destruct (bool_decide _) eqn:E.
  - apply bool_decide_eq_true in E. exact E.
  - simpl. apply elem_of_app. right. apply list_elem_of_singleton. reflexivity.
Qed.

Section Relation.

Variable cfg : Config.
Variable processed : list pystr.

Local Abbreviation effect := (loop_effect cfg processed).

Lemma loop_effect_refl (w : World) : effect w w.
Proof.
  exists []. rewrite app_nil_r. repeat split; auto.
  - intros p H. contradiction.
Qed.

Lemma loop_effect_trans (w1 w2 w3 : World) :
  effect w1 w2 -> effect w2 w3 -> effect w1 w3.
Proof.
  intros (n1 & L1 & C1 & P1 & D1 & F1 & B1 & T1 & S1)
         (n2 & L2 & C2 & P2 & D2 & F2 & B2 & T2 & S2).
  exists (n1 ++ n2). split; [rewrite L2, L1, app_assoc; reflexivity|].
  split; [apply Forall_app; auto|].
  split; [etransitivity; eassumption|].
  split; [auto|]. split; [auto|]. split; [|split].
  - intros id H3. destruct (B2 id H3) as [H2|[Hf Hs]].
    + destruct (B1 id H2) as [H1|[Hf Hs]]; [auto|].
      right. split; [apply F2, Hf|]. apply elem_of_app. auto.
    + right. split; [exact Hf|]. apply elem_of_app. auto.
  - intros p Hne.
    destruct (decide (files w2 !! p = files w1 !! p)) as [E|E].
    + rewrite <- E in Hne. destruct (T2 p Hne) as (id & Hs & ->).
      exists id. split; [apply elem_of_app; auto|reflexivity].
    + destruct (T1 p E) as (id & Hs & ->).
      exists id. split; [apply elem_of_app; auto|reflexivity].
  - etransitivity; eassumption.
Qed.

(** A step that only adds calls. *)
Lemma loop_effect_calls (w w' : World) (new : list call) :
  dirs w' = dirs w -> files w' = files w -> ledger w' = ledger w ->
  log w' = log w ++ new -> Forall (loop_call cfg processed) new ->
  effect w w'.
Proof.
  intros Hd Hf Hl Hlog Hnew. exists new. rewrite Hd, Hf, Hl.
  repeat split; auto.
  intros p H. contradiction.
Qed.

End Relation.

End EffectFacts.

Section PaperEffects.
Import RunFacts EffectFacts.

Variable is_digit : N -> bool.
Variable strftime : datetime -> pystr -> pystr.
Variable cfg : Config.
Variable env : Env.

Local Open Scope M_scope.

Local Abbreviation model_name := (py "gemini-2.0-flash-exp").

(** The world after the summary was written and the identifier recorded,
    just before the success notification. *)
Lemma process_paper_written (chat : Z) (paper_id : pystr) (w : World)
      (paper : Paper) (summary_text : pystr) :
  let w1 := logged (status_post cfg chat paper_id) w in
  let w2 := logged (ArxivSearch [paper_id]) w1 in
  let w3 := logged (GenerateContent model_name (prompt_of strftime paper)) w2 in
  let markdown := markdown_of strftime paper summary_text (clock env (log w3)) in
  http_post env (log w) (bot_url cfg "sendMessage") chat
            (status_text paper_id) = None ->
  arxiv_first env (log w1) paper_id = inr paper ->
  gemini env (log w2) model_name (prompt_of strftime paper)
  = inr summary_text ->
  process_paper strftime cfg env chat paper_id w
  = send_telegram_message cfg env chat (success_text paper_id paper)
      {| dirs := if bool_decide (paper_id ∈ default [] (ledger w))
                 then {[paper_id]} ∪ dirs w
                 else {[py "scripts"]} ∪ ({[paper_id]} ∪ dirs w);
         files := <[summary_path paper_id := markdown]> (files w);
         ledger := record_id paper_id (ledger w);
         log := (log w3 ++ [Mkdir paper_id;
                            WriteText (summary_path paper_id) markdown])
                ++ ledger_calls paper_id (ledger w) |}.
Proof.
  intros w1 w2 w3 markdown E1 E2 E3.
  unfold process_paper.
  rewrite bind_unfold. unfold send_telegram_message at 1, requests_post.
  rewrite E1.
  rewrite bind_unfold. unfold arxiv_search_first.
  fold (status_post cfg chat paper_id). fold w1. rewrite E2.
  rewrite bind_unfold. unfold generate_summary, generate_content.
  fold w2. rewrite E3. fold w3.
  rewrite bind_unfold. unfold create_markdown_summary at 1.
  rewrite bind_unfold. unfold datetime_now, ret.
  rewrite bind_unfold, save_summary_to_file_run.
  rewrite bind_unfold, save_processed_paper_effect.
  reflexivity.
Qed.

(** The handler aside, processing one paper of the configured chat has
    the effect the loop is allowed. *)
Lemma process_paper_effect (processed : list pystr) (chat : Z)
      (paper_id : pystr) (w : World) :
  Some (str_int chat) = TELEGRAM_CHAT_ID cfg ->
  paper_id ∉ processed ->
  loop_effect cfg processed w
    (snd (process_paper strftime cfg env chat paper_id w)).
Proof.
  intros Hchat Hnew.
  assert (Hcall : forall c, paper_call cfg chat paper_id c ->
                            loop_call cfg processed c).
  { intros c Hc. exists chat, paper_id. auto. }
  assert (Hpost : forall body,
            loop_call cfg processed
              (Post (bot_url cfg "sendMessage") chat body (py "Markdown"))).
  { intros body. apply Hcall. simpl. auto. }
  assert (Hfetch : loop_call cfg processed (ArxivSearch [paper_id])).
  { apply Hcall. reflexivity. }
  assert (Hgen : forall prompt,
            loop_call cfg processed (GenerateContent model_name prompt)).
  { intros prompt. apply Hcall. reflexivity. }
  destruct (http_post env (log w) (bot_url cfg "sendMessage") chat
              (status_text paper_id)) as [e|] eqn:E1.
  { unfold process_paper. rewrite bind_unfold.
    unfold send_telegram_message at 1, requests_post. rewrite E1. simpl snd.
    eapply loop_effect_calls; try reflexivity. repeat constructor. apply Hpost. }
  destruct (arxiv_first env
              (log (logged (status_post cfg chat paper_id) w)) paper_id)
    as [e|paper] eqn:E2.
  { unfold process_paper. rewrite bind_unfold.
    unfold send_telegram_message at 1, requests_post. rewrite E1.
    rewrite bind_unfold. unfold arxiv_search_first.
    fold (status_post cfg chat paper_id). rewrite E2. simpl snd.
    eapply (loop_effect_calls _ _ _ _
              [status_post cfg chat paper_id; ArxivSearch [paper_id]]);
      try reflexivity.
    - simpl. rewrite <- app_assoc. reflexivity.
    - repeat constructor; [apply Hpost|apply Hfetch]. }
  destruct (gemini env
              (log (logged (ArxivSearch [paper_id])
                      (logged (status_post cfg chat paper_id) w)))
              model_name (prompt_of strftime paper))
    as [e|summary_text] eqn:E3.
  { unfold process_paper. rewrite bind_unfold.
    unfold send_telegram_message at 1, requests_post. rewrite E1.
    rewrite bind_unfold. unfold arxiv_search_first.
    fold (status_post cfg chat paper_id). rewrite E2.
    rewrite bind_unfold. unfold generate_summary, generate_content.
    rewrite E3. simpl snd.
    eapply (loop_effect_calls _ _ _ _
              [status_post cfg chat paper_id; ArxivSearch [paper_id];
               GenerateContent model_name (prompt_of strftime paper)]);
      try reflexivity.
    - simpl. rewrite <- !app_assoc. reflexivity.
    - repeat constructor; [apply Hpost|apply Hfetch|apply Hgen]. }
  rewrite (process_paper_written chat paper_id w paper summary_text E1 E2 E3).
  unfold send_telegram_message, requests_post. simpl snd.
  set (markdown := markdown_of strftime paper summary_text _).
  exists ([status_post cfg chat paper_id; ArxivSearch [paper_id];
           GenerateContent model_name (prompt_of strftime paper);
           Mkdir paper_id; WriteText (summary_path paper_id) markdown]
          ++ ledger_calls paper_id (ledger w)
          ++ [success_post cfg chat paper_id paper]).
  cbn [files ledger dirs log logged].
  split; [rewrite <- !app_assoc; reflexivity|].
  split.
  { repeat (apply Forall_cons; split); try apply Hpost; try apply Hfetch;
      try apply Hgen.
    - apply Hcall. simpl. auto.
    - apply Hcall. reflexivity.
    - apply Forall_app. split; [|repeat constructor; apply Hpost].
      unfold ledger_calls. destruct (bool_decide _); [constructor|].
      repeat constructor; apply Hcall; simpl; [auto|apply last_snoc]. }
  split; [apply record_id_prefix|]. split; [apply record_id_NoDup|].
  split.
  { intros p Hp. apply lookup_insert_is_Some.
    destruct (decide (summary_path paper_id = p)); auto. }
  split.
  { intros x Hx. apply record_id_elem in Hx as [Hx| ->]; [auto|].
    right. split.
    - rewrite lookup_insert_eq. eauto.
    - apply elem_of_cons. right. apply elem_of_cons. left. reflexivity. }
  split.
  { intros p Hp. exists paper_id. split.
    - apply elem_of_cons. right. apply elem_of_cons. left. reflexivity.
    - destruct (decide (summary_path paper_id = p)) as [E|E]; [auto|].
      exfalso. apply Hp. apply lookup_insert_ne. exact E. }
  destruct (bool_decide _).
  - apply union_subseteq_r.
  - etransitivity; [|apply union_subseteq_r]. apply union_subseteq_r.
Qed.

Lemma try_process_paper_effect (processed : list pystr) (chat : Z)
      (paper_id : pystr) (w : World) :
  Some (str_int chat) = TELEGRAM_CHAT_ID cfg ->
  paper_id ∉ processed ->
  loop_effect cfg processed w
    (snd (try_process_paper strftime cfg env chat paper_id w)).
Proof.
  intros Hchat Hnew.
  pose proof (process_paper_effect processed chat paper_id w Hchat Hnew) as H.
  unfold try_process_paper, try_except.
  destruct (process_paper strftime cfg env chat paper_id w) as [[e|[]] w1];
    simpl in H; [|exact H].
  eapply loop_effect_trans; [exact H|].
  unfold send_telegram_message, requests_post. simpl snd.
  eapply loop_effect_calls; try reflexivity.
  repeat constructor. exists chat, paper_id. simpl. auto.
Qed.

(** The effect of the whole loop. *)
Lemma for_updates_effect (processed : list pystr) (updates : list update) :
  forall found,
    steps (loop_effect cfg processed)
          (for_updates is_digit strftime cfg env processed updates found).
Proof.
  induction updates as [|u rest IH]; intros found w.
  - apply loop_effect_refl.
  - rewrite for_updates_cons. destruct (msg u) as [m|]; [|apply IH].
    cbv zeta. destruct (bool_decide (Some _ ≠ _)) eqn:Echat; [apply IH|].
    apply bool_decide_eq_false in Echat.
    assert (Hchat : Some (str_int (chat_id m)) = TELEGRAM_CHAT_ID cfg).
    { destruct (decide (Some (str_int (chat_id m)) = TELEGRAM_CHAT_ID cfg));
        [assumption|contradiction]. }
    destruct (extract_arxiv_id is_digit _) as [[|c paper_id]|];
      try apply IH.
    destruct (bool_decide _) eqn:E; [apply IH|].
    apply bool_decide_eq_false in E.
    rewrite bind_unfold.
    pose proof (try_process_paper_effect processed (chat_id m)
                  (c :: paper_id) w Hchat E) as Htry.
    destruct (try_process_paper strftime cfg env (chat_id m) (c :: paper_id) w)
      as [[e|[]] w1]; simpl in Htry; [exact Htry|].
    eapply loop_effect_trans; [exact Htry|apply IH].
Qed.

End PaperEffects.

(** ** Properties of whole runs *)

Section RunProperties.
Import RunFacts EffectFacts.

Variable is_digit : N -> bool.
Variable strftime : datetime -> pystr -> pystr.
Variable cfg : Config.
Variable env : Env.

Local Open Scope M_scope.

Local Abbreviation run := (process_new_papers is_digit strftime cfg env).
Local Abbreviation poll := (Get (bot_url cfg "getUpdates")).

(** After the poll, a run is the loop over the identifiers that were in
    the ledger when it started. *)
Lemma process_new_papers_effect (w : World) :
  loop_effect cfg (default [] (ledger w)) (logged poll w) (snd (run w)).
Proof.
  rewrite process_new_papers_unfold.
  destruct (get_telegram_updates_run cfg env w) as (r1 & Hget). rewrite Hget.
  destruct r1 as [e|updates]; [apply loop_effect_refl|].
  pose proof (for_updates_effect is_digit strftime cfg env
                (default [] (ledger w)) updates false (logged poll w)) as H.
  simpl ledger.
  destruct (for_updates is_digit strftime cfg env _ updates false _)
    as [[e|b] w2]; exact H.
Qed.



(** X7. An identifier is recorded only after its summary was written:
    every identifier in the ledger after a run was there before, or its
    summary file exists and the paper was fetched in this run. No run
    removes a file. *)
Theorem recorded_identifiers_have_summaries (w : World) :
  (forall paper_id,
      paper_id ∈ default [] (ledger (snd (run w))) ->
      paper_id ∈ default [] (ledger w)
      \/ (is_Some (files (snd (run w)) !! summary_path paper_id)
          /\ ArxivSearch [paper_id] ∈ log (snd (run w))))
  /\ (forall p, is_Some (files w !! p) ->
                is_Some (files (snd (run w)) !! p)).
Proof.
  destruct (process_new_papers_effect w) as (new & L & _ & _ & _ & F & B & _).
  split; [|exact F].
  intros paper_id H. destruct (B paper_id H) as [H0|[Hf Hs]]; [auto|].
  right. split; [exact Hf|]. rewrite L. apply elem_of_app. auto.
Qed.




Lemma bind_log_head {A B} (c : M A) (k : A -> M B) (x : call) :
  (forall w, snd (c w) = logged x w) ->
  (forall a, adds (fun _ => True) (k a)) ->
  forall w, exists new, log (snd (bind c k w)) = log w ++ x :: new.
Proof.
  intros Hc Hk w. rewrite bind_unfold. specialize (Hc w).
  destruct (c w) as [[e|a] w1]; simpl in Hc; subst w1.
  - exists []. reflexivity.
  - destruct (Hk a (logged x w)) as (new & Hlog & _).
    exists new. rewrite Hlog. simpl. rewrite <- app_assoc. reflexivity.
Qed.

(** Whatever happens next, processing a paper starts with the status
    notification. *)
Lemma try_process_paper_log (chat : Z) (paper_id : pystr) (w : World) :
  exists new,
    log (snd (try_process_paper strftime cfg env chat paper_id w))
    = log w ++ status_post cfg chat paper_id :: new.
Proof.
  assert (H : exists new,
            log (snd (process_paper strftime cfg env chat paper_id w))
            = log w ++ status_post cfg chat paper_id :: new).
  { unfold process_paper. apply bind_log_head; [reflexivity|].
    intros _.
    apply adds_bind; [eapply adds_one; [reflexivity|exact I]|].
    intros paper. apply adds_bind; [eapply adds_one; [reflexivity|exact I]|].
    intros summary_text. apply adds_bind; [apply adds_pure; reflexivity|].
    intros markdown. apply adds_bind.
    { apply save_summary_to_file_adds. auto. }
    intros _. apply adds_bind.
    { apply save_processed_paper_adds. auto. }
    intros _. eapply adds_one; [reflexivity|exact I]. }
  destruct H as (new & Hlog).
  unfold try_process_paper, try_except.
  destruct (process_paper strftime cfg env chat paper_id w) as [[e|[]] w1];
    simpl in Hlog.
  - unfold send_telegram_message, requests_post. simpl.
    exists (new ++ [failure_post cfg chat paper_id e]).
    rewrite Hlog, <- app_assoc. reflexivity.
  - exists new. exact Hlog.
Qed.

(** X12. The dedup check looks at the list loaded at the start of the
    run, not at the ledger file: an update of the configured chat whose
    identifier is not in that list is processed, starting with the status
    notification, whatever the ledger holds by then; so the second of two
    equal links in one poll is processed again when the loop reaches
    it. *)
Theorem dedup_consults_loaded_list
    (processed : list pystr) (u : update) (m : message) (paper_id : pystr)
    (rest : list update) (found : bool) (w : World) :
  msg u = Some m ->
  Some (str_int (chat_id m)) = TELEGRAM_CHAT_ID cfg ->
  extract_arxiv_id is_digit (default [] (text m)) = Some paper_id ->
  paper_id ∉ processed ->
  for_updates is_digit strftime cfg env processed (u :: rest) found w
  = (try_process_paper strftime cfg env (chat_id m) paper_id ;;
     for_updates is_digit strftime cfg env processed rest true) w
  /\ exists new,
       log (snd (for_updates is_digit strftime cfg env processed
                   (u :: rest) found w))
       = log w ++ status_post cfg (chat_id m) paper_id :: new.
Proof.
  intros Hm Hchat Hid Hnew.
  assert (E : for_updates is_digit strftime cfg env processed (u :: rest)
                found w
              = (try_process_paper strftime cfg env (chat_id m) paper_id ;;
                 for_updates is_digit strftime cfg env processed rest true) w).
  { rewrite for_updates_cons, Hm. cbv zeta.
    rewrite bool_decide_eq_false_2 by (intros H; exact (H Hchat)).
    rewrite Hid.
    destruct (ExtractMore.extract_shape _ _ _ Hid)
      as (_ & a & b & -> & _ & _).
    destruct a; simpl app; rewrite bool_decide_eq_false_2 by exact Hnew;
      reflexivity. }
  split; [exact E|]. rewrite E, bind_unfold.
  destruct (try_process_paper_log (chat_id m) paper_id w) as (new & Hlog).
  destruct (try_process_paper strftime cfg env (chat_id m) paper_id w)
    as [[e|[]] w1]; simpl in Hlog; [eauto|].
  destruct (for_updates_effect is_digit strftime cfg env processed rest true w1)
    as (new' & Hlog' & _).
  exists (new ++ new'). rewrite Hlog', Hlog, <- app_assoc. reflexivity.
Qed.

End RunProperties.

(** ** Examples for the properties above *)

Lemma ascii_table_ascii : ascii_table ascii_digit.
Proof. intros c _. reflexivity. Qed.

(** The identifier of a pdf link with a version suffix. *)
Lemma extracted_identifier_shape_witness :
  contains (py "2301.01234") (py "see arxiv.org/pdf/2301.01234v2")
  /\ py "2301.01234" <> []
  /\ (47%N ∉ py "2301.01234")
  /\ exists a b,
       py "2301.01234" = a ++ 46%N :: b
       /\ digits ascii_digit a /\ digits ascii_digit b.
Proof.
  exact (extracted_identifier_shape ascii_digit ascii_table_ascii
           (py "see arxiv.org/pdf/2301.01234v2") (py "2301.01234") eq_refl).
Defined.

Lemma no_digit_no_identifier_witness :
  extract_arxiv_id ascii_digit (py "hello bot") = None.
Proof.
  apply no_digit_no_identifier.
  apply Forall_forall. intros c Hc.
  repeat (apply elem_of_cons in Hc as [->|Hc]; [reflexivity|]).
  inversion Hc.
Defined.

(** "https://arxiv.org/abs/2301.01234v2" yields "2301.01234". *)
Lemma abs_link_identifier_witness :
  extract_arxiv_id ascii_digit
    (py "https://" ++ py "arxiv.org/abs/" ++ py "2301" ++ 46%N :: py "01234"
        ++ py "v2")
  = Some (py "2301" ++ 46%N :: py "01234").
Proof.
  apply (abs_link_identifier ascii_digit ascii_table_ascii).
  - repeat constructor; discriminate.
  - split; [discriminate|repeat constructor].
  - split; [discriminate|repeat constructor].
  - right. exists 118%N, (py "2"). split; reflexivity.
Defined.

(** "see 2301.012345!" yields "2301.01234": the sixth digit is cut. *)
Lemma bare_identifier_witness :
  extract_arxiv_id ascii_digit
    (py "see " ++ py "2301" ++ 46%N :: py "01234" ++ py "5!")
  = Some (py "2301" ++ 46%N :: py "01234").
Proof.
  apply (bare_identifier ascii_digit ascii_table_ascii).
  - repeat constructor; discriminate.
  - repeat constructor; discriminate.
  - reflexivity.
  - repeat constructor.
  - repeat constructor.
  - left. reflexivity.
Defined.


(** The identifier is in the ledger file, but not in the list the loop
    holds: the update is processed. *)
Lemma dedup_consults_loaded_list_witness :
  exists new,
    log (snd (for_updates ascii_digit sample_strftime sample_config env_ok []
                [text_update 42 "arxiv.org/abs/2301.01234"] false
                (world_with_ledger [py "2301.01234"])))
    = status_post sample_config 42 (py "2301.01234") :: new.
Proof.
  apply (proj2 (dedup_consults_loaded_list ascii_digit sample_strftime
                  sample_config env_ok []
                  (text_update 42 "arxiv.org/abs/2301.01234")
                  {| chat_id := 42;
                     text := Some (py "arxiv.org/abs/2301.01234") |}
                  (py "2301.01234") [] false
                  (world_with_ledger [py "2301.01234"])
                  eq_refl eq_refl eq_refl ltac:(apply not_elem_of_nil))).
Defined.

(** ** Runs on the failing disk *)

Module DiskFacts.
Import Disk.

Local Open Scope disk_scope.

Lemma disk_bind_unfold {A B} (c : M A) (k : A -> M B) (s : State) :
  bind c k s
  = match c s with
    | (inr a, s') => k a s'
    | (inl e, s') => (inl e, s')
    end.
Proof. reflexivity. Qed.

Lemma disk_last_logged (c : call) (s : State) :
  last (log (logged c s)) = Some c.
Proof. simpl. apply last_snoc. Qed.

Lemma recorded_holds (paper_id : pystr) (l : ledger_file) :
  l <> Garbled -> paper_id ∈ held (recorded paper_id l).
Proof.
  intros H. unfold recorded. destruct l as [|ids|]; cbn [held].
  - apply list_elem_of_singleton. reflexivity.
  - destruct (bool_decide (paper_id ∈ ids)) eqn:E.
    + apply bool_decide_eq_true in E. exact E.
    + cbn [held]. apply elem_of_app. right.
      apply list_elem_of_singleton. reflexivity.
  - congruence.
Qed.

Lemma grows_ret {A} (a : A) : grows (ret a).
Proof. intros s. exists []. simpl. rewrite app_nil_r. reflexivity. Qed.

Lemma grows_bind {A B} (c : M A) (k : A -> M B) :
  grows c -> (forall a, grows (k a)) -> grows (bind c k).
Proof.
  intros Hc Hk s. rewrite disk_bind_unfold.
  destruct (Hc s) as (new & Hlog).
  destruct (c s) as [[e|a] s']; simpl in *.
  - exists new. exact Hlog.
  - destruct (Hk a s') as (new' & Hlog').
    exists (new ++ new'). rewrite Hlog', Hlog, app_assoc. reflexivity.
Qed.

Lemma grows_try_except {A} (c : M A) (h : exn -> M A) :
  grows c -> (forall e, grows (h e)) -> grows (try_except c h).
Proof.
  intros Hc Hh s. unfold try_except.
  destruct (Hc s) as (new & Hlog).
  destruct (c s) as [[e|a] s']; simpl in *.
  - destruct (Hh e s') as (new' & Hlog').
    exists (new ++ new'). rewrite Hlog', Hlog, app_assoc. reflexivity.
  - exists new. exact Hlog.
Qed.

Lemma grows_when {A} (c : M A) :
  (forall s, log (snd (c s)) = log s
             \/ exists x, log (snd (c s)) = log s ++ [x]) ->
  grows c.
Proof.
  intros H s. destruct (H s) as [E|(x & E)].
  - exists []. rewrite E, app_nil_r. reflexivity.
  - exists [x]. exact E.
Qed.

Section Steps.

Variable strftime : datetime -> pystr -> pystr.
Variable cfg : Config.
Variable env : Env.
Variable faults : Faults.

(** Reading the ledger changes nothing. What it returns is what the file
    holds, and the empty list when there is no file; a garbled file makes
    it raise. *)
Lemma disk_load_run (s : State) :
  exists r,
    load_processed_papers faults s = (r, s)
    /\ (forall ids, r = inr ids -> ids = held (ledger s) /\ ledger s <> Garbled)
    /\ (ledger s = Missing -> r = inr [])
    /\ (ledger s = Garbled -> exists e, r = inl e)
    /\ (forall e, read_fault faults (log s) = Some e ->
                  ledger s <> Missing -> r = inl e).
Proof.
  unfold load_processed_papers. rewrite disk_bind_unfold.
  unfold ledger_exists, json_load_ledger, ret.
  destruct (ledger s) as [|l|] eqn:E; cbn [fst snd]; rewrite ?E.
  - eexists. split; [reflexivity|]. split; [|split; [|split]].
    + intros ids [= <-]. split; [reflexivity|discriminate].
    + reflexivity.
    + discriminate.
    + intros e _ H. congruence.
  - destruct (read_fault faults (log s)) as [e|] eqn:R; rewrite ?E;
      eexists; (split; [reflexivity|]); (split; [|split; [|split]]);
      try discriminate.
    + intros e0 [= <-] _. reflexivity.
    + intros ids [= <-]. split; [reflexivity|discriminate].
  - destruct (read_fault faults (log s)) as [e|] eqn:R; rewrite ?E;
      eexists; (split; [reflexivity|]); (split; [|split; [|split]]);
      try discriminate; eauto.
    intros e0 [= <-] _. reflexivity.
Qed.

(** Every way [save_processed_paper] can end: without a call (the read
    failed, or the identifier was there); at the [makedirs]; at the write;
    or with the identifier recorded. *)
Lemma disk_save_run (paper_id : pystr) (s : State) :
  exists r s',
    save_processed_paper faults paper_id s = (r, s')
    /\ files s' = files s
    /\ ((log s' = log s /\ ledger s' = ledger s
         /\ (r = inr tt -> ledger s' = recorded paper_id (ledger s)))
        \/ (exists e, r = inl e /\ ledger s' = ledger s
                      /\ log s' = log s ++ [Mkdir (py "scripts")])
        \/ (exists e ids residue,
              r = inl e
              /\ dump_fault faults (log s ++ [Mkdir (py "scripts")]) ids
                 = Some (e, residue)
              /\ ledger s' = default (ledger s) residue
              /\ log s' = log s ++ [Mkdir (py "scripts"); DumpLedger ids])
        \/ (exists ids, r = inr tt
                        /\ ledger s' = recorded paper_id (ledger s)
                        /\ log s' = log s ++ [Mkdir (py "scripts");
                                              DumpLedger ids])).
Proof.
  unfold save_processed_paper. rewrite disk_bind_unfold.
  destruct (disk_load_run s) as (r0 & -> & Hids & _).
  destruct r0 as [e|ids].
  { do 2 eexists. split; [reflexivity|]. split; [reflexivity|].
    left. repeat split. discriminate. }
  destruct (Hids ids eq_refl) as [-> Hsound].
  destruct (bool_decide (paper_id ∉ held (ledger s))) eqn:Hin.
  2:{ apply bool_decide_eq_false in Hin.
      assert (Hin' : paper_id ∈ held (ledger s)).
      { destruct (decide (paper_id ∈ held (ledger s))); [assumption|].
        contradiction. }
      do 2 eexists. split; [reflexivity|]. split; [reflexivity|].
      left. repeat split. intros _. unfold recorded.
      destruct (ledger s) as [|ids|]; simpl in *.
      - inversion Hin'.
      - rewrite bool_decide_eq_true_2 by exact Hin'. reflexivity.
      - reflexivity. }
  apply bool_decide_eq_true in Hin.
  assert (Hrec : Json (held (ledger s) ++ [paper_id])
                 = recorded paper_id (ledger s)).
  { unfold recorded. destruct (ledger s) as [|ids|]; simpl in *.
    - reflexivity.
    - rewrite bool_decide_eq_false_2 by exact Hin. reflexivity.
    - congruence. }
  cbv zeta. rewrite disk_bind_unfold. unfold mkdir_exist_ok.
  change (dirname PROCESSED_FILE) with (py "scripts").
  destruct (mkdir_fault faults (log s) (py "scripts")) as [e|].
  { do 2 eexists. split; [reflexivity|]. split; [reflexivity|].
    right. left. exists e. repeat split. }
  unfold json_dump_ledger. cbn [log logged].
  destruct (dump_fault faults _ _) as [[e residue]|] eqn:Edump.
  - do 2 eexists. split; [reflexivity|]. split; [reflexivity|].
    right. right. left. exists e. do 2 eexists. split; [reflexivity|].
    split; [exact Edump|]. split; [reflexivity|].
    cbn [log logged]. rewrite <- app_assoc. reflexivity.
  - do 2 eexists. split; [reflexivity|]. split; [reflexivity|].
    right. right. right. eexists. split; [reflexivity|].
    split; [exact Hrec|]. cbn [log logged]. rewrite <- app_assoc.
    reflexivity.
Qed.

(** Every way the [try] body can end. It raises before the ledger file is
    rewritten, and the ledger is as it was; or it raises in rewriting the
    ledger file; or it reaches the success notification, with the
    identifier recorded. In each case the last call made tells which. *)
Lemma disk_process_paper_run (chat : Z) (paper_id : pystr) (s : State) :
  exists r s1,
    process_paper strftime cfg env faults chat paper_id s = (r, s1)
    /\ ((exists e c,
           r = inl e /\ last (log s1) = Some c
           /\ before_ledger_write cfg chat paper_id c
           /\ ledger s1 = ledger s)
        \/ (exists e ids h residue,
              r = inl e /\ last (log s1) = Some (DumpLedger ids)
              /\ dump_fault faults h ids = Some (e, residue)
              /\ ledger s1 = default (ledger s) residue)
        \/ (exists paper,
              last (log s1) = Some (success_post cfg chat paper_id paper)
              /\ ledger s1 = recorded paper_id (ledger s))).
Proof.
  unfold process_paper.
  rewrite disk_bind_unfold. unfold send_telegram_message at 1, requests_post.
  fold (status_post cfg chat paper_id).
  destruct (http_post env (log s) _ chat (status_text paper_id)) as [e|].
  { do 2 eexists. split; [reflexivity|]. left. exists e. eexists.
    split; [reflexivity|]. split; [apply disk_last_logged|].
    split; [left; reflexivity|reflexivity]. }
  rewrite disk_bind_unfold. unfold arxiv_search_first.
  destruct (arxiv_first env _ paper_id) as [e|paper].
  { do 2 eexists. split; [reflexivity|]. left. exists e. eexists.
    split; [reflexivity|]. split; [apply disk_last_logged|].
    split; [right; left; reflexivity|reflexivity]. }
  rewrite disk_bind_unfold. unfold generate_summary, generate_content.
  destruct (gemini env _ _ _) as [e|summary_text].
  { do 2 eexists. split; [reflexivity|]. left. exists e. eexists.
    split; [reflexivity|]. split; [apply disk_last_logged|].
    split; [right; right; left; eauto|reflexivity]. }
  rewrite disk_bind_unfold. unfold create_markdown_summary at 1.
  rewrite disk_bind_unfold. unfold datetime_now, ret.
  rewrite disk_bind_unfold. unfold save_summary_to_file.
  rewrite disk_bind_unfold. unfold mkdir_exist_ok at 1.
  destruct (mkdir_fault faults _ paper_id) as [e|].
  { do 2 eexists. split; [reflexivity|]. left. exists e. eexists.
    split; [reflexivity|]. split; [apply disk_last_logged|].
    split; [right; right; right; left; eauto|reflexivity]. }
  cbv zeta. rewrite disk_bind_unfold. unfold write_text.
  destruct (write_fault faults _ _ _) as [[e residue]|].
  { do 2 eexists. split; [reflexivity|]. left. exists e. eexists.
    split; [reflexivity|]. split; [apply disk_last_logged|].
    split; [right; right; right; right; eauto|reflexivity]. }
  unfold ret. rewrite disk_bind_unfold.
  match goal with |- context [save_processed_paper faults paper_id ?s4] =>
    destruct (disk_save_run paper_id s4)
      as (r5 & s5 & E5 & _ & Hsave);
    set (s4' := s4) in *
  end.
  rewrite E5.
  assert (Hnotice :
            forall s5', log s5' = log s5 -> ledger s5' = ledger s5 ->
            ledger s5 = recorded paper_id (ledger s) ->
            exists r s1,
              send_telegram_message cfg env chat
                (success_text paper_id paper) s5 = (r, s1)
              /\ last (log s1) = Some (success_post cfg chat paper_id paper)
              /\ ledger s1 = recorded paper_id (ledger s)).
  { intros _ _ _ Hrec. unfold send_telegram_message, requests_post.
    do 2 eexists. split; [reflexivity|]. split; [apply disk_last_logged|].
    exact Hrec. }
  destruct Hsave as [(Hlog & Hl & Hrec)|[(e & -> & Hl & Hlog)
                    |[(e & ids & residue & -> & Hdump & Hl & Hlog)
                     |(ids & -> & Hrec & Hlog)]]].
  - destruct r5 as [e|[]].
    + do 2 eexists. split; [reflexivity|]. left. exists e. eexists.
      split; [reflexivity|]. split; [rewrite Hlog; apply disk_last_logged|].
      split; [right; right; right; right; eauto|]. rewrite Hl. reflexivity.
    + destruct (Hnotice s5 eq_refl eq_refl) as (r & s1 & E & Hlast & Hled).
      { exact (Hrec eq_refl). }
      rewrite E. do 2 eexists. split; [reflexivity|]. right. right. eauto.
  - do 2 eexists. split; [reflexivity|]. left. exists e. eexists.
    split; [reflexivity|]. split; [rewrite Hlog; apply last_snoc|].
    split; [right; right; right; left; eauto|]. rewrite Hl. reflexivity.
  - do 2 eexists. split; [reflexivity|]. right. left.
    exists e, ids. do 2 eexists.
    split; [reflexivity|]. split; [|split; [exact Hdump|exact Hl]].
    rewrite Hlog.
    change [Mkdir (py "scripts"); DumpLedger ids]
      with ([Mkdir (py "scripts")] ++ [DumpLedger ids]).
    rewrite app_assoc. apply last_snoc.
  - destruct (Hnotice s5 eq_refl eq_refl) as (r & s1 & E & Hlast & Hled).
    { exact Hrec. }
    rewrite E. do 2 eexists. split; [reflexivity|]. right. right. eauto.
Qed.

(** When nothing is refused and the file can be read,
    [save_processed_paper] returns, with the identifier recorded. *)
Lemma disk_save_quiet (paper_id : pystr) (s : State) :
  quiet faults -> ledger s <> Garbled ->
  save_processed_paper faults paper_id s
  = (inr tt,
     {| dirs := if bool_decide (paper_id ∈ held (ledger s))
                then dirs s else {[py "scripts"]} ∪ dirs s;
        files := files s;
        ledger := recorded paper_id (ledger s);
        log := log s ++ ledger_calls paper_id (Some (held (ledger s))) |}).
Proof.
  intros (Hmk & _ & Hrd & Hdump) Hsound.
  assert (Hload : load_processed_papers faults s
                  = (inr (held (ledger s)), s)).
  { unfold load_processed_papers. rewrite disk_bind_unfold.
    unfold ledger_exists, json_load_ledger, ret.
    destruct (ledger s) as [|ids|] eqn:E; cbn [fst snd held];
      rewrite ?Hrd, ?E; try reflexivity. congruence. }
  unfold save_processed_paper. rewrite disk_bind_unfold, Hload.
  unfold ledger_calls, recorded. cbn [default from_option id].
  assert (Hwrite :
            (mkdir_exist_ok faults (dirname PROCESSED_FILE) ;;
             json_dump_ledger faults (held (ledger s) ++ [paper_id])) s
            = (inr tt,
               {| dirs := {[py "scripts"]} ∪ dirs s;
                  files := files s;
                  ledger := Json (held (ledger s) ++ [paper_id]);
                  log := log s ++ [Mkdir (py "scripts");
                                   DumpLedger (held (ledger s) ++ [paper_id])]
               |})).
  { rewrite disk_bind_unfold. unfold mkdir_exist_ok. rewrite Hmk.
    unfold json_dump_ledger. rewrite Hdump.
    change (dirname PROCESSED_FILE) with (py "scripts").
    unfold logged. cbn [log dirs files ledger].
    rewrite <- app_assoc. reflexivity. }
  destruct (decide (paper_id ∈ held (ledger s))) as [Hin|Hin].
  - rewrite bool_decide_eq_false_2 by (intros H; exact (H Hin)).
    rewrite bool_decide_eq_true_2 by exact Hin.
    rewrite app_nil_r.
    destruct (ledger s) as [|ids|] eqn:E; cbn [held] in Hin.
    + inversion Hin.
    + rewrite bool_decide_eq_true_2 by exact Hin.
      rewrite <- E. destruct s; reflexivity.
    + congruence.
  - rewrite bool_decide_eq_true_2 by exact Hin.
    rewrite bool_decide_eq_false_2 by exact Hin.
    cbv zeta. rewrite Hwrite.
    destruct (ledger s) as [|ids|] eqn:E; cbn [held] in *.
    + reflexivity.
    + rewrite bool_decide_eq_false_2 by exact Hin. reflexivity.
    + congruence.
Qed.

Lemma send_telegram_message_grows chat body :
  grows (send_telegram_message cfg env chat body).
Proof. apply grows_when. intros s. right. eexists. reflexivity. Qed.

Lemma mkdir_exist_ok_grows path : grows (mkdir_exist_ok faults path).
Proof.
  apply grows_when. intros s. right. unfold mkdir_exist_ok.
  destruct (mkdir_fault faults (log s) path); eexists; reflexivity.
Qed.

Lemma load_processed_papers_grows : grows (load_processed_papers faults).
Proof.
  apply grows_when. intros s. left.
  destruct (disk_load_run s) as (r & -> & _). reflexivity.
Qed.

Lemma try_process_paper_grows chat paper_id :
  grows (try_process_paper strftime cfg env faults chat paper_id).
Proof.
  unfold try_process_paper, process_paper.
  apply grows_try_except; [|intros e; apply send_telegram_message_grows].
  apply grows_bind; [apply send_telegram_message_grows|]. intros _.
  apply grows_bind.
  { apply grows_when. intros s. right. eexists. reflexivity. }
  intros paper. apply grows_bind.
  { apply grows_when. intros s. right. eexists. reflexivity. }
  intros summary_text. apply grows_bind.
  { apply grows_when. intros s. left. reflexivity. }
  intros markdown. apply grows_bind.
  { unfold save_summary_to_file.
    apply grows_bind; [apply mkdir_exist_ok_grows|]. intros _.
    apply grows_bind; [|intros _; apply grows_ret].
    apply grows_when. intros s. right. unfold write_text.
    destruct (write_fault faults (log s) _ _) as [[e residue]|];
      eexists; reflexivity. }
  intros _. apply grows_bind; [|intros _; apply send_telegram_message_grows].
  unfold save_processed_paper.
  apply grows_bind; [apply load_processed_papers_grows|]. intros processed.
  destruct (bool_decide _); [|apply grows_ret].
  apply grows_bind; [apply mkdir_exist_ok_grows|]. intros _.
  apply grows_when. intros s. right. unfold json_dump_ledger.
  destruct (dump_fault faults (log s) _) as [[e residue]|];
    eexists; reflexivity.
Qed.

End Steps.

Section Loop.

Variable is_digit : N -> bool.
Variable strftime : datetime -> pystr -> pystr.
Variable cfg : Config.
Variable env : Env.
Variable faults : Faults.

Lemma disk_for_updates_cons processed u rest found :
  for_updates is_digit strftime cfg env faults processed (u :: rest) found
  = match msg u with
    | None => for_updates is_digit strftime cfg env faults processed rest found
    | Some message =>
        let chat := chat_id message in
        if bool_decide (Some (str_int chat) ≠ TELEGRAM_CHAT_ID cfg) then
          for_updates is_digit strftime cfg env faults processed rest found
        else
          match extract_arxiv_id is_digit (default [] (text message)) with
          | None | Some [] =>
              for_updates is_digit strftime cfg env faults processed rest found
          | Some paper_id =>
              if bool_decide (paper_id ∈ processed) then
                for_updates is_digit strftime cfg env faults processed rest
                  found
              else
                try_process_paper strftime cfg env faults chat paper_id ;;
                for_updates is_digit strftime cfg env faults processed rest
                  true
          end
    end.
Proof. reflexivity. Qed.

(** With the channel id not set nothing happens in the loop. *)
Lemma disk_for_updates_without_chat processed updates found s :
  TELEGRAM_CHAT_ID cfg = None ->
  for_updates is_digit strftime cfg env faults processed updates found s
  = (inr found, s).
Proof.
  intros H. induction updates as [|u rest IH]; [reflexivity|].
  rewrite disk_for_updates_cons. destruct (msg u) as [m|]; [|exact IH].
  cbv zeta. rewrite bool_decide_eq_true_2; [exact IH|].
  rewrite H. discriminate.
Qed.

Lemma disk_poll_run (s : State) :
  exists r,
    get_telegram_updates cfg env s
    = (r, logged (Get (bot_url cfg "getUpdates")) s)
    /\ (forall e, http_get env (log s) (bot_url cfg "getUpdates") = inl e ->
                  r = inl e).
Proof.
  unfold get_telegram_updates. rewrite disk_bind_unfold. unfold requests_get.
  destruct (http_get env (log s) _) as [e|resp].
  { eexists. split; [reflexivity|]. intros e0 [= <-]. reflexivity. }
  destruct (status_code resp =? 200)%Z.
  - destruct (json resp) as [e|result]; eexists;
      (split; [reflexivity|discriminate]).
  - eexists. split; [reflexivity|discriminate].
Qed.

Lemma for_updates_grows processed updates : forall found,
  grows (for_updates is_digit strftime cfg env faults processed updates found).
Proof.
  induction updates as [|u rest IH]; intros found.
  - apply grows_ret.
  - rewrite disk_for_updates_cons. destruct (msg u) as [m|]; [|apply IH].
    cbv zeta. destruct (bool_decide (Some _ ≠ _)); [apply IH|].
    destruct (extract_arxiv_id is_digit _) as [[|c paper_id]|];
      try apply IH.
    destruct (bool_decide _); [apply IH|].
    apply grows_bind; [apply try_process_paper_grows|]. intros _. apply IH.
Qed.

End Loop.

End DiskFacts.

(** ** The first model is the disk on which nothing is refused *)

Module AgreeFacts.

Lemma agrees_ret {A} (a : A) : agrees (Disk.ret a) (ret a).
Proof. intros w. reflexivity. Qed.

Lemma agrees_raise {A} (e : exn) : agrees (@Disk.raise A e) (raise e).
Proof. intros w. reflexivity. Qed.

Lemma agrees_bind {A B} (d : Disk.M A) (c : M A)
      (kd : A -> Disk.M B) (kc : A -> M B) :
  agrees d c -> (forall a, agrees (kd a) (kc a)) ->
  agrees (Disk.bind d kd) (bind c kc).
Proof.
  intros H Hk w. unfold Disk.bind, bind. rewrite (H w). unfold on_disk.
  destruct (c w) as [[e|a] w']; simpl; [reflexivity|apply Hk].
Qed.

Lemma agrees_try_except {A} (d : Disk.M A) (c : M A)
      (hd : exn -> Disk.M A) (hc : exn -> M A) :
  agrees d c -> (forall e, agrees (hd e) (hc e)) ->
  agrees (Disk.try_except d hd) (try_except c hc).
Proof.
  intros H Hh w. unfold Disk.try_except, try_except. rewrite (H w).
  unfold on_disk.
  destruct (c w) as [[e|a] w']; simpl; [apply Hh|reflexivity].
Qed.

Section Script.

Variable is_digit : N -> bool.
Variable strftime : datetime -> pystr -> pystr.
Variable cfg : Config.
Variable env : Env.

Lemma load_processed_papers_agrees :
  agrees (Disk.load_processed_papers Disk.no_faults) load_processed_papers.
Proof.
  intros w. unfold Disk.load_processed_papers, load_processed_papers,
    Disk.bind, bind, Disk.ledger_exists, ledger_exists,
    Disk.json_load_ledger, json_load_ledger, on_disk.
  destruct w as [d f [ids|] l]; reflexivity.
Qed.

Lemma mkdir_exist_ok_agrees path :
  agrees (Disk.mkdir_exist_ok Disk.no_faults path) (mkdir_exist_ok path).
Proof. intros w. reflexivity. Qed.

Lemma write_text_agrees path content :
  agrees (Disk.write_text Disk.no_faults path content)
         (write_text path content).
Proof. intros w. reflexivity. Qed.

Lemma json_dump_ledger_agrees ids :
  agrees (Disk.json_dump_ledger Disk.no_faults ids) (json_dump_ledger ids).
Proof. intros w. reflexivity. Qed.

Lemma save_processed_paper_agrees paper_id :
  agrees (Disk.save_processed_paper Disk.no_faults paper_id)
         (save_processed_paper paper_id).
Proof.
  apply agrees_bind; [apply load_processed_papers_agrees|].
  intros processed. destruct (bool_decide (paper_id ∉ processed)).
  - apply agrees_bind; [apply mkdir_exist_ok_agrees|].
    intros _. apply json_dump_ledger_agrees.
  - apply agrees_ret.
Qed.

Lemma send_telegram_message_agrees chat message :
  agrees (Disk.send_telegram_message cfg env chat message)
         (send_telegram_message cfg env chat message).
Proof. intros w. reflexivity. Qed.

Lemma get_telegram_updates_agrees :
  agrees (Disk.get_telegram_updates cfg env) (get_telegram_updates cfg env).
Proof.
  apply agrees_bind; [intros w; reflexivity|].
  intros resp. destruct (status_code resp =? 200)%Z; [|apply agrees_ret].
  destruct (json resp); [apply agrees_raise|apply agrees_ret].
Qed.

Lemma save_summary_to_file_agrees paper_id content :
  agrees (Disk.save_summary_to_file Disk.no_faults paper_id content)
         (save_summary_to_file paper_id content).
Proof.
  apply agrees_bind; [apply mkdir_exist_ok_agrees|]. intros _.
  apply agrees_bind; [apply write_text_agrees|]. intros _.
  apply agrees_ret.
Qed.

Lemma process_paper_agrees chat paper_id :
  agrees (Disk.process_paper strftime cfg env Disk.no_faults chat paper_id)
         (process_paper strftime cfg env chat paper_id).
Proof.
  apply agrees_bind; [apply send_telegram_message_agrees|]. intros _.
  apply agrees_bind; [intros w; reflexivity|]. intros paper.
  apply agrees_bind; [intros w; reflexivity|]. intros summary_text.
  apply agrees_bind.
  { apply agrees_bind; [intros w; reflexivity|]. intros today.
    apply agrees_ret. }
  intros markdown_content.
  apply agrees_bind; [apply save_summary_to_file_agrees|]. intros _.
  apply agrees_bind; [apply save_processed_paper_agrees|]. intros _.
  apply send_telegram_message_agrees.
Qed.

Lemma try_process_paper_agrees chat paper_id :
  agrees (Disk.try_process_paper strftime cfg env Disk.no_faults chat paper_id)
         (try_process_paper strftime cfg env chat paper_id).
Proof.
  apply agrees_try_except; [apply process_paper_agrees|].
  intros e. apply send_telegram_message_agrees.
Qed.

Lemma for_updates_agrees processed updates : forall found,
  agrees (Disk.for_updates is_digit strftime cfg env Disk.no_faults
            processed updates found)
         (for_updates is_digit strftime cfg env processed updates found).
Proof.
  induction updates as [|u rest IH]; intros found; [apply agrees_ret|].
  simpl. destruct (msg u) as [m|]; [|apply IH].
  destruct (bool_decide (Some _ ≠ _)); [apply IH|].
  destruct (extract_arxiv_id is_digit _) as [[|c paper_id]|]; try apply IH.
  destruct (bool_decide _); [apply IH|].
  apply agrees_bind; [apply try_process_paper_agrees|]. intros _. apply IH.
Qed.

Lemma process_new_papers_agrees :
  agrees (Disk.process_new_papers is_digit strftime cfg env Disk.no_faults)
         (process_new_papers is_digit strftime cfg env).
Proof.
  apply agrees_bind; [apply get_telegram_updates_agrees|]. intros updates.
  apply agrees_bind; [apply load_processed_papers_agrees|]. intros processed.
  apply agrees_bind; [apply for_updates_agrees|]. intros _.
  apply agrees_ret.
Qed.

(** With nothing refused and a ledger file that is missing or holds a
    list, the script on the disk does what the first model does. *)
Lemma main_agrees :
  agrees (Disk.main is_digit strftime cfg env Disk.no_faults)
         (main is_digit strftime cfg env).
Proof.
  apply agrees_bind; [intros w; reflexivity|]. intros _.
  apply process_new_papers_agrees.
Qed.

End Script.

End AgreeFacts.

(** ** What fails, and what a failure leaves behind *)


Section DiskClaims.
Import Disk DiskFacts TextFacts.

Variable is_digit : N -> bool.
Variable strftime : datetime -> pystr -> pystr.
Variable cfg : Config.
Variable env : Env.
Variable faults : Faults.

Local Open Scope disk_scope.

Lemma before_ledger_write_not_success chat paper_id paper :
  ~ before_ledger_write cfg chat paper_id (success_post cfg chat paper_id paper).
Proof.
  unfold before_ledger_write, success_post, status_post.
  intros [H|[H|[(m & q & H)|[(p & H)|(p & c & H)]]]]; discriminate.
Qed.

Lemma before_ledger_write_not_dump chat paper_id ids :
  ~ before_ledger_write cfg chat paper_id (DumpLedger ids).
Proof.
  unfold before_ledger_write, status_post.
  intros [H|[H|[(m & q & H)|[(p & H)|(p & c & H)]]]]; discriminate.
Qed.

(** C1 (as amended). Whenever the body of the [try] raises, for whatever
    reason, the handler posts a failure notification to the same chat, and
    its text contains [str(e)]; the handler itself writes nothing. The
    last call the body made tells where it failed. When that call is the
    status notification, the fetch, the generation request, a [mkdir] or
    the summary write (the body got no further than reading the ledger),
    the ledger file is as it was before the message was processed. When it
    is the success notification, the identifier is recorded in the ledger
    file. The only other case is a failure in rewriting the ledger file
    itself: the file is then as it was when it could not be opened, and
    holds what the interrupted write left when it was. *)
Theorem failure_is_notified
    (chat : Z) (paper_id : pystr) (s : State) (e : exn) (s1 : State) :
  process_paper strftime cfg env faults chat paper_id s = (inl e, s1) ->
  exists r s2 c,
    try_process_paper strftime cfg env faults chat paper_id s = (r, s2)
    /\ log s2 = log s1 ++ [failure_post cfg chat paper_id e]
    /\ contains (str_exn e) (failure_text paper_id e)
    /\ ledger s2 = ledger s1 /\ files s2 = files s1 /\ dirs s2 = dirs s1
    /\ last (log s1) = Some c
    /\ (before_ledger_write cfg chat paper_id c
        \/ (exists ids, c = DumpLedger ids)
        \/ (exists paper, c = success_post cfg chat paper_id paper))
    /\ (before_ledger_write cfg chat paper_id c -> ledger s2 = ledger s)
    /\ ((exists paper, c = success_post cfg chat paper_id paper) ->
        ledger s2 = recorded paper_id (ledger s))
    /\ ((exists ids, c = DumpLedger ids) ->
        exists ids h residue,
          c = DumpLedger ids
          /\ dump_fault faults h ids = Some (e, residue)
          /\ ledger s2 = default (ledger s) residue).
Proof.
  intros Hrun.
  assert (Htry : try_process_paper strftime cfg env faults chat paper_id s
                 = send_telegram_message cfg env chat
                     (failure_text paper_id e) s1).
  { unfold try_process_paper, try_except. rewrite Hrun. reflexivity. }
  assert (Hcontains : contains (str_exn e) (failure_text paper_id e)).
  { unfold failure_text. rewrite !app_assoc. apply contains_suffix. }
  destruct (disk_process_paper_run strftime cfg env faults chat paper_id s)
    as (r0 & s0 & Hrun0 & Hcases).
  rewrite Hrun in Hrun0. injection Hrun0 as <- <-.
  unfold send_telegram_message, requests_post in Htry.
  destruct Hcases as [(e0 & c & _ & Hlast & Hearly & Hl)
                     |[(e0 & ids & h & residue & He0 & Hlast & Hdump & Hl)
                      |(paper & Hlast & Hl)]].
  - do 2 eexists. exists c. split; [exact Htry|].
    cbn [log ledger files dirs logged].
    split; [reflexivity|]. split; [exact Hcontains|].
    split; [reflexivity|]. split; [reflexivity|]. split; [reflexivity|].
    split; [exact Hlast|]. split; [auto|]. split; [auto|]. split.
    + intros (paper & ->). exfalso.
      exact (before_ledger_write_not_success _ _ _ Hearly).
    + intros (ids & ->). exfalso.
      exact (before_ledger_write_not_dump _ _ _ Hearly).
  - injection He0 as <-.
    do 2 eexists. exists (DumpLedger ids). split; [exact Htry|].
    cbn [log ledger files dirs logged].
    split; [reflexivity|]. split; [exact Hcontains|].
    split; [reflexivity|]. split; [reflexivity|]. split; [reflexivity|].
    split; [exact Hlast|]. split; [eauto|]. split; [|split].
    + intros H. exfalso. exact (before_ledger_write_not_dump _ _ _ H).
    + intros (paper & H). discriminate.
    + intros _. exists ids, h, residue. auto.
  - do 2 eexists. exists (success_post cfg chat paper_id paper).
    split; [exact Htry|]. cbn [log ledger files dirs logged].
    split; [reflexivity|]. split; [exact Hcontains|].
    split; [reflexivity|]. split; [reflexivity|]. split; [reflexivity|].
    split; [exact Hlast|]. split; [eauto|]. split; [|split].
    + intros H. exfalso. exact (before_ledger_write_not_success _ _ _ H).
    + intros _. exact Hl.
    + intros (ids & H). discriminate.
Qed.

Local Abbreviation model_name := (py "gemini-2.0-flash-exp").

(** X5. When nothing is refused on the disk, the ledger file can be read,
    the status notification goes out, arXiv returns the paper and the
    generation returns a text, [process_paper] writes the rendered
    document to [<id>/<id>.md] and leaves every other file alone, records
    the identifier in the ledger, and ends with the success notification.
    The calls are, in order: status notification, fetch, generation,
    [mkdir], the file write, the ledger update (none when the identifier
    is already recorded), success notification. It then returns normally
    exactly when the success notification does not raise. *)
Theorem successful_paper_is_written_and_recorded
    (chat : Z) (paper_id : pystr) (s : State)
    (paper : Paper) (summary_text : pystr) :
  let s1 := logged (status_post cfg chat paper_id) s in
  let s2 := logged (ArxivSearch [paper_id]) s1 in
  let generation := GenerateContent model_name (prompt_of strftime paper) in
  let s3 := logged generation s2 in
  let markdown := markdown_of strftime paper summary_text (clock env (log s3)) in
  quiet faults ->
  ledger s <> Garbled ->
  http_post env (log s) (bot_url cfg "sendMessage") chat
            (status_text paper_id) = None ->
  arxiv_first env (log s1) paper_id = inr paper ->
  gemini env (log s2) model_name (prompt_of strftime paper)
  = inr summary_text ->
  exists r s' before_notice,
    process_paper strftime cfg env faults chat paper_id s = (r, s')
    /\ files s' !! summary_path paper_id = Some markdown
    /\ (forall p, p <> summary_path paper_id ->
                  files s' !! p = files s !! p)
    /\ ledger s' = recorded paper_id (ledger s)
    /\ paper_id ∈ held (ledger s')
    /\ paper_id ∈ dirs s'
    /\ before_notice
       = log s ++ [status_post cfg chat paper_id; ArxivSearch [paper_id];
                   generation; Mkdir paper_id;
                   WriteText (summary_path paper_id) markdown]
               ++ ledger_calls paper_id (Some (held (ledger s)))
    /\ log s' = before_notice ++ [success_post cfg chat paper_id paper]
    /\ (r = inr tt <->
        http_post env before_notice (bot_url cfg "sendMessage") chat
                  (success_text paper_id paper) = None).
Proof.
  intros s1 s2 generation s3 markdown Hquiet Hsound E1 E2 E3.
  pose proof Hquiet as (Hmk & Hwr & _ & _).
  unfold process_paper.
  rewrite disk_bind_unfold. unfold send_telegram_message at 1, requests_post.
  rewrite E1.
  rewrite disk_bind_unfold. unfold arxiv_search_first.
  fold (status_post cfg chat paper_id). fold s1. rewrite E2.
  rewrite disk_bind_unfold. unfold generate_summary, generate_content.
  fold s2. rewrite E3. fold generation. fold s3.
  rewrite disk_bind_unfold. unfold create_markdown_summary at 1.
  rewrite disk_bind_unfold. unfold datetime_now, ret.
  rewrite disk_bind_unfold. fold markdown.
  unfold save_summary_to_file. rewrite disk_bind_unfold.
  unfold mkdir_exist_ok at 1. rewrite Hmk.
  cbv zeta. rewrite disk_bind_unfold. unfold write_text. rewrite Hwr.
  unfold ret. rewrite disk_bind_unfold.
  match goal with |- context [save_processed_paper faults paper_id ?s4] =>
    rewrite (disk_save_quiet faults paper_id s4 Hquiet Hsound)
  end.
  unfold send_telegram_message, requests_post.
  cbn [log ledger files dirs logged].
  fold (summary_path paper_id).
  do 3 eexists. split; [reflexivity|]. cbn [log ledger files dirs logged].
  split; [apply lookup_insert_eq|].
  split; [intros p Hp; apply lookup_insert_ne; auto|].
  split; [reflexivity|]. split.
  { apply recorded_holds. exact Hsound. }
  split.
  { destruct (bool_decide _).
    - apply elem_of_union_l, elem_of_singleton. reflexivity.
    - apply elem_of_union_r, elem_of_union_l, elem_of_singleton. reflexivity. }
  split; [|split; [reflexivity|]].
  - unfold s3, s2, s1. cbn [log logged]. rewrite <- !app_assoc. reflexivity.
  - destruct (http_post env _ _ chat (success_text paper_id paper));
      split; auto; discriminate.
Qed.


(** C5 (as amended). The configuration values are used as read, [None]
    when absent, and nothing checks them: whatever the configuration, a
    run configures the generation client and polls the inbox (with the bot
    token absent, at the address spelled with "None"); with the channel id
    absent every polled update is skipped, so the poll is the last call
    and nothing is written. A failure outside the [try] halts the run
    right after the poll: a poll that raises, and a ledger file that
    cannot be opened or decoded when the run loads it. A failure inside
    the [try] is caught: the loop goes on with the next update when the
    failure notification is posted; when the post of the failure
    notification raises, the loop stops there and the run ends with that
    exception. *)
Theorem startup_checks_nothing (s : State) :
  let poll := Get (bot_url cfg "getUpdates") in
  let started := log s ++ [Configure (GEMINI_API_KEY cfg)] in
  exists r s' rest,
    main is_digit strftime cfg env faults s = (r, s')
    /\ log s' = started ++ poll :: rest
    /\ (TELEGRAM_BOT_TOKEN cfg = None ->
        bot_url cfg "getUpdates"
        = py "https://api.telegram.org/botNone/getUpdates")
    /\ (TELEGRAM_CHAT_ID cfg = None ->
        rest = [] /\ dirs s' = dirs s /\ files s' = files s
        /\ ledger s' = ledger s)
    /\ (forall e,
          http_get env started (bot_url cfg "getUpdates") = inl e ->
          r = inl e /\ rest = [])
    /\ (ledger s = Garbled
        \/ (ledger s <> Missing
            /\ exists e, read_fault faults (started ++ [poll]) = Some e) ->
        (exists e, r = inl e) /\ rest = [])
    /\ (forall chat paper_id s0 e s1,
          process_paper strftime cfg env faults chat paper_id s0
          = (inl e, s1) ->
          try_process_paper strftime cfg env faults chat paper_id s0
          = (match http_post env (log s1) (bot_url cfg "sendMessage") chat
                             (failure_text paper_id e) with
             | Some e' => inl e'
             | None => inr tt
             end,
             logged (failure_post cfg chat paper_id e) s1))
    /\ (forall processed u m paper_id others found s0 r1 s1,
          msg u = Some m ->
          Some (str_int (chat_id m)) = TELEGRAM_CHAT_ID cfg ->
          extract_arxiv_id is_digit (default [] (text m)) = Some paper_id ->
          paper_id ∉ processed ->
          try_process_paper strftime cfg env faults (chat_id m) paper_id s0
          = (r1, s1) ->
          for_updates is_digit strftime cfg env faults processed
            (u :: others) found s0
          = match r1 with
            | inl e => (inl e, s1)
            | inr _ =>
                for_updates is_digit strftime cfg env faults processed
                  others true s1
            end)
    /\ (forall s0 updates s1 processed e s2,
          get_telegram_updates cfg env s0 = (inr updates, s1) ->
          load_processed_papers faults s1 = (inr processed, s1) ->
          for_updates is_digit strftime cfg env faults processed updates
            false s1 = (inl e, s2) ->
          process_new_papers is_digit strftime cfg env faults s0
          = (inl e, s2)).
Proof.
  intros poll started.
  assert (Hurl : TELEGRAM_BOT_TOKEN cfg = None ->
                 bot_url cfg "getUpdates"
                 = py "https://api.telegram.org/botNone/getUpdates").
  { intros H. unfold bot_url. rewrite H. reflexivity. }
  assert (Htry : forall chat paper_id s0 e s1,
            process_paper strftime cfg env faults chat paper_id s0
            = (inl e, s1) ->
            try_process_paper strftime cfg env faults chat paper_id s0
            = (match http_post env (log s1) (bot_url cfg "sendMessage") chat
                               (failure_text paper_id e) with
               | Some e' => inl e'
               | None => inr tt
               end,
               logged (failure_post cfg chat paper_id e) s1)).
  { intros chat paper_id s0 e s1 H. unfold try_process_paper, try_except.
    rewrite H. reflexivity. }
  assert (Hloop : forall processed u m paper_id others found s0 r1 s1,
            msg u = Some m ->
            Some (str_int (chat_id m)) = TELEGRAM_CHAT_ID cfg ->
            extract_arxiv_id is_digit (default [] (text m)) = Some paper_id ->
            paper_id ∉ processed ->
            try_process_paper strftime cfg env faults (chat_id m) paper_id s0
            = (r1, s1) ->
            for_updates is_digit strftime cfg env faults processed
              (u :: others) found s0
            = match r1 with
              | inl e => (inl e, s1)
              | inr _ =>
                  for_updates is_digit strftime cfg env faults processed
                    others true s1
              end).
  { intros processed u m paper_id others found s0 r1 s1 Hm Hchat Hid Hnew Hr.
    rewrite disk_for_updates_cons, Hm. cbv zeta.
    rewrite bool_decide_eq_false_2 by (intros H; exact (H Hchat)).
    rewrite Hid.
    destruct (ExtractMore.extract_shape _ _ _ Hid)
      as (_ & a & b & -> & _ & _).
    assert (E : exists c l, a ++ 46%N :: b = c :: l)
      by (destruct a; simpl; eauto).
    destruct E as (c & l & E). rewrite E in *.
    rewrite bool_decide_eq_false_2 by exact Hnew.
    rewrite disk_bind_unfold, Hr. destruct r1; reflexivity. }
  assert (Hrun : forall s0 updates s1 processed e s2,
            get_telegram_updates cfg env s0 = (inr updates, s1) ->
            load_processed_papers faults s1 = (inr processed, s1) ->
            for_updates is_digit strftime cfg env faults processed updates
              false s1 = (inl e, s2) ->
            process_new_papers is_digit strftime cfg env faults s0
            = (inl e, s2)).
  { intros s0 updates s1 processed e s2 Hget Hload Hfor.
    unfold process_new_papers.
    rewrite disk_bind_unfold, Hget, disk_bind_unfold, Hload,
      disk_bind_unfold, Hfor.
    reflexivity. }
  unfold main. rewrite disk_bind_unfold. unfold genai_configure.
  set (s0 := logged (Configure (GEMINI_API_KEY cfg)) s).
  unfold process_new_papers. rewrite disk_bind_unfold.
  destruct (disk_poll_run cfg env s0) as (r1 & Hget & Hpoll). rewrite Hget.
  change (logged (Get (bot_url cfg "getUpdates")) s0) with (logged poll s0)
    in *.
  set (s1 := logged poll s0) in *.
  assert (Hlog1 : log s1 = started ++ [poll]) by reflexivity.
  destruct r1 as [e|updates].
  { exists (inl e), s1, []. split; [reflexivity|].
    split; [exact Hlog1|]. split; [exact Hurl|]. split; [auto|].
    split; [intros e0 H0; split;
            [pose proof (Hpoll e0 H0); congruence|reflexivity]|].
    split; [eauto|]. split; [exact Htry|]. split; [exact Hloop|exact Hrun]. }
  assert (Hnopoll : forall e,
            http_get env started (bot_url cfg "getUpdates") = inl e -> False).
  { intros e H. specialize (Hpoll e H). discriminate. }
  rewrite disk_bind_unfold.
  destruct (disk_load_run faults s1)
    as (r2 & -> & _ & _ & Hgarbled & Hrefused).
  destruct r2 as [e|processed].
  { exists (inl e), s1, []. split; [reflexivity|].
    split; [exact Hlog1|]. split; [exact Hurl|]. split; [auto|].
    split; [intros e0 H0; destruct (Hnopoll e0 H0)|].
    split; [eauto|]. split; [exact Htry|]. split; [exact Hloop|exact Hrun]. }
  assert (Hsound : ledger s = Garbled
                   \/ (ledger s <> Missing
                       /\ exists e, read_fault faults (started ++ [poll])
                                    = Some e) ->
                   False).
  { intros [H|(H & e & He)].
    - destruct (Hgarbled H) as (e & He). discriminate.
    - rewrite <- Hlog1 in He. specialize (Hrefused e He H). discriminate. }
  rewrite disk_bind_unfold.
  destruct (for_updates_grows is_digit strftime cfg env faults
              processed updates false s1) as (new & Hlog).
  assert (Hquiet : TELEGRAM_CHAT_ID cfg = None ->
                   for_updates is_digit strftime cfg env faults processed
                     updates false s1 = (inr false, s1)).
  { intros H. apply disk_for_updates_without_chat. exact H. }
  destruct (for_updates is_digit strftime cfg env faults processed updates
              false s1) as [[e|b] s2] eqn:Efor; simpl in Hlog.
  - exists (inl e), s2, new. split; [reflexivity|].
    split; [rewrite Hlog; unfold started; rewrite <- !app_assoc;
            reflexivity|].
    split; [exact Hurl|]. split.
    { intros H. specialize (Hquiet H). discriminate. }
    split; [intros e0 H0; destruct (Hnopoll e0 H0)|].
    split; [intros H; destruct (Hsound H)|].
    split; [exact Htry|]. split; [exact Hloop|exact Hrun].
  - exists (inr tt), s2, new. split; [reflexivity|].
    split; [rewrite Hlog; unfold started; rewrite <- !app_assoc;
            reflexivity|].
    split; [exact Hurl|]. split.
    { intros H. specialize (Hquiet H). injection Hquiet as _ ->.
      split; [|auto]. simpl in Hlog.
      apply (f_equal length) in Hlog. rewrite !length_app in Hlog.
      destruct new; [reflexivity|simpl in Hlog; lia]. }
    split; [intros e0 H0; destruct (Hnopoll e0 H0)|].
    split; [intros H; destruct (Hsound H)|].
    split; [exact Htry|]. split; [exact Hloop|exact Hrun].
Qed.

End DiskClaims.

(** ** Examples on the failing disk *)

Lemma quiet_no_faults : quiet Disk.no_faults.
Proof. repeat split. Qed.

(** The summary file cannot be written: the failure is notified, and the
    ledger file is still missing. *)
Lemma failure_is_notified_witness :
  exists r s2,
    Disk.try_process_paper sample_strftime sample_config env_ok
      faults_no_write 42 (py "2301.01234") empty_disk = (r, s2)
    /\ last (Disk.log s2)
       = Some (failure_post sample_config 42 (py "2301.01234")
                 (Exception (py "Permission denied")))
    /\ Disk.ledger s2 = Disk.Missing.
Proof.
  destruct (failure_is_notified sample_strftime sample_config env_ok
              faults_no_write 42 (py "2301.01234") empty_disk
              (Exception (py "Permission denied"))
              (snd (Disk.process_paper sample_strftime sample_config env_ok
                      faults_no_write 42 (py "2301.01234") empty_disk))
              eq_refl)
    as (r & s2 & c & Hrun & Hlog & _ & _ & _ & _ & Hlast & _ & Hkeep & _).
  exists r, s2. split; [exact Hrun|]. split.
  - rewrite Hlog. apply last_snoc.
  - apply Hkeep. injection Hlast as <-.
    right. right. right. right. eauto.
Defined.

(** With every service answering and nothing refused, the paper is
    written and recorded. *)
Lemma successful_paper_is_written_and_recorded_witness :
  exists r s',
    Disk.process_paper sample_strftime sample_config env_ok Disk.no_faults
      42 (py "2301.01234") empty_disk = (r, s')
    /\ Disk.ledger s' = Disk.Json [py "2301.01234"]
    /\ is_Some (Disk.files s' !! summary_path (py "2301.01234")).
Proof.
  assert (Hsound : Disk.ledger empty_disk <> Disk.Garbled) by discriminate.
  destruct (successful_paper_is_written_and_recorded
              sample_strftime sample_config env_ok Disk.no_faults
              42 (py "2301.01234") empty_disk sample_paper (py "ok")
              quiet_no_faults Hsound eq_refl eq_refl eq_refl)
    as (r & s' & before & Hrun & Hfile & _ & Hledger & _).
  exists r, s'. split; [exact Hrun|]. split; [exact Hledger|].
  rewrite Hfile. eauto.
Defined.

